(** * pythonnet [setup.py]: the build orchestration, embedded and verified

    The script drives external tools (nuget, msbuild or xbuild,
    pkg-config, the distutils compiler and linker) in a fixed order.  It
    is embedded here as a state-and-exception monad over a small model of
    the host:

    - a file system that answers the [os] queries the script makes
      ([os.path.exists], [os.path.isdir], [os.listdir]) and that changes
      only through the script's own calls ([os.makedirs], [mkpath],
      [copy_file]); what the external tools write or remove is not part
      of it. A file-system call raises where the tree itself rules it
      out (an empty path, a path that is there already, something above
      it that is not a directory, a source that is not a regular file),
      and wherever the environment refuses it (no permission, a full
      disk);
    - an oracle that decides how each external invocation ends (the
      return code and the two output streams of a child process, the
      failure of the stock builder, the compiler or the linker, the
      refusal of a file-system call) and that may depend on everything
      that happened before;
    - a log of every call that leaves the script, in the order it
      happened.

    The first part is the program: the Python library functions the
    script calls, then the module level and the three command classes,
    each definition under the name it has in the source.  The second
    part is the vocabulary of the statements.  The theorems of the third
    part are statements about the log, the returned value or raised
    exception, and the tree. *)

From Stdlib Require Import String Ascii List ZArith Bool Lia.
From Stdlib Require Import DecimalString.
Import ListNotations.
Local Open Scope string_scope.
Local Open Scope Z_scope.

(** ** Python strings *)

Module Py.

(** [sep.join(l)] *)
Definition join (sep : string) (l : list string) : string := String.concat sep l.

(** [str(n)] and [%d] for an integer. *)
Definition str_of_int (z : Z) : string := NilZero.string_of_int (Z.to_int z).

(** The characters [str.strip()] removes: space, tab, newline, carriage
    return, vertical tab, form feed. *)
Definition is_space (c : ascii) : bool :=
  let n := nat_of_ascii c in
  (Nat.eqb n 32 || (Nat.leb 9 n && Nat.leb n 13))%bool.

Fixpoint lstrip (s : string) : string :=
  match s with
  | EmptyString => EmptyString
  | String c r => if is_space c then lstrip r else s
  end.

Fixpoint rstrip (s : string) : string :=
  match s with
  | EmptyString => EmptyString
  | String c r =>
      match rstrip r with
      | EmptyString => if is_space c then EmptyString else String c EmptyString
      | r' => String c r'
      end
  end.

(** [s.strip()] *)
Definition strip (s : string) : string := rstrip (lstrip s).

(** [s.split(sep)] for a one-character separator: every occurrence cuts,
    so two separators in a row give an empty piece, and the empty string
    gives one empty piece. *)
Fixpoint split (sep : ascii) (s : string) : list string :=
  match s with
  | EmptyString => [EmptyString]
  | String c r =>
      if Ascii.eqb c sep then EmptyString :: split sep r
      else match split sep r with
           | [] => [String c EmptyString]
           | w :: ws => String c w :: ws
           end
  end.

(** [s.lower()] on ASCII letters. *)
Definition lower_char (c : ascii) : ascii :=
  let n := nat_of_ascii c in
  if (Nat.leb 65 n && Nat.leb n 90)%bool then ascii_of_nat (n + 32) else c.

Fixpoint map_chars (f : ascii -> ascii) (s : string) : string :=
  match s with
  | EmptyString => EmptyString
  | String c r => String (f c) (map_chars f r)
  end.

Fixpoint contains_char (c : ascii) (s : string) : bool :=
  match s with
  | EmptyString => false
  | String d r => (Ascii.eqb d c || contains_char c r)%bool
  end.

Fixpoint ends_with_char (c : ascii) (s : string) : bool :=
  match s with
  | EmptyString => false
  | String d EmptyString => Ascii.eqb d c
  | String _ r => ends_with_char c r
  end.

Definition starts_with_char (c : ascii) (s : string) : bool :=
  match s with
  | EmptyString => false
  | String d _ => Ascii.eqb d c
  end.

End Py.

(** ** The host: interpreter facts, registry, file system, external tools *)

(** What [os.stat] can say about a path. *)
Inductive kind := File | Dir.

(** The part of the tree the script inspects: the kind of a path (absent:
    [None]) and the entry names of a directory ([None]: [os.listdir]
    raises). *)
Record FS := mkFS {
  fs_kind : string -> option kind;
  fs_listdir : string -> option (list string)
}.

(** The exceptions that can leave the script. [CalledProcessError] has the
    three attributes of the Python class; [output] is [None] unless the
    raiser passes it. *)
Inductive exn :=
| CalledProcessError (returncode : Z) (cmd : string) (output : option string)
| OSError (msg : string)
| RuntimeError (msg : string)
| NotImplementedError (msg : string)
| DistutilsError (msg : string)
| TypeError (msg : string).

(** How a child process ends: it could not be started, or it exited with a
    return code after writing to its two streams. *)
Inductive proc_result :=
| SpawnFailed (msg : string)
| Exited (returncode : Z) (out err : string).

(** A distutils [Extension]: the attributes the script reads or sets. *)
Record Extension := mkExtension {
  name : string;
  sources : list string;
  define_macros : list (string * option string);
  undef_macros : list string;
  include_dirs : list string;
  library_dirs : list string;
  runtime_library_dirs : list string;
  depends : list string;
  extra_compile_args : list string;
  extra_link_args : list string
}.

(** A preprocessor macro as [compile] takes it: [(name, value)] defines,
    the 1-tuple [(name,)] undefines. *)
Inductive macro :=
| Define (n : string) (v : option string)
| Undef (n : string).

(** Keyword arguments of [self.compiler.compile]. *)
Record compile_args := mkCompile {
  c_sources : list string;
  c_output_dir : string;
  c_macros : list macro;
  c_include_dirs : list string;
  c_debug : bool;
  c_extra_postargs : list string;
  c_depends : list string
}.

(** Arguments of [self.compiler.link_executable]. *)
Record link_args := mkLink {
  l_objects : list string;
  l_output_progname : string;
  l_output_dir : string;
  l_libraries : list string;
  l_library_dirs : list string;
  l_runtime_library_dirs : list string;
  l_extra_postargs : list string;
  l_debug : bool
}.

(** One entry of the log per call that leaves the script, with how it
    ended. [Exec] is a child process: its command line, the [shell] flag,
    whether standard output was piped back, and the result. A
    file-system call is logged with the exception it raised, if any. *)
Inductive event :=
| Exec (cmd : string) (shell : bool) (piped : bool) (r : proc_result)
| Announce (msg : string)
| Warn (msg : string)
| Makedirs (path : string) (err : option exn)
| Mkpath (path : string) (err : option exn)
| CopyFile (src dst : string) (err : option exn)
| StockBuildExtension (ext : Extension) (err : option exn)
| Compile (a : compile_args) (r : exn + list string)
| LinkExecutable (a : link_args) (err : option exn).

Record State := mkState {
  fs : FS;
  log : list event
}.

(** The environment decides how every external invocation ends; it may
    look at everything that happened before. *)
Record World := mkWorld {
  w_proc : State -> string -> bool -> proc_result;
  w_stock_build_extension : State -> Extension -> option exn;
  w_compile : State -> compile_args -> exn + list string;
  w_link_executable : State -> link_args -> option exn;
  (** [glob] on a directory part that itself holds wildcards: the
      directories it expands to. *)
  w_glob_dirs : State -> string -> list string;
  (** A file-system call that the tree allows and the environment
      refuses all the same (no permission, a full disk): the message of
      the error. *)
  w_makedirs : State -> string -> option string;
  w_mkpath : State -> string -> option string;
  w_copy_file : State -> string -> string -> option string
}.

(** Facts about the interpreter and the machine, fixed for a run. *)
Record Host := mkHost {
  sys_platform : string;
  architecture_bits : string;
  sys_version_info : Z * Z;
  sys_maxunicode : Z;
  os_path_abspath : string -> string;
  (** [get_config_vars("BLDLIBRARY")[0]] *)
  config_var_BLDLIBRARY : string;
  (** [_winreg.OpenKey(HKLM, key)] succeeds *)
  reg_key_exists : string -> bool;
  (** [_winreg.QueryValueEx(key, name)]: the value and its type, or the
      [WindowsError] it raises *)
  reg_query_value : string -> string -> exn + (string * Z)
}.

(** ** The state-and-exception monad *)

Definition M (A : Type) : Type := State -> (exn + A) * State.

Definition ret {A} (a : A) : M A := fun st => (inr a, st).

Definition raise {A} (e : exn) : M A := fun st => (inl e, st).

Definition bind {A B} (m : M A) (k : A -> M B) : M B :=
  fun st =>
    match m st with
    | (inl e, st') => (inl e, st')
    | (inr a, st') => k a st'
    end.

Declare Scope monad_scope.
Delimit Scope monad_scope with monad.
Notation "x <- m ;; k" := (bind m (fun x => k))
  (at level 61, m at next level, right associativity) : monad_scope.
Notation "m ;; k" := (bind m (fun _ => k))
  (at level 61, right associativity) : monad_scope.
Notation "' pat <- m ;; k" := (bind m (fun x => match x with pat => k end))
  (at level 61, pat pattern, m at next level, right associativity) : monad_scope.
Local Open Scope monad_scope.

Definition emit (e : event) : M unit :=
  fun st => (inr tt, mkState (fs st) (log st ++ [e])).

Definition set_kind (p : string) (k : kind) : M unit :=
  fun st =>
    (inr tt,
     mkState (mkFS (fun q => if String.eqb q p then Some k else fs_kind (fs st) q)
                   (fs_listdir (fs st)))
             (log st)).

(** [for x in l: body(x)] *)
Fixpoint for_each {A} (l : list A) (body : A -> M unit) : M unit :=
  match l with
  | [] => ret tt
  | x :: r => body x ;; for_each r body
  end.

(** [if c: body] *)
Definition when (c : bool) (body : M unit) : M unit :=
  if c then body else ret tt.

(** The double-quote character the script puts around the msbuild path
    and around the define list. *)
Definition dquote : string := String (ascii_of_nat 34) EmptyString.

(** ** [os], [os.path], [glob], [fnmatch], [subprocess] and the distutils
    services, as far as the script uses them *)

Section Library.

Variable w : World.
Variable h : Host.

(** [os.name == "nt"] goes with [sys.platform == "win32"]. *)
Definition on_windows : bool := String.eqb (sys_platform h) "win32".

(** [os.sep]. The drive letters and the second separator of [ntpath] are
    not modelled: the script joins relative names only. *)
Definition os_sep : ascii := if on_windows then "\"%char else "/"%char.

Definition os_curdir : string := ".".

(** [os.path.join(a, b)], as [posixpath] has it. With the backslash for
    separator it is what [ntpath] gives for components that hold no
    drive letter and no forward slash. *)
Definition os_path_join (a b : string) : string :=
  if Py.starts_with_char os_sep b then b
  else match a with
       | EmptyString => b
       | _ => if Py.ends_with_char os_sep a then a ++ b
              else a ++ String os_sep b
       end.

(** [s.rstrip(os.sep)] *)
Fixpoint rstrip_sep (s : string) : string :=
  match s with
  | EmptyString => EmptyString
  | String c r =>
      match rstrip_sep r with
      | EmptyString => if Ascii.eqb c os_sep then EmptyString else String c EmptyString
      | r' => String c r'
      end
  end.

(** Cut at the last separator: the part up to and including it, and the
    part after it; [None] when there is no separator. *)
Fixpoint rcut_sep (s : string) : option (string * string) :=
  match s with
  | EmptyString => None
  | String c r =>
      match rcut_sep r with
      | Some (hd, tl) => Some (String c hd, tl)
      | None => if Ascii.eqb c os_sep then Some (String c EmptyString, r) else None
      end
  end.

(** [os.path.split(p)]: the head loses its trailing separators unless it
    consists of separators only. *)
Definition os_path_split (p : string) : string * string :=
  match rcut_sep p with
  | None => (EmptyString, p)
  | Some (hd, tl) =>
      match rstrip_sep hd with
      | EmptyString => (hd, tl)
      | hd' => (hd', tl)
      end
  end.

Definition os_path_dirname (p : string) : string := fst (os_path_split p).
Definition os_path_basename (p : string) : string := snd (os_path_split p).

(** [os.path.exists(p)] as a function of the tree; the empty path never
    exists. *)
Definition path_exists (f : FS) (p : string) : bool :=
  match p with
  | EmptyString => false
  | _ => match fs_kind f p with Some _ => true | None => false end
  end.

Definition path_isdir (f : FS) (p : string) : bool :=
  match p with
  | EmptyString => false
  | _ => match fs_kind f p with Some Dir => true | _ => false end
  end.

Definition os_path_exists (p : string) : M bool :=
  fun st => (inr (path_exists (fs st) p), st).

Definition os_path_isdir (p : string) : M bool :=
  fun st => (inr (path_isdir (fs st) p), st).

(** [os.listdir(p)] *)
Definition os_listdir (p : string) : M (list string) :=
  fun st =>
    match fs_listdir (fs st) p with
    | Some names => (inr names, st)
    | None => (inl (OSError p), st)
    end.

(** [os.path.isfile(p)] as a function of the tree. *)
Definition path_isfile (f : FS) (p : string) : bool :=
  match p with
  | EmptyString => false
  | _ => match fs_kind f p with Some File => true | _ => false end
  end.

(** The directories above a path, the nearest first: [dirname] applied
    again and again until it gives nothing new. *)
Fixpoint parents_within (n : nat) (p : string) : list string :=
  match n with
  | O => []
  | S n' =>
      let d := os_path_dirname p in
      if (String.eqb d EmptyString || String.eqb d p)%bool then []
      else d :: parents_within n' d
  end.

Definition parents (p : string) : list string :=
  parents_within (String.length p) p.

(** Something above the path is there and is not a directory: nothing
    can be created at the path. *)
Definition under_a_file (f : FS) (p : string) : bool :=
  existsb (fun d => (path_exists f d && negb (path_isdir f d))%bool) (parents p).

(** The tree with a directory at each of the paths [ps]. *)
Definition with_dirs (f : FS) (ps : list string) : FS :=
  mkFS (fun q => if existsb (String.eqb q) ps then Some Dir else fs_kind f q)
       (fs_listdir f).

(** [os.makedirs(p)]: the path and the missing directories above it are
    created. It raises [OSError] when the path is empty or is there
    already, when something above it is not a directory, and when the
    environment refuses. *)
Definition os_makedirs (p : string) : M unit :=
  fun st =>
    let r :=
      if (String.eqb p EmptyString || path_exists (fs st) p
          || under_a_file (fs st) p)%bool
      then Some (OSError p)
      else option_map OSError (w_makedirs w st p) in
    let st' := mkState (fs st) (log st ++ [Makedirs p r]) in
    match r with
    | Some e => (inl e, st')
    | None => (inr tt, mkState (with_dirs (fs st) (p :: parents p)) (log st'))
    end.

(** [os.path.normcase]: lower case and backslashes on Windows, the
    identity elsewhere. *)
Definition os_path_normcase (s : string) : string :=
  if on_windows
  then Py.map_chars (fun c => if Ascii.eqb c "/"%char then "\"%char
                              else Py.lower_char c) s
  else s.

(** [fnmatch.fnmatchcase(name, pat)] for patterns made of literal
    characters, [*] and [?] (a bracket is taken literally: the script's
    patterns hold none). *)
Fixpoint fnmatchcase_pat (pat : string) : string -> bool :=
  match pat with
  | EmptyString => fun n => match n with EmptyString => true | _ => false end
  | String c p' =>
      if Ascii.eqb c "*"%char then
        fix star (n : string) : bool :=
          (fnmatchcase_pat p' n ||
           match n with
           | EmptyString => false
           | String _ n' => star n'
           end)%bool
      else if Ascii.eqb c "?"%char then
        fun n => match n with
                 | EmptyString => false
                 | String _ n' => fnmatchcase_pat p' n'
                 end
      else
        fun n => match n with
                 | EmptyString => false
                 | String d n' => (Ascii.eqb c d && fnmatchcase_pat p' n')%bool
                 end
  end.

Definition fnmatchcase (n pat : string) : bool := fnmatchcase_pat pat n.

(** [fnmatch.filter(names, pat)] *)
Definition fnmatch_filter (names : list string) (pat : string) : list string :=
  let pat' := os_path_normcase pat in
  filter (fun n => fnmatchcase (os_path_normcase n) pat') names.

(** [glob.has_magic] *)
Definition has_magic (s : string) : bool :=
  (Py.contains_char "*"%char s || Py.contains_char "?"%char s
   || Py.contains_char "["%char s)%bool.

(** [glob.glob1(dirname, pattern)]: the visible entries of the directory
    that match; a directory that cannot be listed gives nothing. *)
Definition glob1 (f : FS) (dirname pattern : string) : list string :=
  let dirname := match dirname with EmptyString => os_curdir | _ => dirname end in
  match fs_listdir f dirname with
  | None => []
  | Some names =>
      let names :=
        if negb (Py.starts_with_char "."%char pattern)
        then filter (fun x => negb (Py.starts_with_char "."%char x)) names
        else names in
      fnmatch_filter names pattern
  end.

(** [glob.glob0(dirname, basename)] *)
Definition glob0 (f : FS) (dirname basename : string) : list string :=
  match basename with
  | EmptyString => if path_isdir f dirname then [basename] else []
  | _ => if path_exists f (os_path_join dirname basename) then [basename] else []
  end.

(** [glob.glob(pathname)] *)
Definition glob (pathname : string) : M (list string) :=
  fun st =>
    let f := fs st in
    if negb (has_magic pathname) then
      (inr (if path_exists f pathname then [pathname] else []), st)
    else
      let (dirname, basename) := os_path_split pathname in
      match dirname with
      | EmptyString => (inr (glob1 f os_curdir basename), st)
      | _ =>
          let dirs :=
            if (negb (String.eqb dirname pathname) && has_magic dirname)%bool
            then w_glob_dirs w st dirname
            else [dirname] in
          let glob_in_dir := if has_magic basename then glob1 else glob0 in
          (inr (flat_map (fun d => map (os_path_join d) (glob_in_dir f d basename)) dirs),
           st)
      end.

(** [Popen(cmd, shell=shell).wait()]: the child inherits the streams of
    the script, only the return code comes back. *)
Definition Popen_wait (cmd : string) (shell : bool) : M Z :=
  fun st =>
    let r := w_proc w st cmd shell in
    let st' := mkState (fs st) (log st ++ [Exec cmd shell false r]) in
    match r with
    | SpawnFailed msg => (inl (OSError msg), st')
    | Exited rc _ _ => (inr rc, st')
    end.

(** [p = Popen(cmd, stdout=PIPE, shell=shell); p.communicate(); p.poll()]:
    standard output is captured, standard error is not ([communicate]
    gives [None] for it). *)
Definition Popen_communicate (cmd : string) (shell : bool) : M (string * Z) :=
  fun st =>
    let r := w_proc w st cmd shell in
    let st' := mkState (fs st) (log st ++ [Exec cmd shell true r]) in
    match r with
    | SpawnFailed msg => (inl (OSError msg), st')
    | Exited rc out _ => (inr (out, rc), st')
    end.

(** [subprocess.check_call(cmd, shell=shell)] *)
Definition check_call (cmd : string) (shell : bool) : M unit :=
  retcode <- Popen_wait cmd shell ;;
  if negb (retcode =? 0) then raise (CalledProcessError retcode cmd None)
  else ret tt.

(** [Command.announce], [Command.warn] *)
Definition announce (msg : string) : M unit := emit (Announce msg).
Definition warn (msg : string) : M unit := emit (Warn msg).

(** [Command.mkpath(p)] (distutils [dir_util.mkpath]): nothing to do for
    a path that is a directory or is empty; otherwise the path and the
    missing directories above it are created. It raises
    [DistutilsFileError] when something at the path or above it is there
    and is not a directory, and when the environment refuses. *)
Definition mkpath (p : string) : M unit :=
  fun st =>
    if (path_isdir (fs st) p || String.eqb p EmptyString)%bool
    then (inr tt, mkState (fs st) (log st ++ [Mkpath p None]))
    else
      let r :=
        if (path_exists (fs st) p || under_a_file (fs st) p)%bool
        then Some (DistutilsError ("could not create '" ++ p ++ "'"))
        else option_map DistutilsError (w_mkpath w st p) in
      let st' := mkState (fs st) (log st ++ [Mkpath p r]) in
      match r with
      | Some e => (inl e, st')
      | None => (inr tt, mkState (with_dirs (fs st) (p :: parents p)) (log st'))
      end.

(** [Command.copy_file(src, dst)] (distutils [file_util.copy_file]): it
    raises [DistutilsFileError] when the source is not a regular file,
    and when the environment refuses; a destination that is a directory
    receives the file under the base name of the source. *)
Definition copy_file (src dst : string) : M unit :=
  fun st =>
    let r :=
      if negb (path_isfile (fs st) src)
      then Some (DistutilsError ("can't copy '" ++ src
                                 ++ "': doesn't exist or not a regular file"))
      else option_map DistutilsError (w_copy_file w st src dst) in
    let st' := mkState (fs st) (log st ++ [CopyFile src dst r]) in
    match r with
    | Some e => (inl e, st')
    | None =>
        let target :=
          if path_isdir (fs st) dst
          then os_path_join dst (os_path_basename src)
          else dst in
        set_kind target File st'
    end.

(** The stock [build_ext.build_extension(self, ext)] *)
Definition build_ext_build_extension (ext : Extension) : M unit :=
  fun st =>
    let r := w_stock_build_extension w st ext in
    let st' := mkState (fs st) (log st ++ [StockBuildExtension ext r]) in
    match r with
    | Some e => (inl e, st')
    | None => (inr tt, st')
    end.

(** [self.compiler.compile(...)]: the object files *)
Definition compiler_compile (a : compile_args) : M (list string) :=
  fun st =>
    let r := w_compile w st a in
    (r, mkState (fs st) (log st ++ [Compile a r])).

(** [self.compiler.link_executable(...)] *)
Definition compiler_link_executable (a : link_args) : M unit :=
  fun st =>
    let r := w_link_executable w st a in
    let st' := mkState (fs st) (log st ++ [LinkExecutable a r]) in
    match r with
    | Some e => (inl e, st')
    | None => (inr tt, st')
    end.

End Library.

(** ** Module level of [setup.py] *)

(** The names the module binds when it is imported. *)
Record Globals := mkGlobals {
  CONFIG : string;
  DEVTOOLS : string;
  VERBOSITY : string;
  PLATFORM : string;
  _xbuild : string;
  _defines_sep : string;
  _config : string;
  _npython_exe : string
}.

Definition REG_SZ : Z := 1.

(** [_find_msbuild_path()]: the first registry key that opens decides;
    a [WindowsError] of [QueryValueEx] is not caught. *)
Definition _find_msbuild_path (h : Host) : exn + string :=
  let keys_to_check :=
    [ "SOFTWARE\Microsoft\MSBuild\ToolsVersions\12.0";
      "SOFTWARE\Microsoft\MSBuild\ToolsVersions\4.0";
      "SOFTWARE\Microsoft\MSBuild\ToolsVersions\3.5";
      "SOFTWARE\Microsoft\MSBuild\ToolsVersions\2.0" ] in
  match find (reg_key_exists h) keys_to_check with
  | None => inl (RuntimeError "msbuild.exe could not be found")
  | Some hkey =>
      match reg_query_value h hkey "MSBuildToolsPath" with
      | inl e => inl e
      | inr (val, type_) =>
          if negb (type_ =? REG_SZ)
          then inl (RuntimeError "msbuild.exe could not be found")
          else inr (os_path_join h val "msbuild.exe")
      end
  end.

(** Lines 17 to 72: the constants and the toolchain branch. *)
Definition module_globals (h : Host) : exn + Globals :=
  let CONFIG := "Release" in
  let DEVTOOLS := if String.eqb (sys_platform h) "win32" then "MsDev" else "Mono" in
  let VERBOSITY := "minimal" in
  let PLATFORM := if String.eqb (architecture_bits h) "64bit" then "x64" else "x86" in
  if String.eqb DEVTOOLS "MsDev" then
    match _find_msbuild_path h with
    | inl e => inl e
    | inr p =>
        inr (mkGlobals CONFIG DEVTOOLS VERBOSITY PLATFORM
               (dquote ++ p ++ dquote) ";" (CONFIG ++ "Win") "nPython.exe")
    end
  else if String.eqb DEVTOOLS "Mono" then
    inr (mkGlobals CONFIG DEVTOOLS VERBOSITY PLATFORM
           "xbuild" "," (CONFIG ++ "Mono") "npython")
  else
    inl (NotImplementedError
           ("DevTools " ++ DEVTOOLS ++ " not supported (use MsDev or Mono)")).

(** ** The command objects ([self]) *)

(** A [build_ext] command: what the script asks of it. *)
Record build_ext_cmd := mkBuildExt {
  get_ext_fullpath : string -> string;
  build_temp : string;
  debug : bool;
  get_libraries : Extension -> list string
}.

Record install_lib_cmd := mkInstallLib {
  build_dir : string;
  install_dir : string
}.

(** A [build_scripts] command; [scripts] is [None] for Python's [None].
    [distribution_scripts] is what the stock [finalize_options] copies
    into [scripts], [build_ext_command] what
    [get_finalized_command("build_ext")] returns. *)
Record build_scripts_cmd := mkBuildScripts {
  scripts : option (list string);
  distribution_scripts : option (list string);
  build_ext_command : build_ext_cmd
}.

(** The stock [build_scripts.finalize_options(self)] *)
Definition build_scripts_finalize_options (self : build_scripts_cmd)
  : build_scripts_cmd :=
  mkBuildScripts (distribution_scripts self) (distribution_scripts self)
                 (build_ext_command self).

(** ** The three command classes *)

Section Script.

Variable w : World.
Variable h : Host.
Variable g : Globals.

(** [_check_output]: [popenargs0] is the first
    positional argument, [kw_args] the keyword [args] when given. With
    both, the call of [Popen] gets its first parameter twice and raises
    [TypeError] before any process is started. *)
Definition _check_output (popenargs0 : string) (kw_args : option string)
    (shell : bool) : M string :=
  match kw_args with
  | Some _ =>
      raise (TypeError "__init__() got multiple values for keyword argument 'args'")
  | None =>
      '(output, retcode) <- Popen_communicate w popenargs0 shell ;;
      if negb (retcode =? 0) then
        let cmd := match kw_args with
                   | None => popenargs0
                   | Some c => c
                   end in
        raise (CalledProcessError retcode cmd (Some output))
      else ret output
  end.

(** The locals [nuget] and [use_shell] of [_install_packages] *)
Definition nuget_cmd : string * bool :=
  let nuget := os_path_join h (os_path_join h "tools" "nuget") "nuget.exe" in
  if String.eqb (DEVTOOLS g) "Mono" then ("mono " ++ nuget, true)
  else (nuget, false).

(** The body of the loop of [_install_packages], for one entry [dir] of
    [src]; each [continue] ends it. *)
Definition _install_packages_body (nuget : string) (use_shell : bool)
    (dir : string) : M unit :=
  if (String.eqb (DEVTOOLS g) "Mono" && String.eqb dir "clrmodule")%bool then ret tt
  else if (negb (String.eqb (DEVTOOLS g) "Mono") && String.eqb dir "monoclr")%bool
  then ret tt
  else
    let packages_cfg :=
      os_path_join h (os_path_join h "src" dir) "packages.config" in
    present <- os_path_exists packages_cfg ;;
    if negb present then ret tt
    else
      let cmd := nuget ++ " install " ++ packages_cfg ++ " -o packages" in
      announce ("Installng packages for " ++ dir ++ ": " ++ cmd) ;;
      check_call w cmd use_shell.

(** [PythonNET_BuildExt._install_packages] *)
Definition _install_packages : M unit :=
  let '(nuget, use_shell) := nuget_cmd in
  dirs <- os_listdir "src" ;;
  for_each dirs (_install_packages_body nuget use_shell).

(** Lines 120 to 125 of [_build_monoclr]: the four queries and the two
    locals [cflags] and [libs] they give. *)
Definition pkg_config_flags : M (string * string) :=
  mono_libs <- _check_output "pkg-config --libs mono-2" None true ;;
  mono_cflags <- _check_output "pkg-config --cflags mono-2" None true ;;
  glib_libs <- _check_output "pkg-config --libs glib-2.0" None true ;;
  glib_cflags <- _check_output "pkg-config --cflags glib-2.0" None true ;;
  let cflags := Py.strip mono_cflags ++ " " ++ Py.strip glib_cflags in
  let libs := Py.strip mono_libs ++ " " ++ Py.strip glib_libs in
  ret (cflags, libs).

(** [PythonNET_BuildExt._build_monoclr] *)
Definition _build_monoclr (self : build_ext_cmd) (ext : Extension) : M unit :=
  '(cflags, libs) <- pkg_config_flags ;;
  (* build the clr python module *)
  let clr_ext :=
    mkExtension "clr"
      ["src/monoclr/pynetinit.c"; "src/monoclr/clrmod.c"]
      [] [] [] [] [] []
      (Py.split " " cflags)
      (Py.split " " libs) in
  build_ext_build_extension w clr_ext ;;
  (* build the clr python executable *)
  let sources := ["src/monoclr/pynetinit.c"; "src/monoclr/python.c"] in
  let macros :=
    fold_left (fun macros undef => (macros ++ [Undef undef])%list)
      (undef_macros ext)
      (map (fun d => Define (fst d) (snd d)) (define_macros ext)) in
  objects <- compiler_compile w
               (mkCompile sources (build_temp self) macros (include_dirs ext)
                  (debug self) (Py.split " " cflags) (depends ext)) ;;
  let output_dir := os_path_dirname h (get_ext_fullpath self (name ext)) in
  let py_libs := config_var_BLDLIBRARY h in
  let libs := libs ++ " " ++ py_libs in
  compiler_link_executable w
    (mkLink objects (_npython_exe g) output_dir (get_libraries self ext)
       (library_dirs ext) (runtime_library_dirs ext)
       (Py.split " " libs) (debug self)).

(** The local [defines] of [build_extension] *)
Definition defines : list string :=
  let defines :=
    [ "PYTHON" ++ Py.str_of_int (fst (sys_version_info h))
               ++ Py.str_of_int (snd (sys_version_info h));
      if sys_maxunicode h <? 1114111 (* 0x10FFFF *) then "UCS2" else "UCS4" ] in
  if String.eqb (CONFIG g) "Debug" then (defines ++ ["DEBUG"; "TRACE"])%list
  else defines.

(** The local [cmd] of [build_extension] *)
Definition cmd (dest_dir : string) : list string :=
  [ _xbuild g;
    "pythonnet.sln";
    "/p:Configuration=" ++ _config g;
    "/p:Platform=" ++ PLATFORM g;
    "/p:DefineConstants=" ++ dquote ++ Py.join (_defines_sep g) defines ++ dquote;
    "/p:PythonBuildDir=" ++ os_path_abspath h dest_dir;
    "/verbosity:" ++ VERBOSITY g ].

(** [PythonNET_BuildExt.build_extension] *)
Definition build_extension (self : build_ext_cmd) (ext : Extension) : M unit :=
  if negb (String.eqb (name ext) "clr") then
    build_ext_build_extension w ext
  else
    (* install packages using nuget *)
    _install_packages ;;
    let dest_file := get_ext_fullpath self (name ext) in
    let dest_dir := os_path_dirname h dest_file in
    present <- os_path_exists dest_dir ;;
    when (negb present) (os_makedirs w h dest_dir) ;;
    let cmd := cmd dest_dir in
    announce ("Building: " ++ Py.join " " cmd) ;;
    let use_shell := if String.eqb (DEVTOOLS g) "Mono" then true else false in
    check_call w (Py.join " " (cmd ++ ["/t:Clean"])%list) use_shell ;;
    check_call w (Py.join " " (cmd ++ ["/t:Build"])%list) use_shell ;;
    when (String.eqb (DEVTOOLS g) "Mono") (_build_monoclr self ext).

(** [PythonNET_InstallLib.install] *)
Definition install (self : install_lib_cmd) : M unit :=
  isdir <- os_path_isdir (build_dir self) ;;
  if negb isdir then
    warn ("'" ++ build_dir self ++ "' does not exist -- no Python modules to install")
  else
    present <- os_path_exists (install_dir self) ;;
    when (negb present) (mkpath w h (install_dir self)) ;;
    (* only copy clr.pyd and its dependencies *)
    for_each ["clr.*"; "Python.Runtime.*"] (fun pattern =>
      srcfiles <- glob w h (os_path_join h (build_dir self) pattern) ;;
      for_each srcfiles (fun srcfile =>
        let destfile :=
          os_path_join h (install_dir self) (os_path_basename h srcfile) in
        copy_file w h srcfile destfile)).

(** The loop of [finalize_options]: [scripts] is the list built so far. *)
Fixpoint relocate_scripts (output_dir : string) (self_scripts scripts : list string)
  : M (list string) :=
  match self_scripts with
  | [] => ret scripts
  | script :: rest =>
      present <- os_path_exists (os_path_join h output_dir script) ;;
      let script :=
        if present then os_path_join h output_dir script else script in
      relocate_scripts output_dir rest (scripts ++ [script])%list
  end.

(** [PythonNET_BuildScripts.finalize_options]: the command with its
    [scripts] rewritten. *)
Definition finalize_options (self : build_scripts_cmd) : M build_scripts_cmd :=
  let self := build_scripts_finalize_options self in
  (* fixup scripts to look in the build_ext output folder *)
  match scripts self with
  | None | Some [] => ret self
  | Some self_scripts =>
      let build_ext := build_ext_command self in
      let output_dir := os_path_dirname h (get_ext_fullpath build_ext "clr") in
      scripts <- relocate_scripts output_dir self_scripts [] ;;
      ret (mkBuildScripts (Some scripts) (distribution_scripts self)
             (build_ext_command self))
  end.

End Script.

(** ** The [setup] call (lines 244 to 264): what it registers *)

(** [ext_modules]: the one extension, without sources. *)
Definition setup_ext_modules : list Extension :=
  [mkExtension "clr" [] [] [] [] [] [] [] [] []].

(** [scripts]: the companion executable, under the name the toolchain
    profile gives it. *)
Definition setup_scripts (g : Globals) : list string := [_npython_exe g].

(** * The vocabulary of the statements *)

(** ** Reading the log *)

(** A child process that ran and exited with code zero. *)
Definition exit_ok (r : proc_result) : bool :=
  match r with
  | Exited rc _ _ => rc =? 0
  | SpawnFailed _ => false
  end.

(** No child process of the log failed. *)
Definition no_failed_exec (l : list event) : bool :=
  forallb (fun e => match e with Exec _ _ _ r => exit_ok r | _ => true end) l.

(** The child processes of a log, in order: command line and [shell]. *)
Definition execs (l : list event) : list (string * bool) :=
  flat_map (fun e => match e with Exec c s _ _ => [(c, s)] | _ => [] end) l.

(** The copies of a log, in order: source and destination of every call
    of [copy_file], the one that raised included. *)
Definition copied (l : list event) : list (string * string) :=
  flat_map (fun e => match e with CopyFile s d _ => [(s, d)] | _ => [] end) l.

(** The [output] attribute of an exception. *)
Definition exn_output (e : exn) : option string :=
  match e with
  | CalledProcessError _ _ output => output
  | _ => None
  end.

(** The [returncode] attribute of an exception. *)
Definition exn_returncode (e : exn) : option Z :=
  match e with
  | CalledProcessError rc _ _ => Some rc
  | _ => None
  end.

(** ** The script relocator in the words of the specification: a script
    is replaced by its path under the output directory when that path
    exists, and kept otherwise. *)
Definition relocated (h : Host) (f : FS) (output_dir script : string) : string :=
  if path_exists f (os_path_join h output_dir script)
  then os_path_join h output_dir script
  else script.

(** ** The installer *)

Section InstallerVocabulary.

Variable w : World.
Variable h : Host.

(** The directory [glob] lists for [join(d, pattern)]: [d] without its
    trailing separators (a path of separators only is kept). *)
Definition listed_dir (d : string) : string :=
  match rstrip_sep h d with
  | EmptyString => d
  | d' => d'
  end.

(** A name matches a pattern the way [fnmatch.filter] decides it. *)
Definition pattern_matches (pat n : string) : bool :=
  fnmatchcase (os_path_normcase h n) (os_path_normcase h pat).

(** The two fixed patterns of the installer. *)
Definition artifact_patterns : list string := ["clr.*"; "Python.Runtime.*"].

Definition installable (n : string) : bool :=
  (pattern_matches "clr.*" n || pattern_matches "Python.Runtime.*" n)%bool.

(** The entry names of a directory, none when it cannot be listed. *)
Definition listing (f : FS) (d : string) : list string :=
  match fs_listdir f d with
  | Some names => names
  | None => []
  end.

(** The directory [glob1] lists for a directory part: the current
    directory when the part is empty. *)
Definition listable (d0 : string) : string :=
  match d0 with
  | EmptyString => os_curdir
  | _ => d0
  end.

(** The directories [glob] searches for [join(d, pat)]: the directory
    [d] itself, unless its path holds a wildcard, which [glob] expands. *)
Definition glob_dirs (st : State) (d pat : string) : list string :=
  if (negb (String.eqb (listed_dir d) (os_path_join h d pat))
      && has_magic (listed_dir d))%bool
  then w_glob_dirs w st (listed_dir d)
  else [listed_dir d].

(** The copies one pattern gives over the directories searched. *)
Definition pattern_copies (il : install_lib_cmd) (f : FS) (pat : string)
    (dirs : list string) : list (string * string) :=
  flat_map
    (fun d0 =>
       map (fun n => (os_path_join h d0 n,
                      os_path_join h (install_dir il)
                        (os_path_basename h (os_path_join h d0 n))))
           (filter (pattern_matches pat) (listing f (listable d0))))
    dirs.

(** The sources one pattern gives over the directories searched. *)
Definition pattern_sources (f : FS) (pat : string) (dirs : list string)
  : list string :=
  flat_map
    (fun d0 => map (os_path_join h d0)
                 (filter (pattern_matches pat) (listing f (listable d0))))
    dirs.

(** The creation of the install directory, when it is missing and can
    be created. *)
Definition mkpath_events (il : install_lib_cmd) (st : State) : list event :=
  if path_exists (fs st) (install_dir il) then []
  else [Mkpath (install_dir il) None].

(** The events of a loop of copies over the sources [srcs] and how it
    ends: one call per source, until the list is done or a call raises. *)
Inductive copy_trace (il : install_lib_cmd)
  : list string -> list event -> exn + unit -> Prop :=
| copies_done : copy_trace il [] [] (inr tt)
| copy_next src srcs delta r :
    copy_trace il srcs delta r ->
    copy_trace il (src :: srcs)
      (CopyFile src (os_path_join h (install_dir il) (os_path_basename h src)) None
       :: delta) r
| copy_failed src srcs x :
    copy_trace il (src :: srcs)
      [CopyFile src (os_path_join h (install_dir il) (os_path_basename h src))
         (Some x)]
      (inl x).

End InstallerVocabulary.

(** ** Package restore *)

Section RestoreVocabulary.

Variable h : Host.
Variable g : Globals.

(** The restore step in the words of the specification: which
    subdirectories are set aside for the other toolchain, where the
    manifest of a subdirectory is, and the one invocation it gets. *)
Definition reserved_for_inactive_toolchain (dir : string) : bool :=
  if String.eqb (DEVTOOLS g) "Mono" then String.eqb dir "clrmodule"
  else String.eqb dir "monoclr".

Definition manifest_path (dir : string) : string :=
  os_path_join h (os_path_join h "src" dir) "packages.config".

Definition restored (f : FS) (dir : string) : bool :=
  (negb (reserved_for_inactive_toolchain dir) && path_exists f (manifest_path dir))%bool.

Definition restore_cmd (dir : string) : string :=
  fst (nuget_cmd h g) ++ " install " ++ manifest_path dir ++ " -o packages".

Definition restore_call (dir : string) : string * bool :=
  (restore_cmd dir, snd (nuget_cmd h g)).

Definition restore_announcement (dir : string) : string :=
  "Installng packages for " ++ dir ++ ": " ++ restore_cmd dir.

(** The events of a restore step over the subdirectories that are not
    skipped, and how the step ends: one announcement and one invocation
    per subdirectory, until the list is done or an invocation fails. *)
Inductive restore_trace : list string -> list event -> exn + unit -> Prop :=
| restore_done : restore_trace [] [] (inr tt)
| restore_next dir dirs out err delta r :
    restore_trace dirs delta r ->
    restore_trace (dir :: dirs)
      (Announce (restore_announcement dir)
       :: Exec (restore_cmd dir) (snd (nuget_cmd h g)) false (Exited 0 out err)
       :: delta) r
| restore_failed dir dirs rc out err :
    rc <> 0 ->
    restore_trace (dir :: dirs)
      [Announce (restore_announcement dir);
       Exec (restore_cmd dir) (snd (nuget_cmd h g)) false (Exited rc out err)]
      (inl (CalledProcessError rc (restore_cmd dir) None))
| restore_not_started dir dirs msg :
    restore_trace (dir :: dirs)
      [Announce (restore_announcement dir);
       Exec (restore_cmd dir) (snd (nuget_cmd h g)) false (SpawnFailed msg)]
      (inl (OSError msg)).

End RestoreVocabulary.

(** ** What a failing call raises *)

(** The exception an event stands for, if the call it records failed:
    a child process that exits non-zero gives [CalledProcessError] with
    its return code and command line, and with its standard output only
    when that was piped back; a file-system call gives the exception it
    raised. *)
Definition event_error (e : event) : option exn :=
  match e with
  | Exec c _ piped (Exited rc out _) =>
      if rc =? 0 then None
      else Some (CalledProcessError rc c (if piped then Some out else None))
  | Exec _ _ _ (SpawnFailed msg) => Some (OSError msg)
  | Makedirs _ (Some x) => Some x
  | Mkpath _ (Some x) => Some x
  | CopyFile _ _ (Some x) => Some x
  | StockBuildExtension _ (Some x) => Some x
  | Compile _ (inl x) => Some x
  | LinkExecutable _ (Some x) => Some x
  | _ => None
  end.

(** ** Flag discovery (lines 120 to 125) *)

Definition pkg_config_queries : list string :=
  [ "pkg-config --libs mono-2"; "pkg-config --cflags mono-2";
    "pkg-config --libs glib-2.0"; "pkg-config --cflags glib-2.0" ].

(** A query that exited with code zero. *)
Definition query_ok (c out err : string) : event :=
  Exec c true true (Exited 0 out err).

Definition answered (c : string) (e : event) : Prop :=
  exists out err, e = query_ok c out err.

(** The events of the flag discovery and its result: four answered
    queries and the two flag strings, or the queries up to the first one
    that fails and its exception. *)
Inductive flags_trace : list event -> exn + string * string -> Prop :=
| flags_found o1 e1 o2 e2 o3 e3 o4 e4 :
    flags_trace
      [ query_ok "pkg-config --libs mono-2" o1 e1;
        query_ok "pkg-config --cflags mono-2" o2 e2;
        query_ok "pkg-config --libs glib-2.0" o3 e3;
        query_ok "pkg-config --cflags glib-2.0" o4 e4 ]
      (inr (Py.strip o2 ++ " " ++ Py.strip o4, Py.strip o1 ++ " " ++ Py.strip o3))
| flags_query_failed before c after oks rc out err :
    pkg_config_queries = (before ++ c :: after)%list ->
    Forall2 answered before oks ->
    rc <> 0 ->
    flags_trace (oks ++ [Exec c true true (Exited rc out err)])
      (inl (CalledProcessError rc c (Some out)))
| flags_query_not_started before c after oks msg :
    pkg_config_queries = (before ++ c :: after)%list ->
    Forall2 answered before oks ->
    flags_trace (oks ++ [Exec c true true (SpawnFailed msg)]) (inl (OSError msg)).

(** An event of the native shim build: a query whose output is piped
    back, the stock extension builder, the compiler or the linker. *)
Definition is_shim_event (e : event) : bool :=
  match e with
  | Exec _ _ piped _ => piped
  | StockBuildExtension _ _ | Compile _ _ | LinkExecutable _ _ => true
  | _ => false
  end.

(** The last character of a command line. *)
Fixpoint last_char (s : string) : option ascii :=
  match s with
  | EmptyString => None
  | String c EmptyString => Some c
  | String _ r => last_char r
  end.

(** ** The extension build *)

Section BuildVocabulary.

Variable h : Host.
Variable g : Globals.
Variable self : build_ext_cmd.
Variable ext : Extension.

(** The locals of [build_extension] and [_build_monoclr] the statements
    below name. *)
Definition dest_dir : string :=
  os_path_dirname h (get_ext_fullpath self (name ext)).

Definition clean_cmd : string := Py.join " " (cmd h g dest_dir ++ ["/t:Clean"])%list.
Definition build_cmd : string := Py.join " " (cmd h g dest_dir ++ ["/t:Build"])%list.

Definition use_shell : bool :=
  if String.eqb (DEVTOOLS g) "Mono" then true else false.

Definition building_announcement : string :=
  "Building: " ++ Py.join " " (cmd h g dest_dir).

Definition shim_module (cflags libs : string) : Extension :=
  mkExtension "clr"
    ["src/monoclr/pynetinit.c"; "src/monoclr/clrmod.c"]
    [] [] [] [] [] []
    (Py.split " " cflags)
    (Py.split " " libs).

Definition shim_compile (cflags : string) : compile_args :=
  mkCompile ["src/monoclr/pynetinit.c"; "src/monoclr/python.c"]
    (build_temp self)
    (fold_left (fun macros undef => (macros ++ [Undef undef])%list)
       (undef_macros ext)
       (map (fun d => Define (fst d) (snd d)) (define_macros ext)))
    (include_dirs ext) (debug self) (Py.split " " cflags) (depends ext).

Definition shim_link (objects : list string) (libs : string) : link_args :=
  mkLink objects (_npython_exe g) dest_dir (get_libraries self ext)
    (library_dirs ext) (runtime_library_dirs ext)
    (Py.split " " (libs ++ " " ++ config_var_BLDLIBRARY h)) (debug self).

(** The events of the shim build and how it ends. *)
Inductive shim_trace : list event -> exn + unit -> Prop :=
| shim_flags_failed dq x :
    flags_trace dq (inl x) -> shim_trace dq (inl x)
| shim_module_failed dq cflags libs x :
    flags_trace dq (inr (cflags, libs)) ->
    shim_trace (dq ++ [StockBuildExtension (shim_module cflags libs) (Some x)]) (inl x)
| shim_compile_failed dq cflags libs x :
    flags_trace dq (inr (cflags, libs)) ->
    shim_trace (dq ++ [StockBuildExtension (shim_module cflags libs) None;
                       Compile (shim_compile cflags) (inl x)]) (inl x)
| shim_linked dq cflags libs objects err :
    flags_trace dq (inr (cflags, libs)) ->
    shim_trace (dq ++ [StockBuildExtension (shim_module cflags libs) None;
                       Compile (shim_compile cflags) (inr objects);
                       LinkExecutable (shim_link objects libs) err])
      (match err with Some x => inl x | None => inr tt end).

(** The events of the solution build and how it ends. *)
Inductive solution_trace : list event -> exn + unit -> Prop :=
| clean_not_started msg :
    solution_trace [Exec clean_cmd use_shell false (SpawnFailed msg)]
      (inl (OSError msg))
| clean_failed rc out err :
    rc <> 0 ->
    solution_trace [Exec clean_cmd use_shell false (Exited rc out err)]
      (inl (CalledProcessError rc clean_cmd None))
| build_not_started o1 e1 msg :
    solution_trace [Exec clean_cmd use_shell false (Exited 0 o1 e1);
                    Exec build_cmd use_shell false (SpawnFailed msg)]
      (inl (OSError msg))
| build_failed o1 e1 rc out err :
    rc <> 0 ->
    solution_trace [Exec clean_cmd use_shell false (Exited 0 o1 e1);
                    Exec build_cmd use_shell false (Exited rc out err)]
      (inl (CalledProcessError rc build_cmd None))
| solution_built o1 e1 o2 e2 :
    solution_trace [Exec clean_cmd use_shell false (Exited 0 o1 e1);
                    Exec build_cmd use_shell false (Exited 0 o2 e2)]
      (inr tt).

(** The creation of the output directory, when it is missing and can be
    created. *)
Definition mkdir_events (st : State) : list event :=
  if path_exists (fs st) dest_dir then [] else [Makedirs dest_dir None].

(** A whole run of [build_extension] for the extension [clr], from the
    state [st]: the restore step, the output directory, the
    announcement, the solution build and, under Mono, the shim build. *)
Inductive build_run (st : State) : list event -> exn + unit -> Prop :=
| run_no_listing :
    fs_listdir (fs st) "src" = None ->
    build_run st [] (inl (OSError "src"))
| run_restore_failed dirs dr x :
    fs_listdir (fs st) "src" = Some dirs ->
    restore_trace h g (filter (restored h g (fs st)) dirs) dr (inl x) ->
    build_run st dr (inl x)
| run_makedirs_failed dirs dr x :
    fs_listdir (fs st) "src" = Some dirs ->
    restore_trace h g (filter (restored h g (fs st)) dirs) dr (inr tt) ->
    path_exists (fs st) dest_dir = false ->
    build_run st (dr ++ [Makedirs dest_dir (Some x)]) (inl x)
| run_solution_failed dirs dr db x :
    fs_listdir (fs st) "src" = Some dirs ->
    restore_trace h g (filter (restored h g (fs st)) dirs) dr (inr tt) ->
    solution_trace db (inl x) ->
    build_run st (dr ++ mkdir_events st ++ Announce building_announcement :: db)
      (inl x)
| run_primary dirs dr db :
    fs_listdir (fs st) "src" = Some dirs ->
    restore_trace h g (filter (restored h g (fs st)) dirs) dr (inr tt) ->
    solution_trace db (inr tt) ->
    String.eqb (DEVTOOLS g) "Mono" = false ->
    build_run st (dr ++ mkdir_events st ++ Announce building_announcement :: db)
      (inr tt)
| run_alternate dirs dr db ds r :
    fs_listdir (fs st) "src" = Some dirs ->
    restore_trace h g (filter (restored h g (fs st)) dirs) dr (inr tt) ->
    solution_trace db (inr tt) ->
    String.eqb (DEVTOOLS g) "Mono" = true ->
    shim_trace ds r ->
    build_run st
      (dr ++ mkdir_events st ++ Announce building_announcement :: db ++ ds) r.

(** An invocation of the build tool: a child process whose command line
    is the Clean or the Build command line. *)
Definition is_build_tool_call (e : event) : bool :=
  match e with
  | Exec c _ _ _ => (String.eqb c clean_cmd || String.eqb c build_cmd)%bool
  | _ => false
  end.

(** Where a child process of a run comes from, by its command line. *)
Definition exec_origin (e : event) : Prop :=
  match e with
  | Exec c s piped _ =>
      (piped = true /\ s = true /\ In c pkg_config_queries)
      \/ (piped = false /\ s = use_shell /\ (c = clean_cmd \/ c = build_cmd))
      \/ (piped = false /\ s = snd (nuget_cmd h g) /\ exists dir, c = restore_cmd h g dir)
  | _ => True
  end.

End BuildVocabulary.

(** ** The msbuild lookup *)

(** The registry keys [_find_msbuild_path] tries, in the order it tries
    them. *)
Definition msbuild_keys : list string :=
  [ "SOFTWARE\Microsoft\MSBuild\ToolsVersions\12.0";
    "SOFTWARE\Microsoft\MSBuild\ToolsVersions\4.0";
    "SOFTWARE\Microsoft\MSBuild\ToolsVersions\3.5";
    "SOFTWARE\Microsoft\MSBuild\ToolsVersions\2.0" ].

Definition msbuild_not_found : exn :=
  RuntimeError "msbuild.exe could not be found".

(** ** The log of the restore step *)

Section RestoreLog.

Variable h : Host.
Variable g : Globals.

(** The log of a restore step that made the invocations [runs], each a
    subdirectory with how its invocation ended: the announcement of an
    invocation, then the invocation. *)
Definition restore_events (runs : list (string * proc_result)) : list event :=
  flat_map
    (fun dr =>
       [ Announce (restore_announcement h g (fst dr));
         Exec (restore_cmd h g (fst dr)) (snd (nuget_cmd h g)) false (snd dr) ])
    runs.

End RestoreLog.

(** ** Runs that stop at a failure *)

(** Only the last call of a log may have failed. *)
Definition stops_at_failure (l : list event) : Prop :=
  forall pre e post,
    l = (pre ++ e :: post)%list -> post <> [] -> event_error e = None.

(** No call of a log failed. *)
Definition all_succeeded (l : list event) : Prop :=
  forall e, In e l -> event_error e = None.

(** * Concrete hosts, for running the model *)

Module Sample.

Definition host_linux : Host :=
  mkHost "linux2" "64bit" (2, 7) 1114111
    (fun p => "/work/" ++ p) "-lpython2.7"
    (fun _ => false) (fun _ _ => inl (OSError "no registry")).

Definition host_windows : Host :=
  mkHost "win32" "32bit" (2, 7) 65535
    (fun p => "C:\work\" ++ p) "python27.lib"
    (fun k => String.eqb k "SOFTWARE\Microsoft\MSBuild\ToolsVersions\4.0")
    (fun _ _ => inr ("C:\Windows\Microsoft.NET\Framework\v4.0.30319", REG_SZ)).

Definition globals_linux : Globals :=
  mkGlobals "Release" "Mono" "minimal" "x64" "xbuild" "," "ReleaseMono" "npython".

Definition globals_windows : Globals :=
  mkGlobals "Release" "MsDev" "minimal" "x86"
    (dquote ++ "C:\Windows\Microsoft.NET\Framework\v4.0.30319\msbuild.exe" ++ dquote)
    ";" "ReleaseWin" "nPython.exe".

(** A tree given by the kinds of its paths and the listings of its
    directories, as association lists. *)
Definition tree (kinds : list (string * kind)) (dirs : list (string * list string))
  : FS :=
  mkFS
    (fun p => option_map snd (find (fun e => String.eqb (fst e) p) kinds))
    (fun p => option_map snd (find (fun e => String.eqb (fst e) p) dirs)).

(** Every tool succeeds and prints its own command line. *)
Definition world_ok : World :=
  mkWorld (fun _ c _ => Exited 0 (" out:" ++ c ++ " ") "")
          (fun _ _ => None)
          (fun _ a => inr (map (fun s => s ++ ".o") (c_sources a)))
          (fun _ _ => None)
          (fun _ _ => [])
          (fun _ _ => None) (fun _ _ => None) (fun _ _ _ => None).

(** Every command line for which [fails] holds exits with code 1 after
    printing a diagnostic on both streams. *)
Definition world_failing (fails : string -> bool) : World :=
  mkWorld (fun _ c _ => if fails c then Exited 1 "tool stdout" "tool stderr"
                        else Exited 0 EmptyString EmptyString)
          (fun _ _ => None)
          (fun _ a => inr (map (fun s => s ++ ".o") (c_sources a)))
          (fun _ _ => None)
          (fun _ _ => [])
          (fun _ _ => None) (fun _ _ => None) (fun _ _ _ => None).

Definition build_ext_linux : build_ext_cmd :=
  mkBuildExt (fun n => "build/lib.linux-x86_64-2.7/" ++ n ++ ".so")
             "build/temp.linux-x86_64-2.7" false (fun _ => ["python2.7"]).

Definition build_ext_windows : build_ext_cmd :=
  mkBuildExt (fun n => "build\lib.win32-2.7\" ++ n ++ ".pyd")
             "build\temp.win32-2.7" false (fun _ => []).

Definition clr_extension : Extension :=
  mkExtension "clr" [] [] [] [] [] [] [] [] [].

Definition src_tree_linux : FS :=
  tree [ ("src", Dir); ("src/clrmodule", Dir); ("src/monoclr", Dir);
         ("src/runtime", Dir);
         ("src/clrmodule/packages.config", File);
         ("src/monoclr/packages.config", File) ]
       [ ("src", ["clrmodule"; "monoclr"; "runtime"]) ].

Definition src_tree_windows : FS :=
  tree [ ("src", Dir); ("src\clrmodule", Dir); ("src\monoclr", Dir);
         ("src\clrmodule\packages.config", File);
         ("src\monoclr\packages.config", File) ]
       [ ("src", ["clrmodule"; "monoclr"]) ].

Definition out_tree : FS :=
  tree [ ("build/lib", Dir); ("build/lib/clr.so", File);
         ("build/lib/clr.pdb", File); ("build/lib/Python.Runtime.dll", File);
         ("build/lib/unrelated.tmp", File); ("build/lib/npython", File) ]
       [ ("build/lib", ["clr.so"; "clr.pdb"; "Python.Runtime.dll"; "unrelated.tmp"]) ].

Definition st_linux : State := mkState src_tree_linux [].
Definition st_windows : State := mkState src_tree_windows [].
Definition st_out : State := mkState out_tree [].

End Sample.

Module Runs.

Import Sample.

(** The Clean command line on the Linux sample. *)
Definition clean_linux : string :=
  clean_cmd host_linux globals_linux build_ext_linux clr_extension.

Definition build_linux : string :=
  build_cmd host_linux globals_linux build_ext_linux clr_extension.

(** The restore command line for [monoclr] on the Linux sample. *)
Definition restore_monoclr_linux : string :=
  restore_cmd host_linux globals_linux "monoclr".

(** A run of [build_extension] for [clr] on the Linux sample in which
    exactly the command line [failing] exits with code 1. *)
Definition run_linux (failing : string) : (exn + unit) * State :=
  build_extension (world_failing (String.eqb failing)) host_linux globals_linux
    build_ext_linux clr_extension st_linux.

Definition run_linux_ok : (exn + unit) * State :=
  build_extension world_ok host_linux globals_linux
    build_ext_linux clr_extension st_linux.

End Runs.

Module Cases.

Import Sample.

(** A Windows host with two versions of msbuild in the registry. *)
Definition host_two_msbuilds : Host :=
  mkHost "win32" "32bit" (2, 7) 65535 (fun p => p) "python27.lib"
    (fun k => (String.eqb k "SOFTWARE\Microsoft\MSBuild\ToolsVersions\4.0"
               || String.eqb k "SOFTWARE\Microsoft\MSBuild\ToolsVersions\2.0")%bool)
    (fun k _ =>
       if String.eqb k "SOFTWARE\Microsoft\MSBuild\ToolsVersions\4.0"
       then inr ("C:\v4.0", REG_SZ)
       else inr ("C:\v2.0", REG_SZ)).

(** A tree without the projects root. *)
Definition st_bare : State := mkState (tree [] []) [].

(** The shim build alone, on the Linux sample. *)
Definition shim_linux : (exn + unit) * State :=
  _build_monoclr world_ok host_linux globals_linux build_ext_linux clr_extension
    st_linux.

(** The linker call of a run on the Linux sample in which every tool
    succeeds. *)
Definition link_linux : link_args :=
  shim_link host_linux globals_linux build_ext_linux clr_extension
    ["src/monoclr/pynetinit.c.o"; "src/monoclr/python.c.o"]
    "out:pkg-config --libs mono-2 out:pkg-config --libs glib-2.0".

(** The [build_scripts] command of the distribution on the Linux sample,
    and a tree in which the companion executable has been linked. *)
Definition build_scripts_linux : build_scripts_cmd :=
  mkBuildScripts None (Some (setup_scripts globals_linux)) build_ext_linux.

Definition st_linked : State :=
  mkState (tree [ ("build/lib.linux-x86_64-2.7", Dir);
                  ("build/lib.linux-x86_64-2.7/npython", File) ] []) [].

(** A [build_scripts] command with a script given by an absolute path. *)
Definition build_scripts_absolute : build_scripts_cmd :=
  mkBuildScripts None (Some ["/opt/tools/run"]) build_ext_linux.

(** A build directory whose name is a pattern: [b[1]] holds [clr.so],
    and next to it the directory [b1], the one name the pattern [b[1]]
    matches, holds [clr.pdb]. The world expands the pattern as [glob]
    does in this tree. *)
Definition wild_tree : FS :=
  tree [ ("b[1]", Dir); ("b[1]/clr.so", File); ("b1", Dir); ("b1/clr.pdb", File) ]
       [ (".", ["b1"; "b[1]"]); ("b[1]", ["clr.so"]); ("b1", ["clr.pdb"]) ].

Definition st_wild : State := mkState wild_tree [].

Definition world_wild : World :=
  mkWorld (fun _ c _ => Exited 0 (" out:" ++ c ++ " ") EmptyString)
          (fun _ _ => None)
          (fun _ a => inr (map (fun s => s ++ ".o") (c_sources a)))
          (fun _ _ => None)
          (fun _ d => if String.eqb d "b[1]" then ["b1"] else [])
          (fun _ _ => None) (fun _ _ => None) (fun _ _ _ => None).

(** A build directory in which a directory has a matching name, as the
    debug symbols of a build on a Mac have. *)
Definition bundle_tree : FS :=
  tree [ ("build/lib", Dir); ("build/lib/clr.so", File);
         ("build/lib/clr.dSYM", Dir); ("build/lib/Python.Runtime.dll", File) ]
       [ ("build/lib", ["clr.so"; "clr.dSYM"; "Python.Runtime.dll"]) ].

Definition st_bundle : State := mkState bundle_tree [].

End Cases.

(** * Theorems *)

(** ** Running the monad *)

Lemma bind_ok {A B} (m : M A) (k : A -> M B) st a st' :
  m st = (inr a, st') -> bind m k st = k a st'.
Proof. intros E. unfold bind. rewrite E. reflexivity. Qed.

Lemma bind_err {A B} (m : M A) (k : A -> M B) st e st' :
  m st = (inl e, st') -> bind m k st = (inl e, st').
Proof. intros E. unfold bind. rewrite E. reflexivity. Qed.

(** ** Script relocation (lines 213 to 225) *)

Section Relocation.

Variable h : Host.

Lemma relocate_scripts_run output_dir l acc st :
  relocate_scripts h output_dir l acc st
  = (inr (acc ++ map (relocated h (fs st) output_dir) l)%list, st).
Proof.
  revert acc. induction l as [|s l IH]; intros acc; simpl.
  - rewrite app_nil_r. reflexivity.
  - unfold bind, os_path_exists. rewrite IH. unfold relocated.
    rewrite <- app_assoc. reflexivity.
Qed.

(** C9. Every configured script is replaced by its path inside the build
    output directory exactly when that path exists there, and is kept as
    it is otherwise; the step returns normally, and neither the tree nor
    the log changes (no copy, no directory creation, no process). *)
Theorem finalize_options_relocates (self : build_scripts_cmd) (st : State) :
  let output_dir :=
    os_path_dirname h (get_ext_fullpath (build_ext_command self) "clr") in
  exists self',
    finalize_options h self st = (inr self', st)
    /\ scripts self'
       = option_map (map (relocated h (fs st) output_dir)) (distribution_scripts self)
    /\ (forall l, distribution_scripts self = Some l ->
        exists l', scripts self' = Some l' /\ length l' = length l
        /\ forall i s, nth_error l i = Some s ->
             (path_exists (fs st) (os_path_join h output_dir s) = true ->
              nth_error l' i = Some (os_path_join h output_dir s))
             /\ (path_exists (fs st) (os_path_join h output_dir s) = false ->
                 nth_error l' i = Some s)).
Proof.
  intros output_dir. unfold finalize_options. simpl.
  set (f := relocated h (fs st) output_dir).
  assert (Hgen : forall l, exists l',
             Some (map f l) = Some l' /\ length l' = length l
             /\ forall i s, nth_error l i = Some s ->
                  (path_exists (fs st) (os_path_join h output_dir s) = true ->
                   nth_error l' i = Some (os_path_join h output_dir s))
                  /\ (path_exists (fs st) (os_path_join h output_dir s) = false ->
                      nth_error l' i = Some s)).
  { intros l. exists (map f l). split; [reflexivity|]. split; [apply length_map|].
    intros i s Hi. rewrite nth_error_map, Hi. simpl. unfold f, relocated.
    split; intros E; rewrite E; reflexivity. }
  destruct (distribution_scripts self) as [[|s l]|] eqn:Hd.
  - eexists. split; [reflexivity|]. simpl. rewrite Hd. split; [reflexivity|].
    intros l Hl. inversion Hl; subst. apply (Hgen []).
  - eexists. split.
    + unfold bind. fold output_dir. rewrite relocate_scripts_run. reflexivity.
    + simpl. split; [reflexivity|]. intros l0 Hl. inversion Hl; subst.
      apply (Hgen (s :: l)).
  - eexists. split; [reflexivity|]. simpl. rewrite Hd. split; [reflexivity|].
    intros l Hl. discriminate.
Qed.

End Relocation.

(** ** Paths: [os.path.split] after [os.path.join] *)

Section Paths.

Variable h : Host.

Local Abbreviation listed_dir := (listed_dir h).

Lemma contains_char_app c a b :
  Py.contains_char c (a ++ b)
  = (Py.contains_char c a || Py.contains_char c b)%bool.
Proof.
  induction a as [|d a IH]; simpl; [reflexivity|].
  rewrite IH, orb_assoc. reflexivity.
Qed.

Lemma rcut_sep_free b :
  Py.contains_char (os_sep h) b = false -> rcut_sep h b = None.
Proof.
  induction b as [|c b IH]; simpl; intros Hb; [reflexivity|].
  apply orb_false_iff in Hb. destruct Hb as [Hc Hb].
  rewrite (IH Hb), Hc. reflexivity.
Qed.

Lemma rcut_sep_app a b :
  Py.contains_char (os_sep h) b = false ->
  rcut_sep h (a ++ String (os_sep h) b)
  = Some (a ++ String (os_sep h) EmptyString, b).
Proof.
  intros Hb. induction a as [|c a IH]; simpl.
  - rewrite (rcut_sep_free _ Hb), Ascii.eqb_refl. reflexivity.
  - rewrite IH. reflexivity.
Qed.

Lemma ends_with_char_inv c d :
  Py.ends_with_char c d = true -> exists d0, d = d0 ++ String c EmptyString.
Proof.
  induction d as [|x d IH]; [discriminate|].
  destruct d as [|y d].
  - simpl. intros E. apply Ascii.eqb_eq in E. subst. exists EmptyString. reflexivity.
  - intros E. change (Py.ends_with_char c (String y d) = true) in E.
    destruct (IH E) as [d0 Hd0]. exists (String x d0). simpl. rewrite Hd0. reflexivity.
Qed.

Lemma rstrip_sep_snoc d :
  rstrip_sep h (d ++ String (os_sep h) EmptyString) = rstrip_sep h d.
Proof.
  induction d as [|c d IH]; simpl.
  - rewrite Ascii.eqb_refl. reflexivity.
  - rewrite IH. reflexivity.
Qed.

Lemma rstrip_sep_noend d :
  Py.ends_with_char (os_sep h) d = false -> rstrip_sep h d = d.
Proof.
  induction d as [|c d IH]; [reflexivity|].
  destruct d as [|y d].
  - simpl. intros E. rewrite E. reflexivity.
  - intros E. change (Py.ends_with_char (os_sep h) (String y d) = false) in E.
    change (match rstrip_sep h (String y d) with
            | EmptyString =>
                if Ascii.eqb c (os_sep h) then EmptyString else String c EmptyString
            | r' => String c r'
            end = String c (String y d)).
    rewrite (IH E). reflexivity.
Qed.

Lemma rstrip_sep_contains c d :
  Py.contains_char c (rstrip_sep h d) = true -> Py.contains_char c d = true.
Proof.
  induction d as [|x d IH]; simpl; [discriminate|].
  destruct (rstrip_sep h d) as [|y r] eqn:E.
  - destruct (Ascii.eqb x (os_sep h)); simpl; [discriminate|].
    rewrite orb_false_r. intros Hx. rewrite Hx. reflexivity.
  - simpl. intros Hc. apply orb_true_iff in Hc. apply orb_true_iff.
    destruct Hc as [Hc|Hc]; [left; exact Hc|right; apply IH; exact Hc].
Qed.

Lemma listed_dir_nonempty d : d <> EmptyString -> listed_dir d <> EmptyString.
Proof.
  unfold listed_dir. intros Hd. destruct (rstrip_sep h d); [exact Hd|discriminate].
Qed.

Lemma listed_dir_contains c d :
  Py.contains_char c d = false -> Py.contains_char c (listed_dir d) = false.
Proof.
  unfold listed_dir. intros Hd. destruct (rstrip_sep h d) as [|y r] eqn:E; [exact Hd|].
  destruct (Py.contains_char c (String y r)) eqn:Hc; [|reflexivity].
  rewrite <- E in Hc. apply rstrip_sep_contains in Hc. congruence.
Qed.

Lemma has_magic_listed_dir d :
  has_magic d = false -> has_magic (listed_dir d) = false.
Proof.
  unfold has_magic. intros Hd.
  apply orb_false_iff in Hd. destruct Hd as [Hd H3].
  apply orb_false_iff in Hd. destruct Hd as [H1 H2].
  rewrite !listed_dir_contains by assumption. reflexivity.
Qed.

(** A name without separator joins as expected. *)
Lemma os_path_join_name d n :
  Py.contains_char (os_sep h) n = false ->
  os_path_join h d n
  = match d with
    | EmptyString => n
    | _ => if Py.ends_with_char (os_sep h) d then d ++ n
           else d ++ String (os_sep h) n
    end.
Proof.
  intros Hn. unfold os_path_join.
  destruct n as [|c n]; [reflexivity|].
  simpl in Hn. apply orb_false_iff in Hn. destruct Hn as [Hc _].
  simpl. rewrite Hc. reflexivity.
Qed.

Lemma os_path_split_join d n :
  d <> EmptyString ->
  Py.contains_char (os_sep h) n = false ->
  os_path_split h (os_path_join h d n) = (listed_dir d, n).
Proof.
  intros Hd Hn. rewrite (os_path_join_name _ _ Hn).
  destruct d as [|c d]; [congruence|].
  destruct (Py.ends_with_char (os_sep h) (String c d)) eqn:E.
  - destruct (ends_with_char_inv _ _ E) as [d0 Hd0]. rewrite Hd0.
    unfold os_path_split, listed_dir.
    replace ((d0 ++ String (os_sep h) EmptyString) ++ n)
      with (d0 ++ String (os_sep h) n).
    2:{ clear. induction d0 as [|x d0 IH]; simpl; [reflexivity|].
        rewrite IH. reflexivity. }
    rewrite (rcut_sep_app _ _ Hn).
    destruct (rstrip_sep h (d0 ++ String (os_sep h) EmptyString)); reflexivity.
  - unfold os_path_split, listed_dir.
    rewrite (rcut_sep_app _ _ Hn), rstrip_sep_snoc, (rstrip_sep_noend _ E).
    reflexivity.
Qed.

(** The file name survives a join: [basename(join(d, n)) = n]. *)
Lemma os_path_basename_join d n :
  Py.contains_char (os_sep h) n = false ->
  os_path_basename h (os_path_join h d n) = n.
Proof.
  intros Hn. destruct d as [|c d].
  - rewrite (os_path_join_name _ _ Hn). unfold os_path_basename, os_path_split.
    rewrite (rcut_sep_free _ Hn). reflexivity.
  - unfold os_path_basename. rewrite os_path_split_join by (congruence || assumption).
    reflexivity.
Qed.

(** A base name holds no separator. *)
Lemma os_path_basename_sep_free p :
  Py.contains_char (os_sep h) (os_path_basename h p) = false.
Proof.
  unfold os_path_basename, os_path_split.
  destruct (rcut_sep h p) as [[hd tl]|] eqn:E.
  - assert (Htl : Py.contains_char (os_sep h) tl = false).
    { revert hd tl E. induction p as [|c p IH]; simpl; intros hd tl E; [discriminate|].
      destruct (rcut_sep h p) as [[hd' tl']|] eqn:E'.
      - inversion E; subst. eapply IH. reflexivity.
      - destruct (Ascii.eqb c (os_sep h)); [|discriminate].
        inversion E; subst.
        clear -E'. induction tl as [|x tl IH]; simpl in *; [reflexivity|].
        destruct (rcut_sep h tl) as [[a b]|]; [discriminate|].
        destruct (Ascii.eqb x (os_sep h)); [discriminate|].
        simpl. apply IH. reflexivity. }
    destruct (rstrip_sep h hd); exact Htl.
  - simpl. clear -E. induction p as [|x p IH]; simpl in *; [reflexivity|].
    destruct (rcut_sep h p) as [[a b]|]; [discriminate|].
    destruct (Ascii.eqb x (os_sep h)); [discriminate|].
    simpl. apply IH. reflexivity.
Qed.

End Paths.

(** ** The installer (lines 195 to 208) *)

Section Installer.

Variable w : World.
Variable h : Host.

Local Abbreviation pattern_matches := (pattern_matches h).
Local Abbreviation installable := (installable h).
Local Abbreviation glob_dirs := (glob_dirs w h).
Local Abbreviation pattern_copies := (pattern_copies h).
Local Abbreviation pattern_sources := (pattern_sources h).
Local Abbreviation copy_trace := (copy_trace h).

Lemma artifact_pattern_facts pat :
  In pat artifact_patterns ->
  Py.contains_char (os_sep h) pat = false
  /\ has_magic pat = true
  /\ Py.starts_with_char "."%char pat = false.
Proof.
  unfold artifact_patterns, os_sep. intros [E|[E|[]]]; subst;
    destruct (on_windows h); repeat split; reflexivity.
Qed.

Lemma artifact_pattern_visible pat n :
  In pat artifact_patterns ->
  pattern_matches pat n = true ->
  negb (Py.starts_with_char "."%char n) = true.
Proof.
  intros Hp Hm. destruct n as [|c n]; [reflexivity|].
  simpl. destruct (Ascii.eqb c "."%char) eqn:Ec; [|reflexivity].
  apply Ascii.eqb_eq in Ec. subst c. exfalso.
  unfold pattern_matches, os_path_normcase, fnmatchcase in Hm.
  destruct Hp as [E|[E|[]]]; subst; destruct (on_windows h);
    simpl in Hm; discriminate.
Qed.

Lemma filter_filter_implied {A} (p q : A -> bool) l :
  (forall x, p x = true -> q x = true) ->
  filter p (filter q l) = filter p l.
Proof.
  intros Hpq. induction l as [|x l IH]; simpl; [reflexivity|].
  destruct (q x) eqn:Eq; simpl.
  - rewrite IH. reflexivity.
  - destruct (p x) eqn:Ep; [rewrite (Hpq _ Ep) in Eq; discriminate|exact IH].
Qed.

Lemma glob_dirs_plain st d pat :
  has_magic d = false -> glob_dirs st d pat = [listed_dir h d].
Proof.
  intros Hm. unfold glob_dirs. rewrite (has_magic_listed_dir h d Hm), andb_false_r.
  reflexivity.
Qed.

(** What [glob] returns for one of the two patterns under a directory. *)
Lemma glob_artifact_pattern d pat st :
  In pat artifact_patterns ->
  d <> EmptyString ->
  glob w h (os_path_join h d pat) st
  = (inr (flat_map
            (fun d0 => map (os_path_join h d0)
                         (filter (pattern_matches pat) (listing (fs st) (listable d0))))
            (glob_dirs st d pat)),
     st).
Proof.
  intros Hp Hd.
  destruct (artifact_pattern_facts pat Hp) as (Hsep & Hmagic & Hdot).
  unfold glob.
  assert (Hjm : has_magic (os_path_join h d pat) = true).
  { rewrite (os_path_join_name h _ _ Hsep).
    unfold has_magic in *.
    destruct d as [|c d]; [exact Hmagic|].
    destruct (Py.ends_with_char (os_sep h) (String c d)).
    - rewrite !contains_char_app.
      apply orb_true_iff in Hmagic. destruct Hmagic as [Hmagic|Hmagic].
      + apply orb_true_iff in Hmagic. destruct Hmagic as [Hmagic|Hmagic];
          rewrite Hmagic, ?orb_true_r; reflexivity.
      + rewrite Hmagic, ?orb_true_r; reflexivity.
    - change (String c d ++ String (os_sep h) pat)
        with (String c d ++ (String (os_sep h) EmptyString ++ pat)).
      rewrite !contains_char_app.
      apply orb_true_iff in Hmagic. destruct Hmagic as [Hmagic|Hmagic].
      + apply orb_true_iff in Hmagic. destruct Hmagic as [Hmagic|Hmagic];
          rewrite Hmagic, ?orb_true_r; reflexivity.
      + rewrite Hmagic, ?orb_true_r; reflexivity. }
  rewrite Hjm. simpl negb. cbv iota.
  rewrite (os_path_split_join h _ _ Hd Hsep).
  pose proof (listed_dir_nonempty h d Hd) as Hne.
  unfold glob_dirs.
  destruct (listed_dir h d) as [|c d'] eqn:El; [congruence|].
  rewrite Hmagic. f_equal. f_equal. apply flat_map_ext. intros d0. f_equal.
  unfold glob1, listing, listable.
  destruct (fs_listdir (fs st) match d0 with
                               | EmptyString => os_curdir
                               | String _ _ => d0
                               end) as [names|]; [|reflexivity].
  rewrite Hdot. simpl negb. cbv iota. unfold fnmatch_filter.
  rewrite filter_filter_implied; [reflexivity|].
  intros n Hn. apply (artifact_pattern_visible pat n Hp). exact Hn.
Qed.

Lemma copy_file_run src dst st :
  exists err st',
    copy_file w h src dst st
    = (match err with Some x => inl x | None => inr tt end, st')
    /\ log st' = (log st ++ [CopyFile src dst err])%list
    /\ fs_listdir (fs st') = fs_listdir (fs st).
Proof.
  unfold copy_file. cbv zeta.
  destruct (if negb (path_isfile (fs st) src) then _ else _) as [x|].
  - exists (Some x). eexists. split; [reflexivity|]. split; reflexivity.
  - exists None. eexists. split; [reflexivity|]. split; reflexivity.
Qed.

Lemma copy_files_run il srcs : forall st,
  exists r st' delta,
    for_each srcs
      (fun s => copy_file w h s
                  (os_path_join h (install_dir il) (os_path_basename h s))) st
    = (r, st')
    /\ log st' = (log st ++ delta)%list
    /\ fs_listdir (fs st') = fs_listdir (fs st)
    /\ copy_trace il srcs delta r.
Proof.
  induction srcs as [|s srcs IH]; intros st.
  - exists (inr tt), st, []. simpl. rewrite app_nil_r.
    repeat split; try reflexivity. constructor.
  - simpl for_each.
    destruct (copy_file_run s (os_path_join h (install_dir il) (os_path_basename h s)) st)
      as (err & st1 & E1 & Hl1 & Hf1).
    destruct err as [x|].
    + exists (inl x), st1. eexists. rewrite (bind_err _ _ _ _ _ E1).
      split; [reflexivity|]. split; [exact Hl1|]. split; [exact Hf1|]. constructor.
    + rewrite (bind_ok _ _ _ _ _ E1).
      destruct (IH st1) as (r & st' & delta & E & Hl & Hf & Ht).
      exists r, st'. eexists. split; [exact E|]. split.
      { rewrite Hl, Hl1, <- app_assoc. reflexivity. }
      split; [rewrite Hf; exact Hf1|]. constructor. exact Ht.
Qed.

(** The copies of a loop are the first of its sources, in order; all of
    them when the loop ends normally. *)
Lemma copy_trace_copied il srcs delta r :
  copy_trace il srcs delta r ->
  (exists rest,
     map (fun s => (s, os_path_join h (install_dir il) (os_path_basename h s))) srcs
     = (copied delta ++ rest)%list)
  /\ (r = inr tt ->
      copied delta
      = map (fun s => (s, os_path_join h (install_dir il) (os_path_basename h s))) srcs).
Proof.
  induction 1 as [|s srcs delta r _ [[rest IH1] IH2]|s srcs x].
  - split; [exists []; reflexivity|reflexivity].
  - split.
    + exists rest. simpl. rewrite IH1. reflexivity.
    + intros Er. simpl. rewrite (IH2 Er). reflexivity.
  - split; [|discriminate]. eexists. reflexivity.
Qed.

Lemma copy_trace_events il srcs delta r e :
  copy_trace il srcs delta r -> In e delta ->
  (exists s d err, e = CopyFile s d err)
  /\ (forall y, event_error e = Some y -> r = inl y).
Proof.
  induction 1 as [|s srcs delta r _ IH|s srcs x]; simpl.
  - contradiction.
  - intros [E|Hin]; [|exact (IH Hin)]. subst e.
    split; [eexists; eexists; eexists; reflexivity|discriminate].
  - intros [E|[]]. subst e.
    split; [eexists; eexists; eexists; reflexivity|]. simpl. congruence.
Qed.

Lemma copy_trace_last il srcs delta x :
  copy_trace il srcs delta (inl x) ->
  exists pre s d, delta = (pre ++ [CopyFile s d (Some x)])%list
                  /\ forall e, In e pre -> event_error e = None.
Proof.
  intros Ht. remember (inl x : exn + unit) as r eqn:Er.
  induction Ht as [|s srcs delta r _ IH|s srcs y]; [discriminate| |].
  - destruct (IH Er) as (pre & s' & d' & Ed & Hok). subst delta.
    eexists (_ :: pre), s', d'. split; [reflexivity|].
    intros e [E|Hin]; [subst e; reflexivity|exact (Hok e Hin)].
  - inversion Er; subst. exists []. eexists. eexists. split; [reflexivity|].
    intros e [].
Qed.

Lemma copy_trace_returns il srcs delta :
  copy_trace il srcs delta (inr tt) -> forall e, In e delta -> event_error e = None.
Proof.
  intros Ht e Hin. destruct (event_error e) as [y|] eqn:Ey; [|reflexivity].
  destruct (copy_trace_events _ _ _ _ _ Ht Hin) as [_ Hr].
  specialize (Hr y Ey). discriminate.
Qed.

(** Two loops in a row are one loop over both lists. *)
Lemma copy_trace_app il l1 l2 d1 d2 r :
  copy_trace il l1 d1 (inr tt) -> copy_trace il l2 d2 r ->
  copy_trace il (l1 ++ l2) (d1 ++ d2) r.
Proof.
  intros H1 H2. remember (inr tt : exn + unit) as r1 eqn:Er.
  induction H1 as [|s srcs delta r1 _ IH|]; [exact H2| |discriminate].
  simpl. constructor. exact (IH Er).
Qed.

Lemma copy_trace_app_failed il l1 l2 d1 x :
  copy_trace il l1 d1 (inl x) -> copy_trace il (l1 ++ l2) d1 (inl x).
Proof.
  intros H1. remember (inl x : exn + unit) as r1 eqn:Er.
  induction H1 as [|s srcs delta r1 _ IH|s srcs y]; [discriminate| |].
  - simpl. constructor. exact (IH Er).
  - simpl. constructor.
Qed.

Lemma pattern_sources_copies il f pat dirs :
  map (fun s => (s, os_path_join h (install_dir il) (os_path_basename h s)))
      (pattern_sources f pat dirs)
  = pattern_copies il f pat dirs.
Proof.
  unfold pattern_sources, pattern_copies.
  induction dirs as [|d0 dirs IH]; [reflexivity|].
  simpl. rewrite map_app, IH, map_map. reflexivity.
Qed.

Lemma copied_app l1 l2 : copied (l1 ++ l2) = (copied l1 ++ copied l2)%list.
Proof. unfold copied. apply flat_map_app. Qed.

Lemma path_isdir_exists f p : path_isdir f p = true -> path_exists f p = true.
Proof.
  unfold path_isdir, path_exists. destruct p; [discriminate|].
  destruct (fs_kind f (String a p)) as [[|]|]; congruence.
Qed.

(** C4. When the build output directory does not exist, the installer
    returns normally, the log gains one warning and nothing else (no
    directory creation, no copy), and the tree is left as it was. *)
Theorem install_missing_output_warns (il : install_lib_cmd) (st : State) :
  path_exists (fs st) (build_dir il) = false ->
  exists st' msg,
    install w h il st = (inr tt, st')
    /\ fs st' = fs st
    /\ log st' = (log st ++ [Warn msg])%list
    /\ copied [Warn msg] = [].
Proof.
  intros Hex.
  assert (Hd : path_isdir (fs st) (build_dir il) = false).
  { destruct (path_isdir (fs st) (build_dir il)) eqn:E; [|reflexivity].
    apply path_isdir_exists in E. congruence. }
  unfold install, bind, os_path_isdir. rewrite Hd. simpl.
  eexists. eexists. repeat split; reflexivity.
Qed.

Lemma pattern_copies_in il f pat dirs src dst :
  In pat artifact_patterns ->
  In (src, dst) (pattern_copies il f pat dirs) ->
  (exists d0 n, In d0 dirs /\ In n (listing f (listable d0))
                /\ pattern_matches pat n = true /\ src = os_path_join h d0 n)
  /\ dst = os_path_join h (install_dir il) (os_path_basename h src).
Proof.
  intros Hp Hin. unfold pattern_copies in Hin. apply in_flat_map in Hin.
  destruct Hin as (d0 & Hd0 & Hin). apply in_map_iff in Hin.
  destruct Hin as (n & E & Hn). apply filter_In in Hn. destruct Hn as [Hn Hm].
  inversion E; subst. split; [|reflexivity]. exists d0, n. repeat split; assumption.
Qed.

(** The creation of the install directory, when it is missing. *)
Lemma mkpath_run (il : install_lib_cmd) st :
  exists r st1,
    when (negb (path_exists (fs st) (install_dir il))) (mkpath w h (install_dir il)) st
    = (r, st1)
    /\ fs_listdir (fs st1) = fs_listdir (fs st)
    /\ ((r = inr tt /\ log st1 = (log st ++ mkpath_events il st)%list)
        \/ (exists x, r = inl x
                      /\ path_exists (fs st) (install_dir il) = false
                      /\ log st1 = (log st ++ [Mkpath (install_dir il) (Some x)])%list)).
Proof.
  unfold mkpath_events.
  destruct (path_exists (fs st) (install_dir il)) eqn:Hex; simpl.
  - exists (inr tt), st. rewrite app_nil_r. split; [reflexivity|].
    split; [reflexivity|]. left. split; reflexivity.
  - unfold mkpath.
    destruct (path_isdir (fs st) (install_dir il)
              || String.eqb (install_dir il) EmptyString)%bool.
    + eexists. eexists. split; [reflexivity|]. split; [reflexivity|].
      left. split; reflexivity.
    + cbv zeta. rewrite Hex. cbn [orb].
      destruct (if under_a_file h (fs st) (install_dir il) then _ else _) as [x|].
      * eexists. eexists. split; [reflexivity|]. split; [reflexivity|].
        right. exists x. repeat split.
      * eexists. eexists. split; [reflexivity|]. split; [reflexivity|].
        left. split; reflexivity.
Qed.

(** A run of the installer from a build directory that exists: the
    install directory, then the copies of the first pattern, then those
    of the second, as one loop that a failing call ends. *)
Lemma install_run (il : install_lib_cmd) st :
  path_isdir (fs st) (build_dir il) = true ->
  exists r st' dirs1 dirs2 delta,
    install w h il st = (r, st')
    /\ log st' = (log st ++ delta)%list
    /\ fs_listdir (fs st') = fs_listdir (fs st)
    /\ (has_magic (build_dir il) = false ->
        dirs1 = [listed_dir h (build_dir il)]
        /\ dirs2 = [listed_dir h (build_dir il)])
    /\ ((exists x,
           path_exists (fs st) (install_dir il) = false
           /\ delta = [Mkpath (install_dir il) (Some x)]
           /\ r = inl x)
        \/ exists cp,
             delta = (mkpath_events il st ++ cp)%list
             /\ copy_trace il
                  (pattern_sources (fs st) "clr.*" dirs1
                   ++ pattern_sources (fs st) "Python.Runtime.*" dirs2) cp r).
Proof.
  intros Hdir.
  assert (Hne : build_dir il <> EmptyString).
  { intros E. rewrite E in Hdir. discriminate. }
  destruct (mkpath_run il st) as (r0 & st1 & Epre & Hls1 & Hmk).
  assert (Hplain : forall s0 pat,
            has_magic (build_dir il) = false ->
            glob_dirs s0 (build_dir il) pat = [listed_dir h (build_dir il)]).
  { intros s0 pat Hm. apply glob_dirs_plain. exact Hm. }
  destruct Hmk as [[Er0 Hlog1]|(x & Er0 & Hex & Hlog1)]; subst r0.
  2:{ exists (inl x), st1, (glob_dirs st (build_dir il) "clr.*"),
        (glob_dirs st (build_dir il) "Python.Runtime.*"),
        [Mkpath (install_dir il) (Some x)].
      split.
      { unfold install.
        rewrite (bind_ok _ _ st true st)
          by (unfold os_path_isdir; rewrite Hdir; reflexivity).
        cbn [negb].
        rewrite (bind_ok _ _ st (path_exists (fs st) (install_dir il)) st)
          by reflexivity.
        rewrite (bind_err _ _ _ _ _ Epre). reflexivity. }
      split; [exact Hlog1|]. split; [exact Hls1|].
      split; [intros Hm; rewrite !Hplain by exact Hm; split; reflexivity|].
      left. exists x. repeat split. exact Hex. }
  (* first pattern *)
  pose proof (glob_artifact_pattern (build_dir il) "clr.*" st1
                (or_introl eq_refl) Hne) as G1.
  set (dirs1 := glob_dirs st1 (build_dir il) "clr.*") in *.
  assert (S1 : flat_map
                 (fun d0 => map (os_path_join h d0)
                              (filter (pattern_matches "clr.*")
                                 (listing (fs st1) (listable d0)))) dirs1
               = pattern_sources (fs st) "clr.*" dirs1).
  { unfold pattern_sources, listing. rewrite Hls1. reflexivity. }
  rewrite S1 in G1.
  destruct (copy_files_run il (pattern_sources (fs st) "clr.*" dirs1) st1)
    as (r1 & st2 & d1 & E2 & Hlog2 & Hls2 & Ht1).
  assert (Hunf : install w h il st
                 = for_each ["clr.*"; "Python.Runtime.*"]
                     (fun pattern =>
                        srcfiles <- glob w h (os_path_join h (build_dir il) pattern) ;;
                        for_each srcfiles
                          (fun srcfile =>
                             copy_file w h srcfile
                               (os_path_join h (install_dir il)
                                  (os_path_basename h srcfile)))) st1).
  { unfold install.
    rewrite (bind_ok _ _ st true st)
      by (unfold os_path_isdir; rewrite Hdir; reflexivity).
    cbn [negb].
    rewrite (bind_ok _ _ st (path_exists (fs st) (install_dir il)) st)
      by reflexivity.
    rewrite (bind_ok _ _ _ _ _ Epre). reflexivity. }
  rewrite Hunf. simpl for_each.
  destruct r1 as [x|[]].
  { (* a copy of the first pattern raises *)
    exists (inl x), st2, dirs1, (glob_dirs st (build_dir il) "Python.Runtime.*"),
      (mkpath_events il st ++ d1)%list.
    split.
    { rewrite (bind_err _ _ st1 x st2); [reflexivity|].
      rewrite (bind_ok _ _ _ _ _ G1). exact E2. }
    split; [rewrite Hlog2, Hlog1, <- app_assoc; reflexivity|].
    split; [rewrite Hls2; exact Hls1|].
    split.
    { intros Hm. unfold dirs1. rewrite !Hplain by exact Hm. split; reflexivity. }
    right. exists d1. split; [reflexivity|].
    apply copy_trace_app_failed. exact Ht1. }
  (* second pattern *)
  pose proof (glob_artifact_pattern (build_dir il) "Python.Runtime.*" st2
                (or_intror (or_introl eq_refl)) Hne) as G2.
  set (dirs2 := glob_dirs st2 (build_dir il) "Python.Runtime.*") in *.
  assert (S2 : flat_map
                 (fun d0 => map (os_path_join h d0)
                              (filter (pattern_matches "Python.Runtime.*")
                                 (listing (fs st2) (listable d0)))) dirs2
               = pattern_sources (fs st) "Python.Runtime.*" dirs2).
  { unfold pattern_sources, listing. rewrite Hls2, Hls1. reflexivity. }
  rewrite S2 in G2.
  destruct (copy_files_run il (pattern_sources (fs st) "Python.Runtime.*" dirs2) st2)
    as (r2 & st3 & d2 & E3 & Hlog3 & Hls3 & Ht2).
  exists r2, st3, dirs1, dirs2, (mkpath_events il st ++ d1 ++ d2)%list.
  split.
  { rewrite (bind_ok _ _ st1 tt st2).
    2:{ rewrite (bind_ok _ _ _ _ _ G1). exact E2. }
    assert (E3' : (srcfiles <- glob w h (os_path_join h (build_dir il) "Python.Runtime.*") ;;
                   for_each srcfiles
                     (fun srcfile =>
                        copy_file w h srcfile
                          (os_path_join h (install_dir il)
                             (os_path_basename h srcfile)))) st2 = (r2, st3)).
    { rewrite (bind_ok _ _ _ _ _ G2). exact E3. }
    destruct r2 as [x|[]].
    - rewrite (bind_err _ _ _ _ _ E3'). reflexivity.
    - rewrite (bind_ok _ _ _ _ _ E3'). reflexivity. }
  split; [rewrite Hlog3, Hlog2, Hlog1, <- !app_assoc; reflexivity|].
  split; [rewrite Hls3, Hls2; exact Hls1|].
  split.
  { intros Hm. unfold dirs1, dirs2. rewrite !Hplain by exact Hm. split; reflexivity. }
  right. exists (d1 ++ d2)%list. split; [reflexivity|].
  apply copy_trace_app; assumption.
Qed.


End Installer.

(** ** Package restore (lines 170 to 190) *)

Section Restore.

Variable w : World.
Variable h : Host.
Variable g : Globals.

Local Abbreviation reserved_for_inactive_toolchain := (reserved_for_inactive_toolchain g).
Local Abbreviation manifest_path := (manifest_path h).
Local Abbreviation restored := (restored h g).
Local Abbreviation restore_cmd := (restore_cmd h g).
Local Abbreviation restore_call := (restore_call h g).
Local Abbreviation restore_announcement := (restore_announcement h g).
Local Abbreviation restore_trace := (restore_trace h g).
Local Abbreviation restore_body :=
  (_install_packages_body w h g (fst (nuget_cmd h g)) (snd (nuget_cmd h g))).

Lemma install_packages_unfold :
  _install_packages w h g = (dirs <- os_listdir "src" ;; for_each dirs restore_body).
Proof.
  unfold _install_packages. destruct (nuget_cmd h g). reflexivity.
Qed.

Lemma restore_body_skip dir st :
  restored (fs st) dir = false -> restore_body dir st = (inr tt, st).
Proof.
  unfold restored, reserved_for_inactive_toolchain, restore_body, manifest_path.
  destruct (String.eqb (DEVTOOLS g) "Mono"); simpl.
  - destruct (String.eqb dir "clrmodule"); simpl; intros E; [reflexivity|].
    unfold bind, os_path_exists. rewrite E. reflexivity.
  - destruct (String.eqb dir "monoclr"); simpl; intros E; [reflexivity|].
    unfold bind, os_path_exists. rewrite E. reflexivity.
Qed.

Lemma restore_body_run dir st :
  restored (fs st) dir = true ->
  restore_body dir st
  = (announce (restore_announcement dir) ;;
     check_call w (restore_cmd dir) (snd (nuget_cmd h g))) st.
Proof.
  unfold restored, reserved_for_inactive_toolchain, restore_body, manifest_path.
  destruct (String.eqb (DEVTOOLS g) "Mono"); simpl.
  - destruct (String.eqb dir "clrmodule"); simpl; intros E; [discriminate|].
    unfold bind at 1. unfold os_path_exists. rewrite E. reflexivity.
  - destruct (String.eqb dir "monoclr"); simpl; intros E; [discriminate|].
    unfold bind at 1. unfold os_path_exists. rewrite E. reflexivity.
Qed.

Lemma restore_loop_run dirs : forall st,
  exists r st' delta,
    for_each dirs restore_body st = (r, st')
    /\ fs st' = fs st
    /\ log st' = (log st ++ delta)%list
    /\ restore_trace (filter (restored (fs st)) dirs) delta r.
Proof.
  induction dirs as [|dir dirs IH]; intros st.
  - exists (inr tt), st, []. simpl. rewrite app_nil_r.
    repeat split; try reflexivity. constructor.
  - simpl for_each. simpl filter. destruct (restored (fs st) dir) eqn:Er.
    + unfold bind at 1. rewrite (restore_body_run _ _ Er).
      unfold bind at 1. unfold announce, emit at 1.
      unfold check_call, bind at 1. unfold Popen_wait.
      set (st1 := mkState (fs st) (log st ++ [Announce (restore_announcement dir)])).
      destruct (w_proc w st1 (restore_cmd dir) (snd (nuget_cmd h g)))
        as [msg|rc out err] eqn:Ep.
      * eexists. eexists. eexists. split; [reflexivity|]. simpl.
        split; [reflexivity|]. split.
        -- rewrite <- app_assoc. simpl. reflexivity.
        -- constructor.
      * destruct (rc =? 0) eqn:Erc; simpl.
        -- apply Z.eqb_eq in Erc. subst rc.
           match goal with
           | |- context [for_each dirs restore_body ?s2] =>
               destruct (IH s2) as (r & st' & delta & E & Hf & Hl & Ht)
           end.
           exists r, st', (Announce (restore_announcement dir)
                           :: Exec (restore_cmd dir) (snd (nuget_cmd h g)) false
                                (Exited 0 out err) :: delta).
           split; [exact E|]. simpl in Hf, Hl, Ht.
           split; [exact Hf|]. split.
           ++ rewrite Hl, <- !app_assoc. reflexivity.
           ++ constructor. exact Ht.
        -- apply Z.eqb_neq in Erc.
           eexists. eexists. eexists. split; [reflexivity|]. simpl.
           split; [reflexivity|]. split.
           ++ rewrite <- app_assoc. simpl. reflexivity.
           ++ constructor. exact Erc.
    + unfold bind at 1. rewrite (restore_body_skip _ _ Er). apply IH.
Qed.

Lemma restore_trace_prefix el delta r :
  restore_trace el delta r ->
  exists rest, map restore_call el = (execs delta ++ rest)%list.
Proof.
  induction 1 as [|dir dirs out err delta r _ [rest IH]| |].
  - exists []. reflexivity.
  - exists rest. simpl. unfold restore_call at 1. rewrite IH. reflexivity.
  - exists (map restore_call dirs). reflexivity.
  - exists (map restore_call dirs). reflexivity.
Qed.

Lemma restore_trace_complete el delta r :
  restore_trace el delta r ->
  no_failed_exec delta = true ->
  r = inr tt /\ execs delta = map restore_call el.
Proof.
  induction 1 as [|dir dirs out err delta r _ IH|dir dirs rc out err Hrc|]; simpl; intros Hok.
  - split; reflexivity.
  - destruct (IH Hok) as [Hr He]. split; [exact Hr|]. rewrite He. reflexivity.
  - rewrite andb_true_r in Hok. apply Z.eqb_eq in Hok. contradiction.
  - discriminate.
Qed.

Lemma restore_trace_returns el delta :
  restore_trace el delta (inr tt) ->
  no_failed_exec delta = true /\ execs delta = map restore_call el.
Proof.
  intros Ht. remember (inr tt : exn + unit) as r eqn:Er.
  induction Ht as [|dir dirs out err delta r _ IH| |]; try discriminate.
  - split; reflexivity.
  - destruct (IH Er) as [Hok He]. simpl. rewrite Hok, He. split; reflexivity.
Qed.

(** C2. Over the entries of the projects root, the restore step leaves
    out those set aside for the toolchain that is not active and those
    without a manifest; its invocations are, in the order of the listing,
    one per remaining entry, each with that entry's manifest and the
    shared output directory: always a prefix of that list, and the whole
    list whenever no invocation fails. With a manifest in both
    [clrmodule] (the first toolchain's) and [monoclr] (the second's) and
    the first toolchain active, the single invocation is the one for
    [clrmodule]. *)
Theorem install_packages_restores_eligible (st : State) (dirs : list string) :
  fs_listdir (fs st) "src" = Some dirs ->
  exists r st' delta,
    _install_packages w h g st = (r, st')
    /\ fs st' = fs st
    /\ log st' = (log st ++ delta)%list
    /\ (exists rest,
          map restore_call (filter (restored (fs st)) dirs) = (execs delta ++ rest)%list)
    /\ (no_failed_exec delta = true ->
        r = inr tt
        /\ execs delta = map restore_call (filter (restored (fs st)) dirs))
    /\ (r = inr tt ->
        execs delta = map restore_call (filter (restored (fs st)) dirs))
    /\ (DEVTOOLS g = "MsDev" -> dirs = ["clrmodule"; "monoclr"] ->
        path_exists (fs st) (manifest_path "clrmodule") = true ->
        path_exists (fs st) (manifest_path "monoclr") = true ->
        execs delta = [restore_call "clrmodule"]).
Proof.
  intros Hls. rewrite install_packages_unfold.
  destruct (restore_loop_run dirs st) as (r & st' & delta & E & Hf & Hl & Ht).
  exists r, st', delta. split.
  { unfold bind, os_listdir. rewrite Hls. exact E. }
  split; [exact Hf|]. split; [exact Hl|]. split; [exact (restore_trace_prefix _ _ _ Ht)|].
  split; [exact (restore_trace_complete _ _ _ Ht)|]. split.
  { intros Er. subst r. apply (restore_trace_returns _ _ Ht). }
  intros Hdev Hdirs H1 H2. subst dirs.
  assert (R1 : restored (fs st) "clrmodule" = true).
  { unfold restored, reserved_for_inactive_toolchain. rewrite Hdev, H1. reflexivity. }
  assert (R2 : restored (fs st) "monoclr" = false).
  { unfold restored, reserved_for_inactive_toolchain. rewrite Hdev. reflexivity. }
  simpl filter in Ht. rewrite R1, R2 in Ht. inversion Ht as [|? ? ? ? ? ? Ht'| |]; subst; try reflexivity.
  inversion Ht'; subst. reflexivity.
Qed.

End Restore.

(** ** Child processes: [check_call] and [_check_output] *)

Lemma check_call_run (w : World) c shell st :
  let r := w_proc w st c shell in
  let st' := mkState (fs st) (log st ++ [Exec c shell false r]) in
  check_call w c shell st
  = (match event_error (Exec c shell false r) with
     | Some x => inl x
     | None => inr tt
     end, st').
Proof.
  unfold check_call, bind, Popen_wait. simpl.
  destruct (w_proc w st c shell) as [msg|rc out err]; [reflexivity|].
  simpl. destruct (rc =? 0); reflexivity.
Qed.

Lemma check_output_run (w : World) c st :
  let r := w_proc w st c true in
  let st' := mkState (fs st) (log st ++ [Exec c true true r]) in
  _check_output w c None true st
  = (match r with
     | SpawnFailed msg => inl (OSError msg)
     | Exited rc out _ =>
         if rc =? 0 then inr out else inl (CalledProcessError rc c (Some out))
     end, st').
Proof.
  unfold _check_output, bind, Popen_communicate. simpl.
  destruct (w_proc w st c true) as [msg|rc out err]; [reflexivity|].
  simpl. destruct (rc =? 0); reflexivity.
Qed.

(** ** Flag discovery (lines 120 to 125) *)

Section Flags.

Variable w : World.

Ltac answered_prefix :=
  repeat (first [ apply Forall2_nil
                | apply Forall2_cons; [eexists; eexists; reflexivity|] ]).

Lemma pkg_config_flags_run st :
  exists r st' delta,
    pkg_config_flags w st = (r, st')
    /\ fs st' = fs st
    /\ log st' = (log st ++ delta)%list
    /\ flags_trace delta r.
Proof.
  unfold pkg_config_flags.
  unfold bind at 1. rewrite check_output_run.
  destruct (w_proc w st "pkg-config --libs mono-2" true) as [m1|rc1 o1 e1] eqn:P1.
  { eexists. eexists. exists [Exec "pkg-config --libs mono-2" true true (SpawnFailed m1)].
    split; [reflexivity|]. split; [reflexivity|]. split; [reflexivity|].
    eapply flags_query_not_started with (before := []) (oks := []); [reflexivity|answered_prefix]. }
  destruct (rc1 =? 0) eqn:Z1.
  2:{ apply Z.eqb_neq in Z1. eexists. eexists.
      exists [Exec "pkg-config --libs mono-2" true true (Exited rc1 o1 e1)].
      split; [reflexivity|]. split; [reflexivity|]. split; [reflexivity|].
      eapply flags_query_failed with (before := []) (oks := []); [reflexivity|answered_prefix|exact Z1]. }
  apply Z.eqb_eq in Z1. subst rc1.
  set (st1 := mkState (fs st) (log st ++ [Exec "pkg-config --libs mono-2" true true (Exited 0 o1 e1)])).
  unfold bind at 1. rewrite check_output_run.
  destruct (w_proc w st1 "pkg-config --cflags mono-2" true) as [m2|rc2 o2 e2] eqn:P2.
  { eexists. eexists.
    exists [query_ok "pkg-config --libs mono-2" o1 e1;
            Exec "pkg-config --cflags mono-2" true true (SpawnFailed m2)].
    split; [reflexivity|]. split; [reflexivity|].
    split; [simpl; rewrite <- app_assoc; reflexivity|].
    eapply flags_query_not_started with (before := ["pkg-config --libs mono-2"]) (oks := [query_ok "pkg-config --libs mono-2" o1 e1]);
      [reflexivity|answered_prefix]. }
  destruct (rc2 =? 0) eqn:Z2.
  2:{ apply Z.eqb_neq in Z2. eexists. eexists.
      exists [query_ok "pkg-config --libs mono-2" o1 e1;
              Exec "pkg-config --cflags mono-2" true true (Exited rc2 o2 e2)].
      split; [reflexivity|]. split; [reflexivity|].
      split; [simpl; rewrite <- app_assoc; reflexivity|].
      eapply flags_query_failed with (before := ["pkg-config --libs mono-2"]) (oks := [query_ok "pkg-config --libs mono-2" o1 e1]);
        [reflexivity|answered_prefix|exact Z2]. }
  apply Z.eqb_eq in Z2. subst rc2.
  set (st2 := mkState (fs st1) (log st1 ++ [Exec "pkg-config --cflags mono-2" true true (Exited 0 o2 e2)])).
  unfold bind at 1. rewrite check_output_run.
  destruct (w_proc w st2 "pkg-config --libs glib-2.0" true) as [m3|rc3 o3 e3] eqn:P3.
  { eexists. eexists.
    exists [query_ok "pkg-config --libs mono-2" o1 e1;
            query_ok "pkg-config --cflags mono-2" o2 e2;
            Exec "pkg-config --libs glib-2.0" true true (SpawnFailed m3)].
    split; [reflexivity|]. split; [reflexivity|].
    split; [simpl; rewrite <- !app_assoc; reflexivity|].
    eapply flags_query_not_started with (before := ["pkg-config --libs mono-2"; "pkg-config --cflags mono-2"]) (oks := [query_ok "pkg-config --libs mono-2" o1 e1;
              query_ok "pkg-config --cflags mono-2" o2 e2]);
      [reflexivity|answered_prefix]. }
  destruct (rc3 =? 0) eqn:Z3.
  2:{ apply Z.eqb_neq in Z3. eexists. eexists.
      exists [query_ok "pkg-config --libs mono-2" o1 e1;
              query_ok "pkg-config --cflags mono-2" o2 e2;
              Exec "pkg-config --libs glib-2.0" true true (Exited rc3 o3 e3)].
      split; [reflexivity|]. split; [reflexivity|].
      split; [simpl; rewrite <- !app_assoc; reflexivity|].
      eapply flags_query_failed with (before := ["pkg-config --libs mono-2"; "pkg-config --cflags mono-2"]) (oks := [query_ok "pkg-config --libs mono-2" o1 e1;
                query_ok "pkg-config --cflags mono-2" o2 e2]);
        [reflexivity|answered_prefix|exact Z3]. }
  apply Z.eqb_eq in Z3. subst rc3.
  set (st3 := mkState (fs st2) (log st2 ++ [Exec "pkg-config --libs glib-2.0" true true (Exited 0 o3 e3)])).
  unfold bind at 1. rewrite check_output_run.
  destruct (w_proc w st3 "pkg-config --cflags glib-2.0" true) as [m4|rc4 o4 e4] eqn:P4.
  { eexists. eexists.
    exists [query_ok "pkg-config --libs mono-2" o1 e1;
            query_ok "pkg-config --cflags mono-2" o2 e2;
            query_ok "pkg-config --libs glib-2.0" o3 e3;
            Exec "pkg-config --cflags glib-2.0" true true (SpawnFailed m4)].
    split; [reflexivity|]. split; [reflexivity|].
    split; [simpl; rewrite <- !app_assoc; reflexivity|].
    eapply flags_query_not_started with (before := ["pkg-config --libs mono-2"; "pkg-config --cflags mono-2";
              "pkg-config --libs glib-2.0"]) (oks := [query_ok "pkg-config --libs mono-2" o1 e1;
              query_ok "pkg-config --cflags mono-2" o2 e2;
              query_ok "pkg-config --libs glib-2.0" o3 e3]);
      [reflexivity|answered_prefix]. }
  destruct (rc4 =? 0) eqn:Z4.
  2:{ apply Z.eqb_neq in Z4. eexists. eexists.
      exists [query_ok "pkg-config --libs mono-2" o1 e1;
              query_ok "pkg-config --cflags mono-2" o2 e2;
              query_ok "pkg-config --libs glib-2.0" o3 e3;
              Exec "pkg-config --cflags glib-2.0" true true (Exited rc4 o4 e4)].
      split; [reflexivity|]. split; [reflexivity|].
      split; [simpl; rewrite <- !app_assoc; reflexivity|].
      eapply flags_query_failed with (before := ["pkg-config --libs mono-2"; "pkg-config --cflags mono-2";
                "pkg-config --libs glib-2.0"]) (oks := [query_ok "pkg-config --libs mono-2" o1 e1;
                query_ok "pkg-config --cflags mono-2" o2 e2;
                query_ok "pkg-config --libs glib-2.0" o3 e3]);
        [reflexivity|answered_prefix|exact Z4]. }
  apply Z.eqb_eq in Z4. subst rc4.
  eexists. eexists.
  exists [query_ok "pkg-config --libs mono-2" o1 e1;
          query_ok "pkg-config --cflags mono-2" o2 e2;
          query_ok "pkg-config --libs glib-2.0" o3 e3;
          query_ok "pkg-config --cflags glib-2.0" o4 e4].
  split; [reflexivity|]. split; [reflexivity|].
  split; [simpl; rewrite <- !app_assoc; reflexivity|].
  apply flags_found.
Qed.

Lemma execs_app l1 l2 : execs (l1 ++ l2) = (execs l1 ++ execs l2)%list.
Proof. unfold execs. apply flat_map_app. Qed.

Lemma no_failed_exec_app l1 l2 :
  no_failed_exec (l1 ++ l2) = (no_failed_exec l1 && no_failed_exec l2)%bool.
Proof. unfold no_failed_exec. apply forallb_app. Qed.

Lemma answered_execs before oks :
  Forall2 answered before oks ->
  execs oks = map (fun q => (q, true)) before /\ no_failed_exec oks = true.
Proof.
  induction 1 as [|q e before oks (out & err & E) _ [IH1 IH2]]; simpl.
  - split; reflexivity.
  - subst e. simpl. rewrite IH1, IH2. split; reflexivity.
Qed.

Lemma answered_in before oks e :
  Forall2 answered before oks -> In e oks ->
  exists c out err, In c before /\ e = query_ok c out err.
Proof.
  induction 1 as [|q x before oks (out & err & E) _ IH]; simpl; [tauto|].
  intros [Hx|Hin].
  - subst. exists q, out, err. split; [left; reflexivity|reflexivity].
  - destruct (IH Hin) as (c & o & e' & Hc & He). exists c, o, e'.
    split; [right; exact Hc|exact He].
Qed.

Lemma flags_trace_prefix delta r :
  flags_trace delta r ->
  exists rest,
    map (fun q => (q, true)) pkg_config_queries = (execs delta ++ rest)%list.
Proof.
  intros [o1 e1 o2 e2 o3 e3 o4 e4
         |before c after oks rc out err Hq Hoks Hrc
         |before c after oks msg Hq Hoks].
  - exists []. reflexivity.
  - exists (map (fun q => (q, true)) after).
    rewrite Hq, execs_app, (proj1 (answered_execs _ _ Hoks)), map_app, <- app_assoc.
    reflexivity.
  - exists (map (fun q => (q, true)) after).
    rewrite Hq, execs_app, (proj1 (answered_execs _ _ Hoks)), map_app, <- app_assoc.
    reflexivity.
Qed.

Lemma flags_trace_found delta r :
  flags_trace delta r ->
  no_failed_exec delta = true \/ (exists x, r = inr x) ->
  exists o1 e1 o2 e2 o3 e3 o4 e4,
    delta = [ query_ok "pkg-config --libs mono-2" o1 e1;
              query_ok "pkg-config --cflags mono-2" o2 e2;
              query_ok "pkg-config --libs glib-2.0" o3 e3;
              query_ok "pkg-config --cflags glib-2.0" o4 e4 ]
    /\ r = inr (Py.strip o2 ++ " " ++ Py.strip o4, Py.strip o1 ++ " " ++ Py.strip o3).
Proof.
  intros [o1 e1 o2 e2 o3 e3 o4 e4
         |before c after oks rc out err Hq Hoks Hrc
         |before c after oks msg Hq Hoks] Hok.
  - exists o1, e1, o2, e2, o3, e3, o4, e4. split; reflexivity.
  - exfalso. destruct Hok as [Hok|[x Hx]]; [|discriminate].
    rewrite no_failed_exec_app in Hok. apply andb_true_iff in Hok.
    destruct Hok as [_ Hok]. simpl in Hok. rewrite andb_true_r in Hok.
    apply Z.eqb_eq in Hok. contradiction.
  - exfalso. destruct Hok as [Hok|[x Hx]]; [|discriminate].
    rewrite no_failed_exec_app in Hok. apply andb_true_iff in Hok.
    destruct Hok as [_ Hok]. discriminate.
Qed.

Lemma flags_trace_events delta r e :
  flags_trace delta r -> In e delta ->
  exists c res, In c pkg_config_queries /\ e = Exec c true true res.
Proof.
  intros [o1 e1 o2 e2 o3 e3 o4 e4
         |before c after oks rc out err Hq Hoks Hrc
         |before c after oks msg Hq Hoks] Hin.
  - simpl in Hin. unfold pkg_config_queries, query_ok in *.
    destruct Hin as [E|[E|[E|[E|[]]]]]; subst e; eexists; eexists;
      (split; [|reflexivity]); simpl; tauto.
  - apply in_app_iff in Hin. destruct Hin as [Hin|[E|[]]].
    + destruct (answered_in _ _ _ Hoks Hin) as (q & o & e' & Hqb & He).
      exists q. eexists. split; [|exact He]. rewrite Hq. apply in_app_iff. left. exact Hqb.
    + subst e. exists c. eexists. split; [|reflexivity].
      rewrite Hq. apply in_app_iff. right. left. reflexivity.
  - apply in_app_iff in Hin. destruct Hin as [Hin|[E|[]]].
    + destruct (answered_in _ _ _ Hoks Hin) as (q & o & e' & Hqb & He).
      exists q. eexists. split; [|exact He]. rewrite Hq. apply in_app_iff. left. exact Hqb.
    + subst e. exists c. eexists. split; [|reflexivity].
      rewrite Hq. apply in_app_iff. right. left. reflexivity.
Qed.

(** C8. The flag discovery runs, in this order, the link-flag query and
    the compile-flag query for [mono-2], then the same two for
    [glib-2.0], each once and with its standard output piped back: its
    invocations are always a prefix of these four, and all four whenever
    none fails. Whenever it returns, the compile-flag string is the
    trimmed [mono-2] answer, a space, the trimmed [glib-2.0] answer, and
    likewise the link-flag string. *)
Theorem pkg_config_flags_discovery (st : State) :
  exists r st' delta,
    pkg_config_flags w st = (r, st')
    /\ fs st' = fs st
    /\ log st' = (log st ++ delta)%list
    /\ (exists rest,
          map (fun q => (q, true)) pkg_config_queries = (execs delta ++ rest)%list)
    /\ (forall e, In e delta ->
        exists c res, In c pkg_config_queries /\ e = Exec c true true res)
    /\ (no_failed_exec delta = true \/ (exists x, r = inr x) ->
        exists o1 e1 o2 e2 o3 e3 o4 e4,
          delta = [ Exec "pkg-config --libs mono-2" true true (Exited 0 o1 e1);
                    Exec "pkg-config --cflags mono-2" true true (Exited 0 o2 e2);
                    Exec "pkg-config --libs glib-2.0" true true (Exited 0 o3 e3);
                    Exec "pkg-config --cflags glib-2.0" true true (Exited 0 o4 e4) ]
          /\ r = inr (Py.strip o2 ++ " " ++ Py.strip o4,
                      Py.strip o1 ++ " " ++ Py.strip o3)).
Proof.
  destruct (pkg_config_flags_run st) as (r & st' & delta & E & Hf & Hl & Ht).
  exists r, st', delta. split; [exact E|]. split; [exact Hf|]. split; [exact Hl|].
  split; [exact (flags_trace_prefix _ _ Ht)|].
  split; [intros e; exact (flags_trace_events _ _ e Ht)|].
  exact (flags_trace_found _ _ Ht).
Qed.

End Flags.

(** ** The exception of a failed query *)

Lemma neq_0_eqb rc : rc <> 0 -> (rc =? 0) = false.
Proof. intros H. apply Z.eqb_neq. exact H. Qed.

Lemma flags_trace_error delta r e x :
  flags_trace delta r -> In e delta -> event_error e = Some x -> r = inl x.
Proof.
  intros [o1 e1 o2 e2 o3 e3 o4 e4
         |before c after oks rc out err Hq Hoks Hrc
         |before c after oks msg Hq Hoks] Hin He.
  - simpl in Hin. destruct Hin as [E|[E|[E|[E|[]]]]]; subst e; discriminate.
  - apply in_app_iff in Hin. destruct Hin as [Hin|[E|[]]].
    + destruct (answered_in _ _ _ Hoks Hin) as (q & o & e' & _ & Eq). subst e. discriminate.
    + subst e. simpl in He. rewrite (neq_0_eqb _ Hrc) in He. congruence.
  - apply in_app_iff in Hin. destruct Hin as [Hin|[E|[]]].
    + destruct (answered_in _ _ _ Hoks Hin) as (q & o & e' & _ & Eq). subst e. discriminate.
    + subst e. simpl in He. congruence.
Qed.

(** ** The extension build (lines 77 to 167) *)

Section Build.

Variable w : World.
Variable h : Host.
Variable g : Globals.
Variable self : build_ext_cmd.
Variable ext : Extension.

Local Abbreviation dest_dir := (dest_dir h self ext).
Local Abbreviation clean_cmd := (clean_cmd h g self ext).
Local Abbreviation build_cmd := (build_cmd h g self ext).
Local Abbreviation use_shell := (use_shell g).
Local Abbreviation building_announcement := (building_announcement h g self ext).
Local Abbreviation shim_compile := (shim_compile self ext).
Local Abbreviation shim_link := (shim_link h g self ext).
Local Abbreviation shim_trace := (shim_trace h g self ext).
Local Abbreviation solution_trace := (solution_trace h g self ext).
Local Abbreviation mkdir_events := (mkdir_events h self ext).
Local Abbreviation build_run := (build_run h g self ext).
Local Abbreviation is_build_tool_call := (is_build_tool_call h g self ext).
Local Abbreviation exec_origin := (exec_origin h g self ext).
Local Abbreviation shim_linked := (shim_linked h g self ext).
Local Abbreviation restore_body :=
  (_install_packages_body w h g (fst (nuget_cmd h g)) (snd (nuget_cmd h g))).

Lemma build_monoclr_run st :
  exists r st' delta,
    _build_monoclr w h g self ext st = (r, st')
    /\ fs st' = fs st
    /\ log st' = (log st ++ delta)%list
    /\ shim_trace delta r.
Proof.
  unfold _build_monoclr.
  destruct (pkg_config_flags_run w st) as (rf & st1 & dq & E & Hf & Hl & Ht).
  unfold bind at 1. rewrite E.
  destruct rf as [x|[cflags libs]].
  { exists (inl x), st1, dq. repeat split; try assumption. constructor. exact Ht. }
  unfold bind at 1. unfold build_ext_build_extension.
  fold (shim_module cflags libs).
  destruct (w_stock_build_extension w st1 (shim_module cflags libs)) as [x|] eqn:Es.
  { eexists. eexists. eexists. split; [reflexivity|]. simpl.
    split; [exact Hf|]. split; [rewrite Hl, <- app_assoc; reflexivity|].
    apply shim_module_failed. exact Ht. }
  unfold bind at 1. unfold compiler_compile.
  fold (shim_compile cflags).
  set (st2 := mkState (fs st1)
                (log st1 ++ [StockBuildExtension (shim_module cflags libs) None])).
  destruct (w_compile w st2 (shim_compile cflags)) as [x|objects] eqn:Ec.
  { eexists. eexists. eexists. split; [reflexivity|]. simpl.
    split; [exact Hf|]. split; [rewrite Hl, <- !app_assoc; reflexivity|].
    apply shim_compile_failed. exact Ht. }
  unfold compiler_link_executable. fold dest_dir. fold (shim_link objects libs).
  set (st3 := mkState (fs st2) (log st2 ++ [Compile (shim_compile cflags) (inr objects)])).
  destruct (w_link_executable w st3 (shim_link objects libs)) as [x|] eqn:El.
  - eexists. eexists. eexists. split; [reflexivity|]. simpl.
    split; [exact Hf|]. split; [rewrite Hl, <- !app_assoc; reflexivity|].
    apply (shim_linked dq cflags libs objects (Some x)). exact Ht.
  - eexists. eexists. eexists. split; [reflexivity|]. simpl.
    split; [exact Hf|]. split; [rewrite Hl, <- !app_assoc; reflexivity|].
    apply (shim_linked dq cflags libs objects None). exact Ht.
Qed.

(** *** Command lines *)

Lemma last_char_app a b :
  b <> EmptyString -> last_char (a ++ b) = last_char b.
Proof.
  intros Hb. induction a as [|c a IH]; [reflexivity|].
  simpl. rewrite IH. destruct (a ++ b) eqn:E; [|reflexivity].
  destruct a; simpl in E; [congruence|discriminate].
Qed.

Lemma append_assoc (a b c : string) : (a ++ b) ++ c = a ++ (b ++ c).
Proof. induction a as [|x a IH]; simpl; [reflexivity|]. rewrite IH. reflexivity. Qed.

(** Both command lines are the shared line followed by the target. *)
Lemma clean_cmd_shared :
  clean_cmd = Py.join " " (cmd h g dest_dir) ++ " /t:Clean".
Proof.
  unfold clean_cmd, cmd, Py.join. cbn [app String.concat].
  rewrite !append_assoc. reflexivity.
Qed.

Lemma build_cmd_shared :
  build_cmd = Py.join " " (cmd h g dest_dir) ++ " /t:Build".
Proof.
  unfold build_cmd, cmd, Py.join. cbn [app String.concat].
  rewrite !append_assoc. reflexivity.
Qed.

Lemma last_char_clean : last_char clean_cmd = Some "n"%char.
Proof. rewrite clean_cmd_shared, last_char_app; [reflexivity|discriminate]. Qed.

Lemma last_char_build : last_char build_cmd = Some "d"%char.
Proof. rewrite build_cmd_shared, last_char_app; [reflexivity|discriminate]. Qed.

Lemma last_char_restore dir : last_char (restore_cmd h g dir) = Some "s"%char.
Proof.
  unfold restore_cmd. rewrite <- !append_assoc, last_char_app; [reflexivity|discriminate].
Qed.

Lemma last_char_query c :
  In c pkg_config_queries ->
  last_char c = Some "2"%char \/ last_char c = Some "0"%char.
Proof.
  unfold pkg_config_queries. simpl.
  intros [E|[E|[E|[E|[]]]]]; subst c; simpl; auto.
Qed.

Lemma clean_cmd_neq_build_cmd : clean_cmd <> build_cmd.
Proof.
  intros E. pose proof last_char_clean as Hc. rewrite E, last_char_build in Hc.
  discriminate.
Qed.

Lemma solution_run (k : M unit) st :
  exists r st' delta,
    (check_call w clean_cmd use_shell ;; check_call w build_cmd use_shell ;; k) st
    = match r with
      | inl x => (inl x, st')
      | inr _ => k st'
      end
    /\ fs st' = fs st
    /\ log st' = (log st ++ delta)%list
    /\ solution_trace delta r.
Proof.
  unfold bind at 1. rewrite check_call_run.
  destruct (w_proc w st clean_cmd use_shell) as [m1|rc1 o1 e1] eqn:P1.
  { exists (inl (OSError m1)). eexists. eexists. split; [reflexivity|]. simpl.
    split; [reflexivity|]. split; [reflexivity|]. constructor. }
  simpl event_error. destruct (rc1 =? 0) eqn:Z1.
  2:{ apply Z.eqb_neq in Z1. exists (inl (CalledProcessError rc1 clean_cmd None)).
      eexists. eexists. split; [reflexivity|]. simpl.
      split; [reflexivity|]. split; [reflexivity|]. constructor. exact Z1. }
  apply Z.eqb_eq in Z1. subst rc1. unfold bind at 1. rewrite check_call_run.
  set (st1 := mkState (fs st) (log st ++ [Exec clean_cmd use_shell false (Exited 0 o1 e1)])).
  destruct (w_proc w st1 build_cmd use_shell) as [m2|rc2 o2 e2] eqn:P2.
  { exists (inl (OSError m2)). eexists. eexists. split; [reflexivity|]. simpl.
    split; [reflexivity|]. split; [rewrite <- app_assoc; reflexivity|]. constructor. }
  simpl event_error. destruct (rc2 =? 0) eqn:Z2.
  - apply Z.eqb_eq in Z2. subst rc2.
    exists (inr tt). eexists. eexists. split; [reflexivity|]. simpl.
    split; [reflexivity|]. split; [rewrite <- app_assoc; reflexivity|]. constructor.
  - apply Z.eqb_neq in Z2. exists (inl (CalledProcessError rc2 build_cmd None)).
    eexists. eexists. split; [reflexivity|]. simpl.
    split; [reflexivity|]. split; [rewrite <- app_assoc; reflexivity|].
    constructor. exact Z2.
Qed.

Lemma solution_trace_built db :
  solution_trace db (inr tt) ->
  exists o1 e1 o2 e2,
    db = [Exec clean_cmd use_shell false (Exited 0 o1 e1);
          Exec build_cmd use_shell false (Exited 0 o2 e2)].
Proof.
  intros Ht. inversion Ht; subst. eexists. eexists. eexists. eexists. reflexivity.
Qed.

Lemma solution_trace_starts db rb :
  solution_trace db rb ->
  exists res rest, db = Exec clean_cmd use_shell false res :: rest.
Proof. intros Ht. destruct Ht; eexists; eexists; reflexivity. Qed.

Lemma path_exists_with_dirs f ps p :
  path_exists f p = true -> path_exists (with_dirs f ps) p = true.
Proof.
  unfold path_exists, with_dirs. destruct p as [|c p]; [discriminate|].
  cbn [fs_kind]. destruct (existsb _ ps); [reflexivity|auto].
Qed.

Lemma os_makedirs_run p st :
  exists err st',
    os_makedirs w h p st
    = (match err with Some x => inl x | None => inr tt end, st')
    /\ log st' = (log st ++ [Makedirs p err])%list
    /\ fs st' = match err with
                | Some _ => fs st
                | None => with_dirs (fs st) (p :: parents h p)
                end
    /\ (err = None -> p <> EmptyString)
    /\ (p = EmptyString -> err = Some (OSError p)).
Proof.
  unfold os_makedirs. cbv zeta.
  destruct (String.eqb p EmptyString) eqn:Ep; cbn [orb].
  - exists (Some (OSError p)). eexists. split; [reflexivity|].
    split; [reflexivity|]. split; [reflexivity|]. split; [discriminate|reflexivity].
  - apply String.eqb_neq in Ep.
    destruct (if (path_exists (fs st) p || under_a_file h (fs st) p)%bool
              then _ else _) as [x|].
    + exists (Some x). eexists. split; [reflexivity|].
      split; [reflexivity|]. split; [reflexivity|].
      split; [discriminate|intros E; contradiction].
    + exists None. eexists. split; [reflexivity|].
      split; [reflexivity|]. split; [reflexivity|].
      split; [intros _; exact Ep|intros E; contradiction].
Qed.

Lemma makedirs_run st :
  exists r st',
    when (negb (path_exists (fs st) dest_dir)) (os_makedirs w h dest_dir) st = (r, st')
    /\ fs_listdir (fs st') = fs_listdir (fs st)
    /\ (forall p, path_exists (fs st) p = true -> path_exists (fs st') p = true)
    /\ ((r = inr tt /\ log st' = (log st ++ mkdir_events st)%list
         /\ fs st' = (if path_exists (fs st) dest_dir then fs st
                      else with_dirs (fs st) (dest_dir :: parents h dest_dir))
         /\ (path_exists (fs st) dest_dir = false -> dest_dir <> EmptyString))
        \/ (exists x, r = inl x
                      /\ path_exists (fs st) dest_dir = false
                      /\ log st' = (log st ++ [Makedirs dest_dir (Some x)])%list
                      /\ fs st' = fs st
                      /\ (dest_dir = EmptyString -> x = OSError EmptyString))).
Proof.
  unfold mkdir_events.
  destruct (path_exists (fs st) dest_dir) eqn:Ex; simpl.
  - exists (inr tt), st. rewrite app_nil_r. split; [reflexivity|].
    split; [reflexivity|]. split; [auto|]. left. repeat split. discriminate.
  - destruct (os_makedirs_run dest_dir st) as (err & st' & E & Hl & Hf & Hne & Hempty).
    destruct err as [x|].
    + exists (inl x), st'. split; [exact E|]. rewrite Hf.
      split; [reflexivity|]. split; [auto|]. right. exists x.
      split; [reflexivity|]. split; [reflexivity|]. split; [exact Hl|].
      split; [reflexivity|]. intros Ed. specialize (Hempty Ed).
      inversion Hempty. rewrite Ed. reflexivity.
    + exists (inr tt), st'. split; [exact E|]. rewrite Hf.
      split; [reflexivity|]. split; [intros p; apply path_exists_with_dirs|].
      left. split; [reflexivity|]. split; [exact Hl|]. split; [reflexivity|].
      intros _. exact (Hne eq_refl).
Qed.

(** Every run of [build_extension] for [clr] is one of the runs that
    [build_run] describes; the script itself removes nothing from the
    tree; and once the restore step has returned, either the creation of
    the output directory raises and ends the run, or Clean is
    attempted. *)
Lemma build_extension_run st :
  name ext = "clr" ->
  exists r st' delta,
    build_extension w h g self ext st = (r, st')
    /\ log st' = (log st ++ delta)%list
    /\ build_run st delta r
    /\ fs_listdir (fs st') = fs_listdir (fs st)
    /\ (forall p, path_exists (fs st) p = true -> path_exists (fs st') p = true)
    /\ (fst (_install_packages w h g st) = inr tt ->
        (exists x, In (Makedirs dest_dir (Some x)) delta)
        \/ exists res, In (Exec clean_cmd use_shell false res) delta).
Proof.
  intros Hname.
  assert (Hn : String.eqb (name ext) "clr" = true) by (rewrite Hname; reflexivity).
  unfold build_extension. rewrite Hn. cbn [negb].
  fold dest_dir. fold clean_cmd. fold build_cmd. fold use_shell.
  fold building_announcement.
  rewrite install_packages_unfold.
  destruct (fs_listdir (fs st) "src") as [dirs|] eqn:Hls.
  2:{ assert (Eip : (dirs0 <- os_listdir "src" ;; for_each dirs0 restore_body) st
                    = (inl (OSError "src"), st)).
      { unfold bind at 1. unfold os_listdir. rewrite Hls. reflexivity. }
      exists (inl (OSError "src")), st, []. rewrite (bind_err _ _ _ _ _ Eip).
      split; [reflexivity|]. rewrite app_nil_r. split; [reflexivity|].
      split; [constructor; exact Hls|]. split; [reflexivity|]. split; [auto|].
      rewrite Eip. discriminate. }
  destruct (restore_loop_run w h g dirs st) as (r1 & st1 & dr & E1 & Hf1 & Hl1 & Ht1).
  assert (Eip : (dirs0 <- os_listdir "src" ;; for_each dirs0 restore_body) st
                = (r1, st1)).
  { unfold bind at 1. unfold os_listdir. rewrite Hls. exact E1. }
  destruct r1 as [x|[]].
  { exists (inl x), st1, dr. rewrite (bind_err _ _ _ _ _ Eip).
    split; [reflexivity|]. split; [exact Hl1|]. rewrite Hf1.
    split; [eapply run_restore_failed; eassumption|]. split; [reflexivity|].
    split; [auto|]. rewrite Eip. discriminate. }
  rewrite (bind_ok _ _ _ _ _ Eip).
  rewrite (bind_ok _ _ st1 (path_exists (fs st1) dest_dir) st1) by reflexivity.
  destruct (makedirs_run st1) as (r2 & st2 & E2 & Hls2 & Hmono2 & Hmk2).
  assert (Hmono : forall p, path_exists (fs st) p = true -> path_exists (fs st2) p = true).
  { intros p Hp. apply Hmono2. rewrite Hf1. exact Hp. }
  assert (Hlist : fs_listdir (fs st2) = fs_listdir (fs st)) by (rewrite Hls2, Hf1; reflexivity).
  destruct Hmk2 as [(Er2 & Hl2 & _)|(x & Er2 & Hex & Hl2 & _)]; subst r2.
  2:{ (* the creation of the output directory raises *)
      exists (inl x), st2, (dr ++ [Makedirs dest_dir (Some x)])%list.
      rewrite (bind_err _ _ _ _ _ E2).
      split; [reflexivity|]. split; [rewrite Hl2, Hl1, <- app_assoc; reflexivity|].
      split.
      { eapply run_makedirs_failed; [exact Hls|exact Ht1|]. rewrite <- Hf1. exact Hex. }
      split; [exact Hlist|]. split; [exact Hmono|].
      intros _. left. exists x. apply in_app_iff. right. left. reflexivity. }
  rewrite (bind_ok _ _ _ _ _ E2).
  set (st3 := mkState (fs st2) (log st2 ++ [Announce building_announcement])).
  rewrite (bind_ok _ _ st2 tt st3) by reflexivity.
  assert (Hmk : mkdir_events st1 = mkdir_events st)
    by (unfold mkdir_events; rewrite Hf1; reflexivity).
  destruct (solution_run (when (String.eqb (DEVTOOLS g) "Mono")
                            (_build_monoclr w h g self ext)) st3)
    as (rb & st4 & db & E4 & Hf4 & Hl4 & Ht4).
  rewrite E4.
  assert (Hlog4 : log st4
                  = (log st ++ dr ++ mkdir_events st
                              ++ Announce building_announcement :: db)%list).
  { rewrite Hl4. unfold st3. simpl. rewrite Hl2, Hl1, Hmk, <- !app_assoc. reflexivity. }
  destruct (solution_trace_starts _ _ Ht4) as (res0 & rest0 & Hdb).
  assert (Hclean : forall ds,
             In (Exec clean_cmd use_shell false res0)
                (dr ++ mkdir_events st ++ Announce building_announcement :: db ++ ds)).
  { intros ds. apply in_app_iff. right. apply in_app_iff. right. right.
    apply in_app_iff. left. rewrite Hdb. left. reflexivity. }
  destruct rb as [x|[]].
  { exists (inl x), st4,
      (dr ++ mkdir_events st ++ Announce building_announcement :: db)%list.
    split; [reflexivity|]. split; [exact Hlog4|].
    rewrite Hf4. unfold st3. simpl.
    split; [eapply run_solution_failed; eassumption|]. split; [exact Hlist|].
    split; [exact Hmono|]. intros _. right. exists res0.
    specialize (Hclean []). rewrite app_nil_r in Hclean. exact Hclean. }
  destruct (String.eqb (DEVTOOLS g) "Mono") eqn:Hdev.
  - destruct (build_monoclr_run st4) as (r5 & st5 & ds & E5 & Hf5 & Hl5 & Ht5).
    exists r5, st5,
      (dr ++ mkdir_events st ++ Announce building_announcement :: db ++ ds)%list.
    split; [exact E5|]. split.
    { rewrite Hl5, Hlog4, <- !app_assoc. reflexivity. }
    rewrite Hf5, Hf4. unfold st3. simpl.
    split; [eapply run_alternate; eassumption|]. split; [exact Hlist|].
    split; [exact Hmono|]. intros _. right. exists res0. apply Hclean.
  - exists (inr tt), st4,
      (dr ++ mkdir_events st ++ Announce building_announcement :: db)%list.
    split; [reflexivity|]. split; [exact Hlog4|].
    rewrite Hf4. unfold st3. simpl.
    split; [eapply run_primary; eassumption|]. split; [exact Hlist|].
    split; [exact Hmono|]. intros _. right. exists res0.
    specialize (Hclean []). rewrite app_nil_r in Hclean. exact Hclean.
Qed.

Lemma restore_cmd_not_build_tool dir s p res :
  is_build_tool_call (Exec (restore_cmd h g dir) s p res) = false.
Proof.
  simpl. apply orb_false_iff. split; apply String.eqb_neq; intros E;
    pose proof (last_char_restore dir) as Hl; rewrite E in Hl.
  - rewrite last_char_clean in Hl. discriminate.
  - rewrite last_char_build in Hl. discriminate.
Qed.

Lemma query_not_build_tool c s p res :
  In c pkg_config_queries -> is_build_tool_call (Exec c s p res) = false.
Proof.
  intros Hc. simpl. apply orb_false_iff. split; apply String.eqb_neq; intros E;
    destruct (last_char_query c Hc) as [Hl|Hl]; rewrite E in Hl.
  - rewrite last_char_clean in Hl. discriminate.
  - rewrite last_char_clean in Hl. discriminate.
  - rewrite last_char_build in Hl. discriminate.
  - rewrite last_char_build in Hl. discriminate.
Qed.

Lemma restore_trace_events el delta r e :
  restore_trace h g el delta r -> In e delta ->
  is_shim_event e = false /\ is_build_tool_call e = false /\ exec_origin e.
Proof.
  induction 1 as [|dir dirs out err delta r _ IH|dir dirs rc out err Hrc|dir dirs msg];
    simpl In; intros Hin.
  - contradiction.
  - destruct Hin as [E|[E|Hin]]; [subst e|subst e|exact (IH Hin)].
    + repeat split.
    + split; [reflexivity|]. split; [apply restore_cmd_not_build_tool|].
      right. right. repeat split. exists dir. reflexivity.
  - destruct Hin as [E|[E|[]]]; subst e.
    + repeat split.
    + split; [reflexivity|]. split; [apply restore_cmd_not_build_tool|].
      right. right. repeat split. exists dir. reflexivity.
  - destruct Hin as [E|[E|[]]]; subst e.
    + repeat split.
    + split; [reflexivity|]. split; [apply restore_cmd_not_build_tool|].
      right. right. repeat split. exists dir. reflexivity.
Qed.

Lemma restore_trace_error el delta r e x :
  restore_trace h g el delta r -> In e delta -> event_error e = Some x -> r = inl x.
Proof.
  induction 1 as [|dir dirs out err delta r _ IH|dir dirs rc out err Hrc|dir dirs msg];
    simpl In; intros Hin He.
  - contradiction.
  - destruct Hin as [E|[E|Hin]]; [subst e; discriminate|subst e; discriminate|].
    exact (IH Hin He).
  - destruct Hin as [E|[E|[]]]; subst e; [discriminate|].
    simpl in He. rewrite (neq_0_eqb _ Hrc) in He. congruence.
  - destruct Hin as [E|[E|[]]]; subst e; [discriminate|].
    simpl in He. congruence.
Qed.

Lemma solution_trace_error delta r e x :
  solution_trace delta r -> In e delta -> event_error e = Some x -> r = inl x.
Proof.
  intros [msg|rc out err Hrc|o1 e1 msg|o1 e1 rc out err Hrc|o1 e1 o2 e2] Hin He;
    simpl in Hin.
  - destruct Hin as [E|[]]; subst e. simpl in He. congruence.
  - destruct Hin as [E|[]]; subst e. simpl in He.
    rewrite (neq_0_eqb _ Hrc) in He. congruence.
  - destruct Hin as [E|[E|[]]]; subst e; [discriminate|]. simpl in He. congruence.
  - destruct Hin as [E|[E|[]]]; subst e; [discriminate|]. simpl in He.
    rewrite (neq_0_eqb _ Hrc) in He. congruence.
  - destruct Hin as [E|[E|[]]]; subst e; discriminate.
Qed.

Lemma solution_trace_events delta r e :
  solution_trace delta r -> In e delta ->
  is_shim_event e = false /\ is_build_tool_call e = true /\ exec_origin e.
Proof.
  assert (Hc : forall res, is_build_tool_call (Exec clean_cmd use_shell false res) = true).
  { intros res. simpl. rewrite String.eqb_refl. reflexivity. }
  assert (Hb : forall res, is_build_tool_call (Exec build_cmd use_shell false res) = true).
  { intros res. simpl. rewrite String.eqb_refl. apply orb_true_r. }
  assert (Oc : forall res, exec_origin (Exec clean_cmd use_shell false res)).
  { intros res. right. left. repeat split. left. reflexivity. }
  assert (Ob : forall res, exec_origin (Exec build_cmd use_shell false res)).
  { intros res. right. left. repeat split. right. reflexivity. }
  intros [msg|rc out err Hrc|o1 e1 msg|o1 e1 rc out err Hrc|o1 e1 o2 e2] Hin;
    simpl in Hin;
    repeat match goal with
           | H : _ \/ _ |- _ => destruct H as [H|H]
           | H : False |- _ => contradiction
           end; subst e; (split; [reflexivity|]); (split; [apply Hc || apply Hb|]);
    (apply Oc || apply Ob).
Qed.

Lemma shim_trace_error delta r e x :
  shim_trace delta r -> In e delta -> event_error e = Some x -> r = inl x.
Proof.
  intros [dq y Hq|dq cf lb y Hq|dq cf lb y Hq|dq cf lb objs err Hq] Hin He.
  - pose proof (flags_trace_error _ _ _ _ Hq Hin He) as E. inversion E. reflexivity.
  - apply in_app_iff in Hin. destruct Hin as [Hin|[E|[]]].
    + pose proof (flags_trace_error _ _ _ _ Hq Hin He). discriminate.
    + subst e. simpl in He. congruence.
  - apply in_app_iff in Hin. destruct Hin as [Hin|[E|[E|[]]]].
    + pose proof (flags_trace_error _ _ _ _ Hq Hin He). discriminate.
    + subst e. discriminate.
    + subst e. simpl in He. congruence.
  - apply in_app_iff in Hin. destruct Hin as [Hin|[E|[E|[E|[]]]]].
    + pose proof (flags_trace_error _ _ _ _ Hq Hin He). discriminate.
    + subst e. discriminate.
    + subst e. discriminate.
    + subst e. destruct err; simpl in He; congruence.
Qed.

Lemma shim_trace_events delta r e :
  shim_trace delta r -> In e delta ->
  is_shim_event e = true /\ is_build_tool_call e = false /\ exec_origin e
  /\ (forall a err, e = LinkExecutable a err ->
      l_output_dir a = dest_dir /\ l_output_progname a = _npython_exe g)
  /\ (forall x err, e = StockBuildExtension x err -> name x = "clr").
Proof.
  assert (Hflags : forall dq rq, flags_trace dq rq -> In e dq ->
            is_shim_event e = true /\ is_build_tool_call e = false /\ exec_origin e
            /\ (forall a err, e = LinkExecutable a err ->
                l_output_dir a = dest_dir /\ l_output_progname a = _npython_exe g)
            /\ (forall x err, e = StockBuildExtension x err -> name x = "clr")).
  { intros dq rq Hq Hin.
    destruct (flags_trace_events _ _ _ Hq Hin) as (c & res & Hc & E). subst e.
    split; [reflexivity|]. split; [apply query_not_build_tool; exact Hc|].
    split; [left; repeat split; exact Hc|]. split; intros; discriminate. }
  assert (Hsvc : forall e0,
            match e0 with
            | StockBuildExtension x _ => name x = "clr"
            | Compile _ _ => True
            | LinkExecutable a _ =>
                l_output_dir a = dest_dir /\ l_output_progname a = _npython_exe g
            | _ => False
            end ->
            is_shim_event e0 = true /\ is_build_tool_call e0 = false /\ exec_origin e0
            /\ (forall a err, e0 = LinkExecutable a err ->
                l_output_dir a = dest_dir /\ l_output_progname a = _npython_exe g)
            /\ (forall x err, e0 = StockBuildExtension x err -> name x = "clr")).
  { intros e0 H0. destruct e0; try contradiction;
      (split; [reflexivity|]); (split; [reflexivity|]); (split; [exact I|]);
      split; intros ? ? E; inversion E; subst; assumption. }
  intros [dq y Hq|dq cf lb y Hq|dq cf lb y Hq|dq cf lb objs err Hq] Hin.
  - exact (Hflags _ _ Hq Hin).
  - apply in_app_iff in Hin. destruct Hin as [Hin|[E|[]]]; [exact (Hflags _ _ Hq Hin)|].
    subst e. apply Hsvc. reflexivity.
  - apply in_app_iff in Hin.
    destruct Hin as [Hin|[E|[E|[]]]]; [exact (Hflags _ _ Hq Hin)| |]; subst e;
      apply Hsvc; (reflexivity || exact I).
  - apply in_app_iff in Hin.
    destruct Hin as [Hin|[E|[E|[E|[]]]]]; [exact (Hflags _ _ Hq Hin)| | |]; subst e;
      apply Hsvc; first [reflexivity | exact I | split; reflexivity].
Qed.

Lemma filter_none {A} (f : A -> bool) l :
  (forall x, In x l -> f x = false) -> filter f l = [].
Proof.
  induction l as [|x l IH]; simpl; intros Hf; [reflexivity|].
  rewrite (Hf x (or_introl eq_refl)). apply IH. intros y Hy. apply Hf. right. exact Hy.
Qed.

Lemma filter_all {A} (f : A -> bool) l :
  (forall x, In x l -> f x = true) -> filter f l = l.
Proof.
  induction l as [|x l IH]; simpl; intros Hf; [reflexivity|].
  rewrite (Hf x (or_introl eq_refl)). f_equal. apply IH. intros y Hy. apply Hf.
  right. exact Hy.
Qed.

Lemma prelude_events st e :
  In e (mkdir_events st ++ [Announce building_announcement]) ->
  is_shim_event e = false /\ is_build_tool_call e = false
  /\ event_error e = None /\ exec_origin e.
Proof.
  unfold mkdir_events. destruct (path_exists (fs st) dest_dir); simpl;
    intros Hin;
    repeat match goal with
           | H : _ \/ _ |- _ => destruct H as [H|H]
           | H : False |- _ => contradiction
           end; subst e; repeat split.
Qed.

(** A run seen as three stretches: what comes before the solution build,
    the solution build, and the shim build. *)
Lemma build_run_stretches st delta r :
  build_run st delta r ->
  (exists x, r = inl x /\
     forall e, In e delta ->
       is_shim_event e = false /\ is_build_tool_call e = false /\ exec_origin e
       /\ (forall y, event_error e = Some y -> r = inl y))
  \/ (exists d1 db rb ds,
        delta = (d1 ++ db ++ ds)%list
        /\ solution_trace db rb
        /\ (forall e, In e d1 ->
              is_shim_event e = false /\ is_build_tool_call e = false
              /\ exec_origin e /\ event_error e = None)
        /\ match rb with
           | inl x => r = inl x /\ ds = []
           | inr _ =>
               if String.eqb (DEVTOOLS g) "Mono" then shim_trace ds r
               else r = inr tt /\ ds = []
           end).
Proof.
  intros [Hls|dirs dr x Hls Hr|dirs dr x Hls Hr Hex|dirs dr db x Hls Hr Hs
         |dirs dr db Hls Hr Hs Hdev|dirs dr db ds r' Hls Hr Hs Hdev Hshim].
  - left. exists (OSError "src"). split; [reflexivity|]. intros e [].
  - left. exists x. split; [reflexivity|]. intros e Hin.
    destruct (restore_trace_events _ _ _ _ Hr Hin) as (H1 & H2 & H3).
    repeat split; try assumption. intros y Hy.
    exact (restore_trace_error _ _ _ _ _ Hr Hin Hy).
  - left. exists x. split; [reflexivity|]. intros e Hin.
    apply in_app_iff in Hin. destruct Hin as [Hin|[Ee|[]]].
    + destruct (restore_trace_events _ _ _ _ Hr Hin) as (H1 & H2 & H3).
      repeat split; try assumption. intros y Hy.
      pose proof (restore_trace_error _ _ _ _ _ Hr Hin Hy). discriminate.
    + subst e. repeat split. simpl. intros y Hy. congruence.
  - right. exists (dr ++ mkdir_events st ++ [Announce building_announcement])%list,
      db, (inl x), [].
    split; [rewrite app_nil_r, <- !app_assoc; reflexivity|]. split; [exact Hs|].
    split; [|split; reflexivity].
    intros e Hin. apply in_app_iff in Hin. destruct Hin as [Hin|Hin].
    + destruct (restore_trace_events _ _ _ _ Hr Hin) as (H1 & H2 & H3).
      repeat split; try assumption.
      destruct (event_error e) as [y|] eqn:Ey; [|reflexivity].
      pose proof (restore_trace_error _ _ _ _ _ Hr Hin Ey). discriminate.
    + destruct (prelude_events st e Hin) as (H1 & H2 & H3 & H4). repeat split; assumption.
  - right. exists (dr ++ mkdir_events st ++ [Announce building_announcement])%list,
      db, (inr tt), [].
    split; [rewrite app_nil_r, <- !app_assoc; reflexivity|]. split; [exact Hs|].
    split; [|rewrite Hdev; split; reflexivity].
    intros e Hin. apply in_app_iff in Hin. destruct Hin as [Hin|Hin].
    + destruct (restore_trace_events _ _ _ _ Hr Hin) as (H1 & H2 & H3).
      repeat split; try assumption.
      destruct (event_error e) as [y|] eqn:Ey; [|reflexivity].
      pose proof (restore_trace_error _ _ _ _ _ Hr Hin Ey). discriminate.
    + destruct (prelude_events st e Hin) as (H1 & H2 & H3 & H4). repeat split; assumption.
  - right. exists (dr ++ mkdir_events st ++ [Announce building_announcement])%list,
      db, (inr tt), ds.
    split; [rewrite <- !app_assoc; reflexivity|]. split; [exact Hs|].
    split; [|rewrite Hdev; exact Hshim].
    intros e Hin. apply in_app_iff in Hin. destruct Hin as [Hin|Hin].
    + destruct (restore_trace_events _ _ _ _ Hr Hin) as (H1 & H2 & H3).
      repeat split; try assumption.
      destruct (event_error e) as [y|] eqn:Ey; [|reflexivity].
      pose proof (restore_trace_error _ _ _ _ _ Hr Hin Ey). discriminate.
    + destruct (prelude_events st e Hin) as (H1 & H2 & H3 & H4). repeat split; assumption.
Qed.

Lemma build_run_error st delta r e y :
  build_run st delta r -> In e delta -> event_error e = Some y -> r = inl y.
Proof.
  intros Hrun Hin He.
  destruct (build_run_stretches _ _ _ Hrun)
    as [(x & Hr & Hall)|(d1 & db & rb & ds & Hd & Hs & H1 & Hend)].
  - destruct (Hall e Hin) as (_ & _ & _ & Herr). exact (Herr y He).
  - subst delta. apply in_app_iff in Hin. destruct Hin as [Hin|Hin].
    + destruct (H1 e Hin) as (_ & _ & _ & Hnone). congruence.
    + apply in_app_iff in Hin. destruct Hin as [Hin|Hin].
      * pose proof (solution_trace_error _ _ _ _ Hs Hin He) as Erb. subst rb.
        destruct Hend as [Hr _]. exact Hr.
      * destruct rb as [x|u].
        -- destruct Hend as [_ Hds]. subst ds. contradiction.
        -- destruct (String.eqb (DEVTOOLS g) "Mono").
           ++ exact (shim_trace_error _ _ _ _ Hend Hin He).
           ++ destruct Hend as [_ Hds]. subst ds. contradiction.
Qed.

Lemma build_run_origin st delta r e :
  build_run st delta r -> In e delta -> exec_origin e.
Proof.
  intros Hrun Hin.
  destruct (build_run_stretches _ _ _ Hrun)
    as [(x & Hr & Hall)|(d1 & db & rb & ds & Hd & Hs & H1 & Hend)].
  - destruct (Hall e Hin) as (_ & _ & Ho & _). exact Ho.
  - subst delta. apply in_app_iff in Hin. destruct Hin as [Hin|Hin].
    + destruct (H1 e Hin) as (_ & _ & Ho & _). exact Ho.
    + apply in_app_iff in Hin. destruct Hin as [Hin|Hin].
      * destruct (solution_trace_events _ _ _ Hs Hin) as (_ & _ & Ho). exact Ho.
      * destruct rb as [x|u].
        -- destruct Hend as [_ Hds]. subst ds. contradiction.
        -- destruct (String.eqb (DEVTOOLS g) "Mono").
           ++ destruct (shim_trace_events _ _ _ Hend Hin) as (_ & _ & Ho & _). exact Ho.
           ++ destruct Hend as [_ Hds]. subst ds. contradiction.
Qed.

Lemma build_run_calls st delta r :
  build_run st delta r ->
  (filter is_build_tool_call delta = [] /\ exists x, r = inl x)
  \/ exists db rb,
       solution_trace db rb
       /\ filter is_build_tool_call delta = db
       /\ (forall x, rb = inl x -> r = inl x)
       /\ (r = inr tt -> rb = inr tt).
Proof.
  intros Hrun.
  destruct (build_run_stretches _ _ _ Hrun)
    as [(x & Hr & Hall)|(d1 & db & rb & ds & Hd & Hs & H1 & Hend)].
  - left. split; [|exists x; exact Hr]. apply filter_none.
    intros e Hin. destruct (Hall e Hin) as (_ & Hb & _). exact Hb.
  - right. exists db, rb. split; [exact Hs|]. subst delta.
    assert (F1 : filter is_build_tool_call d1 = []).
    { apply filter_none. intros e Hin. destruct (H1 e Hin) as (_ & Hb & _). exact Hb. }
    assert (Fb : filter is_build_tool_call db = db).
    { apply filter_all. intros e Hin.
      destruct (solution_trace_events _ _ _ Hs Hin) as (_ & Hb & _). exact Hb. }
    assert (Fs : filter is_build_tool_call ds = []).
    { destruct rb as [x|u].
      - destruct Hend as [_ Hds]. subst ds. reflexivity.
      - destruct (String.eqb (DEVTOOLS g) "Mono").
        + apply filter_none. intros e Hin.
          destruct (shim_trace_events _ _ _ Hend Hin) as (_ & Hb & _). exact Hb.
        + destruct Hend as [_ Hds]. subst ds. reflexivity. }
    rewrite !filter_app, F1, Fb, Fs, app_nil_r. split; [reflexivity|]. split.
    + intros x Ex. subst rb. destruct Hend as [Hr _]. exact Hr.
    + intros Er. destruct rb as [x|[]]; [|reflexivity].
      destruct Hend as [Hr _]. congruence.
Qed.

Lemma build_run_shim st delta r e :
  build_run st delta r -> In e delta -> is_shim_event e = true ->
  String.eqb (DEVTOOLS g) "Mono" = true
  /\ exists d1 o1 e1 o2 e2 ds,
       delta = (d1 ++ Exec clean_cmd use_shell false (Exited 0 o1 e1)
                   :: Exec build_cmd use_shell false (Exited 0 o2 e2) :: ds)%list
       /\ In e ds
       /\ (forall e', In e' d1 -> is_shim_event e' = false /\ event_error e' = None)
       /\ shim_trace ds r.
Proof.
  intros Hrun Hin Hshim.
  destruct (build_run_stretches _ _ _ Hrun)
    as [(x & Hr & Hall)|(d1 & db & rb & ds & Hd & Hs & H1 & Hend)].
  - destruct (Hall e Hin) as (Hn & _). congruence.
  - assert (Hds : In e ds).
    { subst delta. apply in_app_iff in Hin. destruct Hin as [Hin|Hin].
      - destruct (H1 e Hin) as (Hn & _). congruence.
      - apply in_app_iff in Hin. destruct Hin as [Hin|Hin]; [|exact Hin].
        destruct (solution_trace_events _ _ _ Hs Hin) as (Hn & _). congruence. }
    destruct rb as [x|[]].
    { destruct Hend as [_ E]. subst ds. contradiction. }
    destruct (String.eqb (DEVTOOLS g) "Mono") eqn:Hdev.
    2:{ destruct Hend as [_ E]. subst ds. contradiction. }
    split; [reflexivity|].
    destruct (solution_trace_built _ Hs) as (o1 & e1 & o2 & e2 & Hdb).
    exists d1, o1, e1, o2, e2, ds. subst delta db.
    split; [reflexivity|]. split; [exact Hds|]. split; [|exact Hend].
    intros e' He'. destruct (H1 e' He') as (Hn & _ & _ & Hnone). split; assumption.
Qed.

Lemma exit_failed_error c s p res :
  exit_ok res = false -> exists y, event_error (Exec c s p res) = Some y.
Proof.
  destruct res as [msg|rc out err]; simpl; intros E.
  - eexists. reflexivity.
  - rewrite E. eexists. reflexivity.
Qed.

(** C1 (amended). For the extension [clr], the build tool is invoked at
    most twice and always Clean before Build, both command lines being the
    shared line (configuration, platform, joined defines, output
    directory, verbosity) followed by the target. Clean is attempted once
    the restore step has returned and the output directory is in place;
    when the creation of the output directory raises, the run ends with
    that error and the build tool is not invoked at all. Build is
    attempted exactly when Clean exits zero: it follows a Clean that
    exited zero, it is never attempted after a Clean that exited
    non-zero or could not be started, and a run that returns normally
    has made both. When Clean exits non-zero, the exception that leaves
    is [CalledProcessError] with the return code and the Clean command
    line; its [output] is [None]: the tool's output is not part of it. *)
Theorem build_invokes_clean_then_build (st : State) :
  name ext = "clr" ->
  exists r st' delta,
    build_extension w h g self ext st = (r, st')
    /\ log st' = (log st ++ delta)%list
    /\ clean_cmd = Py.join " " (cmd h g dest_dir) ++ " /t:Clean"
    /\ build_cmd = Py.join " " (cmd h g dest_dir) ++ " /t:Build"
    /\ (exists rest,
          [(clean_cmd, use_shell); (build_cmd, use_shell)]
          = (execs (filter is_build_tool_call delta) ++ rest)%list)
    /\ (fst (_install_packages w h g st) = inr tt ->
        (forall p x, ~ In (Makedirs p (Some x)) delta) ->
        exists res, In (Exec clean_cmd use_shell false res) delta)
    /\ (forall p x, In (Makedirs p (Some x)) delta ->
        r = inl x /\ filter is_build_tool_call delta = [])
    /\ (forall o e, In (Exec clean_cmd use_shell false (Exited 0 o e)) delta ->
        exists res,
          filter is_build_tool_call delta
          = [Exec clean_cmd use_shell false (Exited 0 o e);
             Exec build_cmd use_shell false res])
    /\ (forall s p res, In (Exec build_cmd s p res) delta ->
        exists o e,
          filter is_build_tool_call delta
          = [Exec clean_cmd use_shell false (Exited 0 o e);
             Exec build_cmd use_shell false res])
    /\ (r = inr tt ->
        exists o1 e1 o2 e2,
          filter is_build_tool_call delta
          = [Exec clean_cmd use_shell false (Exited 0 o1 e1);
             Exec build_cmd use_shell false (Exited 0 o2 e2)])
    /\ (forall s p rc out err,
          In (Exec clean_cmd s p (Exited rc out err)) delta -> rc <> 0 ->
          filter is_build_tool_call delta
          = [Exec clean_cmd use_shell false (Exited rc out err)]
          /\ (forall s' p' res, ~ In (Exec build_cmd s' p' res) delta)
          /\ r = inl (CalledProcessError rc clean_cmd None)
          /\ exn_output (CalledProcessError rc clean_cmd None) = None)
    /\ (forall s p msg,
          In (Exec clean_cmd s p (SpawnFailed msg)) delta ->
          filter is_build_tool_call delta
          = [Exec clean_cmd use_shell false (SpawnFailed msg)]
          /\ (forall s' p' res, ~ In (Exec build_cmd s' p' res) delta)
          /\ r = inl (OSError msg)).
Proof.
  intros Hname.
  destruct (build_extension_run st Hname)
    as (r & st' & delta & E & Hl & Hrun & _ & _ & Hclean).
  exists r, st', delta. split; [exact E|]. split; [exact Hl|].
  split; [exact clean_cmd_shared|]. split; [exact build_cmd_shared|].
  assert (Hcall : forall e, In e delta -> is_build_tool_call e = true ->
                            In e (filter is_build_tool_call delta)).
  { intros e Hin Hb. apply filter_In. split; assumption. }
  assert (Hisclean : forall s p res, is_build_tool_call (Exec clean_cmd s p res) = true).
  { intros. simpl. rewrite String.eqb_refl. reflexivity. }
  assert (Hisbuild : forall s p res, is_build_tool_call (Exec build_cmd s p res) = true).
  { intros. simpl. rewrite String.eqb_refl. apply orb_true_r. }
  pose proof clean_cmd_neq_build_cmd as Hneq.
  assert (Hattempt : fst (_install_packages w h g st) = inr tt ->
                     (forall p x, ~ In (Makedirs p (Some x)) delta) ->
                     exists res, In (Exec clean_cmd use_shell false res) delta).
  { intros Hr Hno. destruct (Hclean Hr) as [[x Hx]|Hc]; [|exact Hc].
    exfalso. exact (Hno _ _ Hx). }
  assert (Hmkfail : forall p x, In (Makedirs p (Some x)) delta ->
                    r = inl x /\ filter is_build_tool_call delta = []).
  { intros p x Hin. split.
    - exact (build_run_error _ _ _ _ _ Hrun Hin eq_refl).
    - destruct (build_run_stretches _ _ _ Hrun)
        as [(y & Hr & Hall)|(d1 & db & rb & ds & Hd & Hs & H1 & Hend)].
      + apply filter_none. intros e He. destruct (Hall e He) as (_ & Hb & _). exact Hb.
      + exfalso. subst delta. apply in_app_iff in Hin. destruct Hin as [Hin|Hin].
        * destruct (H1 _ Hin) as (_ & _ & _ & Hnone). discriminate.
        * apply in_app_iff in Hin. destruct Hin as [Hin|Hin].
          -- destruct (solution_trace_events _ _ _ Hs Hin) as (_ & Hb & _). discriminate.
          -- destruct rb as [y|u].
             ++ destruct Hend as [_ Hds]. subst ds. contradiction.
             ++ destruct (String.eqb (DEVTOOLS g) "Mono").
                ** destruct (shim_trace_events _ _ _ Hend Hin) as (Hsh & _). discriminate.
                ** destruct Hend as [_ Hds]. subst ds. contradiction. }
  destruct (build_run_calls _ _ _ Hrun)
    as [(Hnone & x & Hr)|(db & rb & Hs & Hdb & Hfail & Hret)].
  - rewrite Hnone. split; [eexists; reflexivity|]. split; [exact Hattempt|].
    split; [intros p y Hin; split; [exact (proj1 (Hmkfail p y Hin))|reflexivity]|].
    split; [|split; [|split; [|split]]].
    + intros o e Hin. apply Hcall in Hin; [|apply Hisclean]. rewrite Hnone in Hin.
      contradiction.
    + intros s p res Hin. apply Hcall in Hin; [|apply Hisbuild]. rewrite Hnone in Hin.
      contradiction.
    + intros Er. congruence.
    + intros s p rc out err Hin _. apply Hcall in Hin; [|apply Hisclean].
      rewrite Hnone in Hin. contradiction.
    + intros s p msg Hin. apply Hcall in Hin; [|apply Hisclean].
      rewrite Hnone in Hin. contradiction.
  - rewrite Hdb. split; [|split; [exact Hattempt|split; [|split; [|split; [|split; [|split]]]]]].
    + destruct Hs; simpl; eexists; reflexivity.
    + intros p y Hin. destruct (Hmkfail p y Hin) as [Hr Hf].
      split; [exact Hr|]. rewrite <- Hdb. exact Hf.
    + intros o e Hin. apply Hcall in Hin; [|apply Hisclean]. rewrite Hdb in Hin.
      destruct Hs; simpl in Hin;
        repeat match goal with
               | H : _ \/ _ |- _ => destruct H as [H|H]
               | H : False |- _ => contradiction
               | H : Exec _ _ _ _ = Exec _ _ _ _ |- _ => inversion H; clear H; subst
               end; try congruence; try lia; eexists; reflexivity.
    + intros s p res Hin. apply Hcall in Hin; [|apply Hisbuild]. rewrite Hdb in Hin.
      destruct Hs; simpl in Hin;
        repeat match goal with
               | H : _ \/ _ |- _ => destruct H as [H|H]
               | H : False |- _ => contradiction
               | H : Exec _ _ _ _ = Exec _ _ _ _ |- _ => inversion H; clear H; subst
               end; try congruence; eexists; eexists; reflexivity.
    + intros Er. specialize (Hret Er). subst rb.
      destruct (solution_trace_built _ Hs) as (o1 & e1 & o2 & e2 & Ed).
      exists o1, e1, o2, e2. exact Ed.
    + intros s p rc out err Hin Hrc.
      pose proof (Hcall _ Hin (Hisclean _ _ _)) as Hin'. rewrite Hdb in Hin'.
      assert (Hshape : db = [Exec clean_cmd use_shell false (Exited rc out err)]
                       /\ rb = inl (CalledProcessError rc clean_cmd None)).
      { destruct Hs; simpl in Hin';
          repeat match goal with
                 | H : _ \/ _ |- _ => destruct H as [H|H]
                 | H : False |- _ => contradiction
                 | H : Exec _ _ _ _ = Exec _ _ _ _ |- _ => inversion H; clear H; subst
                 end; try congruence; try lia; split; reflexivity. }
      destruct Hshape as [Ed Erb]. split; [exact Ed|]. split; [|split].
      * intros s' p' res Hb. apply Hcall in Hb; [|apply Hisbuild].
        rewrite Hdb, Ed in Hb. destruct Hb as [Hb|[]]. inversion Hb. congruence.
      * apply Hfail. exact Erb.
      * reflexivity.
    + intros s p msg Hin.
      pose proof (Hcall _ Hin (Hisclean _ _ _)) as Hin'. rewrite Hdb in Hin'.
      assert (Hshape : db = [Exec clean_cmd use_shell false (SpawnFailed msg)]
                       /\ rb = inl (OSError msg)).
      { destruct Hs; simpl in Hin';
          repeat match goal with
                 | H : _ \/ _ |- _ => destruct H as [H|H]
                 | H : False |- _ => contradiction
                 | H : Exec _ _ _ _ = Exec _ _ _ _ |- _ => inversion H; clear H; subst
                 end; try congruence; split; reflexivity. }
      destruct Hshape as [Ed Erb]. split; [exact Ed|]. split.
      * intros s' p' res Hb. apply Hcall in Hb; [|apply Hisbuild].
        rewrite Hdb, Ed in Hb. destruct Hb as [Hb|[]]. inversion Hb. congruence.
      * apply Hfail. exact Erb.
Qed.


(** C6 (amended). In a run for [clr], when a child process exits
    non-zero, the exception that leaves is [CalledProcessError] with that
    return code and that command line; it carries the standard output of
    the process exactly when the process is one of the four [pkg-config]
    queries, whose output is piped back; for a restore, Clean or Build
    invocation [output] is [None]. Standard error is never part of it. *)
Theorem process_failure_error (st : State) :
  name ext = "clr" ->
  exists r st' delta,
    build_extension w h g self ext st = (r, st')
    /\ log st' = (log st ++ delta)%list
    /\ forall c s p rc out err,
         In (Exec c s p (Exited rc out err)) delta -> rc <> 0 ->
         r = inl (CalledProcessError rc c (if p then Some out else None))
         /\ (p = true <-> In c pkg_config_queries)
         /\ (c = clean_cmd \/ c = build_cmd \/ (exists dir, c = restore_cmd h g dir) ->
             r = inl (CalledProcessError rc c None)).
Proof.
  intros Hname.
  destruct (build_extension_run st Hname)
    as (r & st' & delta & E & Hl & Hrun & _).
  exists r, st', delta. split; [exact E|]. split; [exact Hl|].
  intros c s p rc out err Hin Hrc.
  assert (Hr : r = inl (CalledProcessError rc c (if p then Some out else None))).
  { apply (build_run_error _ _ _ _ _ Hrun Hin). simpl.
    rewrite (neq_0_eqb _ Hrc). reflexivity. }
  assert (Hnq : c = clean_cmd \/ c = build_cmd \/ (exists dir, c = restore_cmd h g dir) ->
                ~ In c pkg_config_queries).
  { intros Hc Hq. destruct (last_char_query c Hq) as [Hlast|Hlast];
      destruct Hc as [Hc|[Hc|[dir Hc]]]; subst c;
      rewrite ?last_char_clean, ?last_char_build, ?last_char_restore in Hlast;
      discriminate. }
  pose proof (build_run_origin _ _ _ _ Hrun Hin) as Ho. simpl in Ho.
  split; [exact Hr|]. split.
  - destruct Ho as [(Hp & _ & Hq)|[(Hp & _ & Hc)|(Hp & _ & Hc)]].
    + split; intros; assumption.
    + split; [congruence|]. intros Hq. exfalso. apply Hnq in Hq; [exact Hq|].
      destruct Hc; auto.
    + split; [congruence|]. intros Hq. exfalso. apply Hnq in Hq; [exact Hq|]. auto.
  - intros Hc. destruct Ho as [(Hp & _ & Hq)|[(Hp & _ & _)|(Hp & _ & _)]].
    + exfalso. exact (Hnq Hc Hq).
    + rewrite Hp in Hr. exact Hr.
    + rewrite Hp in Hr. exact Hr.
Qed.

(** C10. For an extension whose name is not [clr], [build_extension] is
    the stock extension builder and nothing more: the log gains the one
    event of that call (no restore, no Clean or Build, no query, no
    compiler or linker call of the shim), and the tree is left as it
    was. *)
Theorem build_extension_other_delegates (st : State) :
  name ext <> "clr" ->
  build_extension w h g self ext st = build_ext_build_extension w ext st
  /\ exists err,
       build_extension w h g self ext st
       = (match err with Some x => inl x | None => inr tt end,
          mkState (fs st) (log st ++ [StockBuildExtension ext err]))
       /\ execs [StockBuildExtension ext err] = [].
Proof.
  intros Hname. apply String.eqb_neq in Hname.
  unfold build_extension. rewrite Hname. cbn [negb].
  split; [reflexivity|].
  exists (w_stock_build_extension w st ext). split; [|reflexivity].
  unfold build_ext_build_extension.
  destruct (w_stock_build_extension w st ext); reflexivity.
Qed.


End Build.

(** * Further properties of the script *)

(** ** The msbuild lookup (lines 23 to 56) *)

Lemma find_first {A} (p : A -> bool) before x after :
  (forall y, In y before -> p y = false) -> p x = true ->
  find p (before ++ x :: after) = Some x.
Proof.
  intros Hb Hx. induction before as [|y before IH]; simpl.
  - rewrite Hx. reflexivity.
  - rewrite (Hb y (or_introl eq_refl)). apply IH. intros z Hz. apply Hb. right. exact Hz.
Qed.

Lemma find_msbuild_path_unfold (h : Host) :
  _find_msbuild_path h
  = match find (reg_key_exists h) msbuild_keys with
    | None => inl msbuild_not_found
    | Some hkey =>
        match reg_query_value h hkey "MSBuildToolsPath" with
        | inl e => inl e
        | inr (val, type_) =>
            if type_ =? REG_SZ then inr (os_path_join h val "msbuild.exe")
            else inl msbuild_not_found
        end
    end.
Proof.
  unfold _find_msbuild_path, msbuild_keys, msbuild_not_found. cbv zeta.
  destruct (find (reg_key_exists h) _) as [hkey|]; [|reflexivity].
  destruct (reg_query_value h hkey "MSBuildToolsPath") as [e|[val type_]]; [reflexivity|].
  destruct (type_ =? REG_SZ); reflexivity.
Qed.

(** X1. The first key that opens, in the order 12.0, 4.0, 3.5, 2.0,
    decides alone: the result is the path of [msbuild.exe] under that
    key's [MSBuildToolsPath] when the value is a string; when the value
    has another type the lookup fails, and when reading it raises, that
    error leaves. The keys after it are never consulted, so there is no
    fallback to an older version. *)
Theorem find_msbuild_path_first_open_key (h : Host) (before after : list string)
    (key : string) :
  msbuild_keys = (before ++ key :: after)%list ->
  (forall k, In k before -> reg_key_exists h k = false) ->
  reg_key_exists h key = true ->
  _find_msbuild_path h
  = match reg_query_value h key "MSBuildToolsPath" with
    | inl e => inl e
    | inr (val, type_) =>
        if type_ =? REG_SZ then inr (os_path_join h val "msbuild.exe")
        else inl msbuild_not_found
    end.
Proof.
  intros Hk Hb Ho. rewrite find_msbuild_path_unfold, Hk.
  rewrite (find_first _ _ _ _ Hb Ho). reflexivity.
Qed.

(** X2. Every outcome of the lookup has its cause in the registry: a
    path comes from a key that opens and holds a string value, and is that
    value joined with [msbuild.exe]; the lookup fails with "could not be
    found" only when no key opens or the key that opened holds a value of
    another type; any other error is the one reading the value raised. *)
Theorem find_msbuild_path_outcome (h : Host) :
  match _find_msbuild_path h with
  | inr p =>
      exists key val,
        In key msbuild_keys /\ reg_key_exists h key = true
        /\ reg_query_value h key "MSBuildToolsPath" = inr (val, REG_SZ)
        /\ p = os_path_join h val "msbuild.exe"
  | inl e =>
      (e = msbuild_not_found
       /\ forall k, In k msbuild_keys -> reg_key_exists h k = false)
      \/ exists key,
           In key msbuild_keys /\ reg_key_exists h key = true
           /\ (reg_query_value h key "MSBuildToolsPath" = inl e
               \/ exists val type_,
                    reg_query_value h key "MSBuildToolsPath" = inr (val, type_)
                    /\ type_ <> REG_SZ /\ e = msbuild_not_found)
  end.
Proof.
  rewrite find_msbuild_path_unfold.
  destruct (find (reg_key_exists h) msbuild_keys) as [key|] eqn:Hf.
  - apply find_some in Hf. destruct Hf as [Hin Ho].
    destruct (reg_query_value h key "MSBuildToolsPath") as [e|[val type_]] eqn:Hq.
    + right. exists key. split; [exact Hin|]. split; [exact Ho|]. left. exact Hq.
    + destruct (type_ =? REG_SZ) eqn:Ht.
      * apply Z.eqb_eq in Ht. subst type_. exists key, val.
        split; [exact Hin|]. split; [exact Ho|]. split; [exact Hq|reflexivity].
      * apply Z.eqb_neq in Ht. right. exists key.
        split; [exact Hin|]. split; [exact Ho|].
        right. exists val, type_. split; [exact Hq|]. split; [exact Ht|reflexivity].
  - left. split; [reflexivity|]. intros k Hk. exact (find_none _ _ Hf k Hk).
Qed.

(** ** The module level (lines 17 to 72) *)


(** ** [_check_output] (lines 228 to 241) *)

(** X4. [_check_output] runs one child process with its standard output
    piped back and leaves the tree alone. It returns exactly when the
    process exits with code zero, and then returns what the process wrote
    to standard output, unchanged; it succeeds on the same answers of the
    environment as [check_call]; and when it raises
    [CalledProcessError], the error is the one [check_call] raises for the
    same answer, with the standard output attached. *)
Theorem check_output_captures_stdout (w : World) (c : string) (shell : bool)
    (st : State) :
  (forall out,
     fst (_check_output w c None shell st) = inr out
     <-> exists err, w_proc w st c shell = Exited 0 out err)
  /\ (fst (check_call w c shell st) = inr tt
      <-> exists out, fst (_check_output w c None shell st) = inr out)
  /\ (forall rc cmd o,
        fst (_check_output w c None shell st) = inl (CalledProcessError rc cmd o)
        <-> rc <> 0 /\ cmd = c
            /\ exists out err, o = Some out /\ w_proc w st c shell = Exited rc out err)
  /\ (forall rc cmd o,
        fst (_check_output w c None shell st) = inl (CalledProcessError rc cmd o)
        -> fst (check_call w c shell st) = inl (CalledProcessError rc cmd None))
  /\ fs (snd (_check_output w c None shell st)) = fs st
  /\ log (snd (_check_output w c None shell st))
     = (log st ++ [Exec c shell true (w_proc w st c shell)])%list.
Proof.
  unfold _check_output, check_call, bind, Popen_communicate, Popen_wait.
  destruct (w_proc w st c shell) as [msg|rc out err] eqn:P; simpl.
  - split.
    { intros o. split; [discriminate|]. intros [e E]. discriminate. }
    split.
    { split; [discriminate|]. intros [o E]. discriminate. }
    split.
    { intros rc cmd o. split; [discriminate|].
      intros (_ & _ & o' & e' & _ & E). discriminate. }
    split; [discriminate|]. split; reflexivity.
  - destruct (rc =? 0) eqn:Z; simpl.
    + apply Z.eqb_eq in Z. subst rc. split.
      { intros o. split.
        - intros E. inversion E; subst. exists err. reflexivity.
        - intros [e E]. inversion E; subst. reflexivity. }
      split.
      { split; [intros _; exists out; reflexivity|reflexivity]. }
      split.
      { intros rc cmd o. split; [discriminate|].
        intros (Hrc & _ & o' & e' & _ & E). inversion E; subst. contradiction. }
      split; [discriminate|]. split; reflexivity.
    + apply Z.eqb_neq in Z. split.
      { intros o. split; [discriminate|]. intros [e E]. inversion E; subst.
        contradiction. }
      split.
      { split; [discriminate|]. intros [o E]. discriminate. }
      split.
      { intros rc' cmd o. split.
        - intros E. inversion E; subst. split; [exact Z|]. split; [reflexivity|].
          exists out, err. split; reflexivity.
        - intros (_ & Ec & o' & e' & Eo & E). inversion E; subst. reflexivity. }
      split; [|split; reflexivity].
      intros rc' cmd o E. inversion E; subst. reflexivity.
Qed.

(** ** The restore step (lines 170 to 190) *)

Section RestoreMore.

Variable w : World.
Variable h : Host.
Variable g : Globals.
Variable self : build_ext_cmd.
Variable ext : Extension.

Local Abbreviation restored := (restored h g).
Local Abbreviation restore_cmd := (restore_cmd h g).
Local Abbreviation restore_announcement := (restore_announcement h g).
Local Abbreviation restore_trace := (restore_trace h g).
Local Abbreviation restore_events := (restore_events h g).
Local Abbreviation manifest_path := (manifest_path h).

(** X5. When the projects root [src] cannot be listed, the restore step
    raises the error of the listing before anything else happens, and so
    does the build of [clr]: no announcement, no process, no directory
    creation, the tree and the log are as they were. *)
Theorem build_extension_unlistable_src (st : State) :
  name ext = "clr" ->
  fs_listdir (fs st) "src" = None ->
  _install_packages w h g st = (inl (OSError "src"), st)
  /\ build_extension w h g self ext st = (inl (OSError "src"), st).
Proof.
  intros Hname Hls.
  assert (E : _install_packages w h g st = (inl (OSError "src"), st)).
  { rewrite install_packages_unfold. unfold bind, os_listdir. rewrite Hls. reflexivity. }
  split; [exact E|].
  unfold build_extension. rewrite Hname. cbn [String.eqb Ascii.eqb Bool.eqb negb].
  apply (bind_err _ _ _ _ _ E).
Qed.

Lemma restore_trace_runs el delta r :
  restore_trace el delta r ->
  exists runs rest,
    delta = restore_events runs
    /\ el = (map fst runs ++ rest)%list
    /\ (r = inr tt ->
        rest = [] /\ forallb (fun dr => exit_ok (snd dr)) runs = true)
    /\ (forall x, r = inl x ->
        exists done d res,
          runs = (done ++ [(d, res)])%list
          /\ forallb (fun dr => exit_ok (snd dr)) done = true
          /\ exit_ok res = false
          /\ event_error (Exec (restore_cmd d) (snd (nuget_cmd h g)) false res)
             = Some x).
Proof.
  induction 1 as [|dir dirs out err delta r _ (runs & rest & Hd & Hel & Hok & Hfail)
                 |dir dirs rc out err Hrc|dir dirs msg].
  - exists [], []. repeat split; try reflexivity. intros x E. discriminate.
  - exists ((dir, Exited 0 out err) :: runs), rest. subst delta dirs.
    split; [reflexivity|]. split; [reflexivity|]. split.
    + intros Er. destruct (Hok Er) as [H1 H2]. split; [exact H1|]. simpl. exact H2.
    + intros x Er. destruct (Hfail x Er) as (done & d & res & E1 & E2 & E3 & E4).
      exists ((dir, Exited 0 out err) :: done), d, res. subst runs.
      split; [reflexivity|]. split; [simpl; exact E2|]. split; assumption.
  - exists [(dir, Exited rc out err)], dirs.
    split; [reflexivity|]. split; [reflexivity|]. split; [discriminate|].
    intros x Er. inversion Er; subst. exists [], dir, (Exited rc out err).
    split; [reflexivity|]. split; [reflexivity|]. simpl.
    rewrite (neq_0_eqb _ Hrc). split; reflexivity.
  - exists [(dir, SpawnFailed msg)], dirs.
    split; [reflexivity|]. split; [reflexivity|]. split; [discriminate|].
    intros x Er. inversion Er; subst. exists [], dir, (SpawnFailed msg).
    split; [reflexivity|]. split; [reflexivity|]. split; reflexivity.
Qed.

(** X6. The log of the restore step is made of pairs: the announcement
    of an invocation, naming the subdirectory and the exact command line,
    and right after it that invocation; nothing else is logged and the
    tree is left alone. The subdirectories invoked are, in order, the
    first of those that are eligible; all of them when the step returns;
    when it raises, the last invocation is the only one that failed and
    the exception is its error. *)
Theorem install_packages_announces_each_invocation (st : State) (dirs : list string) :
  fs_listdir (fs st) "src" = Some dirs ->
  exists r st' runs rest,
    _install_packages w h g st = (r, st')
    /\ fs st' = fs st
    /\ log st' = (log st ++ restore_events runs)%list
    /\ filter (restored (fs st)) dirs = (map fst runs ++ rest)%list
    /\ (r = inr tt ->
        rest = [] /\ forallb (fun dr => exit_ok (snd dr)) runs = true)
    /\ (forall x, r = inl x ->
        exists done d res,
          runs = (done ++ [(d, res)])%list
          /\ forallb (fun dr => exit_ok (snd dr)) done = true
          /\ exit_ok res = false
          /\ event_error (Exec (restore_cmd d) (snd (nuget_cmd h g)) false res)
             = Some x).
Proof.
  intros Hls. rewrite install_packages_unfold.
  destruct (restore_loop_run w h g dirs st) as (r & st' & delta & E & Hf & Hl & Ht).
  destruct (restore_trace_runs _ _ _ Ht) as (runs & rest & Hd & Hel & Hok & Hfail).
  exists r, st', runs, rest. split.
  { unfold bind, os_listdir. rewrite Hls. exact E. }
  split; [exact Hf|]. split; [rewrite Hl, Hd; reflexivity|].
  split; [exact Hel|]. split; assumption.
Qed.

Lemma ends_with_char_app c a b :
  b <> EmptyString -> Py.ends_with_char c (a ++ b) = Py.ends_with_char c b.
Proof.
  intros Hb. induction a as [|x a IH]; [reflexivity|].
  simpl. rewrite IH. destruct (a ++ b) eqn:E; [|reflexivity].
  destruct a; simpl in E; [congruence|discriminate].
Qed.

Lemma ends_with_char_contains c s :
  Py.ends_with_char c s = true -> Py.contains_char c s = true.
Proof.
  induction s as [|x s IH]; [discriminate|].
  destruct s as [|y s].
  - simpl. intros E. rewrite E. reflexivity.
  - intros E. change (Py.ends_with_char c (String y s) = true) in E.
    change (Py.contains_char c (String x (String y s)))
      with (Ascii.eqb x c || Py.contains_char c (String y s))%bool.
    rewrite (IH E). apply orb_true_r.
Qed.

(** X7. For an entry of [src] (a name that is not empty and holds no
    separator), the manifest is [src/<entry>/packages.config] with the
    separator of the platform, and the restore command line is the nuget
    executable under [tools/nuget], run by [mono] under the Mono
    toolchain, then [install], the manifest, and [-o packages]; it goes
    through the shell exactly under Mono. *)
Theorem restore_cmd_format (dir : string) :
  dir <> EmptyString ->
  Py.contains_char (os_sep h) dir = false ->
  let sep := String (os_sep h) EmptyString in
  manifest_path dir = "src" ++ sep ++ dir ++ sep ++ "packages.config"
  /\ restore_cmd dir
     = (if String.eqb (DEVTOOLS g) "Mono" then "mono " else EmptyString)
       ++ "tools" ++ sep ++ "nuget" ++ sep ++ "nuget.exe"
       ++ " install " ++ "src" ++ sep ++ dir ++ sep ++ "packages.config"
       ++ " -o packages"
  /\ snd (nuget_cmd h g) = String.eqb (DEVTOOLS g) "Mono".
Proof.
  intros Hne Hsep sep.
  assert (Hm : manifest_path dir = "src" ++ sep ++ dir ++ sep ++ "packages.config").
  { unfold manifest_path.
    assert (J1 : os_path_join h "src" dir = "src" ++ sep ++ dir).
    { rewrite (os_path_join_name h _ _ Hsep). unfold sep, os_sep.
      destruct (on_windows h); reflexivity. }
    rewrite J1.
    assert (Hend : Py.ends_with_char (os_sep h) ("src" ++ sep ++ dir) = false).
    { rewrite <- append_assoc, ends_with_char_app by exact Hne.
      destruct (Py.ends_with_char (os_sep h) dir) eqn:E; [|reflexivity].
      apply ends_with_char_contains in E. congruence. }
    assert (Hpc : Py.contains_char (os_sep h) "packages.config" = false).
    { unfold os_sep. destruct (on_windows h); reflexivity. }
    rewrite (os_path_join_name h _ _ Hpc), Hend.
    change ("src" ++ sep ++ dir) with (String "s" (String "r" (String "c" (sep ++ dir)))).
    cbv iota. simpl. unfold sep. simpl. rewrite ?append_assoc. reflexivity. }
  split; [exact Hm|].
  unfold restore_cmd. fold manifest_path. rewrite Hm.
  unfold nuget_cmd, sep, os_path_join, os_sep.
  destruct (on_windows h); destruct (String.eqb (DEVTOOLS g) "Mono");
    simpl; rewrite ?append_assoc; simpl; split; reflexivity.
Qed.

End RestoreMore.

(** ** Failures end a run *)

Lemma all_succeeded_app l1 l2 :
  all_succeeded l1 -> all_succeeded l2 -> all_succeeded (l1 ++ l2).
Proof.
  intros H1 H2 e Hin. apply in_app_iff in Hin. destruct Hin; auto.
Qed.

Lemma all_succeeded_stops l : all_succeeded l -> stops_at_failure l.
Proof.
  intros Hl pre e post E _. apply Hl. rewrite E. apply in_app_iff. right. left.
  reflexivity.
Qed.

Lemma stops_at_failure_single e : stops_at_failure [e].
Proof.
  intros pre e' post E Hpost. exfalso. apply Hpost.
  destruct pre as [|a [|b pre]]; simpl in E; inversion E; reflexivity.
Qed.

Lemma stops_at_failure_app l1 l2 :
  all_succeeded l1 -> stops_at_failure l2 -> stops_at_failure (l1 ++ l2).
Proof.
  induction l1 as [|a l1 IH]; intros H1 H2; [exact H2|].
  intros pre e post E Hpost. destruct pre as [|b pre]; simpl in E; inversion E; subst.
  - apply H1. left. reflexivity.
  - apply (IH (fun e' He' => H1 e' (or_intror He')) H2 pre e post); assumption.
Qed.

Lemma stops_at_failure_last l pre e post x :
  stops_at_failure l -> l = (pre ++ e :: post)%list -> event_error e = Some x ->
  post = [].
Proof.
  intros Hs E He. destruct post as [|a post]; [reflexivity|].
  assert (Hn : event_error e = None) by (apply (Hs pre e (a :: post) E); discriminate).
  congruence.
Qed.

Lemma flags_trace_stops delta r : flags_trace delta r -> stops_at_failure delta.
Proof.
  assert (Hoks : forall before oks, Forall2 answered before oks -> all_succeeded oks).
  { intros before oks Ha e Hin.
    destruct (answered_in _ _ _ Ha Hin) as (c & o & e' & _ & E). subst e. reflexivity. }
  intros [o1 e1 o2 e2 o3 e3 o4 e4
         |before c after oks rc out err Hq Ha Hrc
         |before c after oks msg Hq Ha].
  - apply all_succeeded_stops. intros e Hin. simpl in Hin.
    destruct Hin as [E|[E|[E|[E|[]]]]]; subst e; reflexivity.
  - apply stops_at_failure_app; [exact (Hoks _ _ Ha)|apply stops_at_failure_single].
  - apply stops_at_failure_app; [exact (Hoks _ _ Ha)|apply stops_at_failure_single].
Qed.

Lemma flags_trace_succeeded delta x :
  flags_trace delta (inr x) -> all_succeeded delta.
Proof.
  intros Ht e Hin. destruct (event_error e) as [y|] eqn:Ey; [|reflexivity].
  pose proof (flags_trace_error _ _ _ _ Ht Hin Ey). discriminate.
Qed.

Lemma flags_trace_last delta x :
  flags_trace delta (inl x) ->
  exists pre e, delta = (pre ++ [e])%list /\ event_error e = Some x.
Proof.
  intros Ht. inversion Ht as [|before c after oks rc out err Hq Ha Hrc
                              |before c after oks msg Hq Ha]; subst.
  - exists oks. eexists. split; [reflexivity|]. simpl.
    rewrite (neq_0_eqb _ Hrc). reflexivity.
  - exists oks. eexists. split; [reflexivity|]. reflexivity.
Qed.

Section FailFast.

Variable w : World.
Variable h : Host.
Variable g : Globals.
Variable self : build_ext_cmd.
Variable ext : Extension.

Local Abbreviation dest_dir := (dest_dir h self ext).
Local Abbreviation clean_cmd := (clean_cmd h g self ext).
Local Abbreviation build_cmd := (build_cmd h g self ext).
Local Abbreviation use_shell := (use_shell g).
Local Abbreviation building_announcement := (building_announcement h g self ext).
Local Abbreviation shim_compile := (shim_compile self ext).
Local Abbreviation shim_link := (shim_link h g self ext).
Local Abbreviation shim_trace := (shim_trace h g self ext).
Local Abbreviation solution_trace := (solution_trace h g self ext).
Local Abbreviation mkdir_events := (mkdir_events h self ext).
Local Abbreviation build_run := (build_run h g self ext).
Local Abbreviation is_build_tool_call := (is_build_tool_call h g self ext).
Local Abbreviation exec_origin := (exec_origin h g self ext).
Local Abbreviation restore_trace := (restore_trace h g).
Local Abbreviation restore_events := (restore_events h g).
Local Abbreviation restored := (restored h g).
Local Abbreviation restore_body :=
  (_install_packages_body w h g (fst (nuget_cmd h g)) (snd (nuget_cmd h g))).

Lemma restore_trace_stops el delta r :
  restore_trace el delta r -> stops_at_failure delta.
Proof.
  induction 1 as [|dir dirs out err delta r _ IH|dir dirs rc out err Hrc|dir dirs msg].
  - apply all_succeeded_stops. intros e [].
  - apply (stops_at_failure_app [_; _]); [|exact IH].
    intros e [E|[E|[]]]; subst e; reflexivity.
  - apply (stops_at_failure_app [_]); [|apply stops_at_failure_single].
    intros e [E|[]]; subst e; reflexivity.
  - apply (stops_at_failure_app [_]); [|apply stops_at_failure_single].
    intros e [E|[]]; subst e; reflexivity.
Qed.

Lemma restore_trace_succeeded el delta :
  restore_trace el delta (inr tt) -> all_succeeded delta.
Proof.
  intros Ht e Hin. destruct (event_error e) as [y|] eqn:Ey; [|reflexivity].
  assert (E : inr tt = inl y :> exn + unit)
    by (eapply restore_trace_error; eassumption).
  discriminate.
Qed.

Lemma restore_trace_last el delta x :
  restore_trace el delta (inl x) ->
  exists pre e, delta = (pre ++ [e])%list /\ event_error e = Some x.
Proof.
  intros Ht. destruct (restore_trace_runs h g _ _ _ Ht) as (runs & rest & Hd & _ & _ & Hf).
  destruct (Hf x eq_refl) as (done & d & res & Hr & _ & _ & He).
  subst delta runs. unfold restore_events.
  rewrite flat_map_app. simpl.
  eexists (_ ++ [_])%list. eexists. split; [rewrite <- app_assoc; reflexivity|exact He].
Qed.

Lemma solution_trace_stops delta r : solution_trace delta r -> stops_at_failure delta.
Proof.
  intros [msg|rc out err Hrc|o1 e1 msg|o1 e1 rc out err Hrc|o1 e1 o2 e2];
    try apply stops_at_failure_single;
    (apply (stops_at_failure_app [_]); [|apply stops_at_failure_single]);
    intros e [E|[]]; subst e; reflexivity.
Qed.

Lemma solution_trace_succeeded delta :
  solution_trace delta (inr tt) -> all_succeeded delta.
Proof.
  intros Ht e Hin. destruct (event_error e) as [y|] eqn:Ey; [|reflexivity].
  assert (E : inr tt = inl y :> exn + unit)
    by (eapply solution_trace_error; eassumption).
  discriminate.
Qed.

Lemma solution_trace_last delta x :
  solution_trace delta (inl x) ->
  exists pre e, delta = (pre ++ [e])%list /\ event_error e = Some x.
Proof.
  intros Ht. inversion Ht as [msg|rc out err Hrc|o1 e1 msg|o1 e1 rc out err Hrc|]; subst.
  - exists []. eexists. split; reflexivity.
  - exists []. eexists. split; [reflexivity|]. simpl. rewrite (neq_0_eqb _ Hrc).
    reflexivity.
  - exists [Exec clean_cmd use_shell false (Exited 0 o1 e1)]. eexists.
    split; reflexivity.
  - exists [Exec clean_cmd use_shell false (Exited 0 o1 e1)]. eexists.
    split; [reflexivity|]. simpl. rewrite (neq_0_eqb _ Hrc). reflexivity.
Qed.

Lemma shim_trace_stops delta r : shim_trace delta r -> stops_at_failure delta.
Proof.
  intros [dq y Hq|dq cf lb y Hq|dq cf lb y Hq|dq cf lb objs err Hq].
  - exact (flags_trace_stops _ _ Hq).
  - apply stops_at_failure_app;
      [exact (flags_trace_succeeded _ _ Hq)|apply stops_at_failure_single].
  - apply stops_at_failure_app; [exact (flags_trace_succeeded _ _ Hq)|].
    apply (stops_at_failure_app [_]); [|apply stops_at_failure_single].
    intros e [E|[]]; subst e; reflexivity.
  - apply stops_at_failure_app; [exact (flags_trace_succeeded _ _ Hq)|].
    apply (stops_at_failure_app [_; _]); [|apply stops_at_failure_single].
    intros e [E|[E|[]]]; subst e; reflexivity.
Qed.

Lemma shim_trace_last delta x :
  shim_trace delta (inl x) ->
  exists pre e, delta = (pre ++ [e])%list /\ event_error e = Some x.
Proof.
  intros Ht. inversion Ht as [dq y Hq|dq cf lb y Hq|dq cf lb y Hq|dq cf lb objs err Hq Ed Er];
    subst.
  - exact (flags_trace_last _ _ Hq).
  - exists dq. eexists. split; reflexivity.
  - eexists (dq ++ [_])%list. eexists. split; [rewrite <- app_assoc; reflexivity|].
    reflexivity.
  - destruct err as [y|]; [|discriminate]. inversion Er; subst.
    eexists (dq ++ [_; _])%list. eexists.
    split; [rewrite <- app_assoc; reflexivity|]. reflexivity.
Qed.

Lemma mkdir_events_succeeded st :
  all_succeeded (mkdir_events st ++ [Announce building_announcement]).
Proof.
  intros e Hin. eapply prelude_events. exact Hin.
Qed.

Lemma build_run_stops st delta r : build_run st delta r -> stops_at_failure delta.
Proof.
  assert (Hpre : forall dirs dr tail,
            restore_trace dirs dr (inr tt) -> stops_at_failure tail ->
            stops_at_failure
              (dr ++ mkdir_events st ++ Announce building_announcement :: tail)).
  { intros dirs dr tail Hr Htail.
    apply stops_at_failure_app; [exact (restore_trace_succeeded _ _ Hr)|].
    change (mkdir_events st ++ Announce building_announcement :: tail)%list
      with (mkdir_events st ++ [Announce building_announcement] ++ tail)%list.
    rewrite app_assoc.
    apply stops_at_failure_app; [apply mkdir_events_succeeded|exact Htail]. }
  intros [Hls|dirs dr x Hls Hr|dirs dr x Hls Hr Hex|dirs dr db x Hls Hr Hs
         |dirs dr db Hls Hr Hs Hdev|dirs dr db ds r' Hls Hr Hs Hdev Hshim].
  - apply all_succeeded_stops. intros e [].
  - exact (restore_trace_stops _ _ _ Hr).
  - apply stops_at_failure_app;
      [exact (restore_trace_succeeded _ _ Hr)|apply stops_at_failure_single].
  - exact (Hpre _ _ _ Hr (solution_trace_stops _ _ Hs)).
  - exact (Hpre _ _ _ Hr (solution_trace_stops _ _ Hs)).
  - apply (Hpre _ _ _ Hr).
    apply stops_at_failure_app;
      [exact (solution_trace_succeeded _ Hs)|exact (shim_trace_stops _ _ Hshim)].
Qed.

Lemma build_run_last st delta x :
  build_run st delta (inl x) ->
  (delta = [] /\ fs_listdir (fs st) "src" = None /\ x = OSError "src")
  \/ exists pre e, delta = (pre ++ [e])%list /\ event_error e = Some x.
Proof.
  intros Hrun.
  inversion Hrun as [Hls|dirs dr y Hls Hr|dirs dr y Hls Hr Hex|dirs dr db y Hls Hr Hs|
                     |dirs dr db ds r' Hls Hr Hs Hdev Hshim]; subst.
  - left. repeat split. exact Hls.
  - right. exact (restore_trace_last _ _ _ Hr).
  - right. exists dr. eexists. split; reflexivity.
  - right. destruct (solution_trace_last _ _ Hs) as (pre & e & Ed & He). subst db.
    exists (dr ++ mkdir_events st ++ Announce building_announcement :: pre)%list, e.
    split; [|exact He]. rewrite <- !app_assoc. reflexivity.
  - right. destruct (shim_trace_last _ _ Hshim) as (pre & e & Ed & He). subst ds.
    exists (dr ++ mkdir_events st ++ Announce building_announcement :: db ++ pre)%list, e.
    split; [|exact He]. rewrite <- !app_assoc. simpl. rewrite <- !app_assoc. reflexivity.
Qed.

(** X8. A run for [clr] stops at the first call that fails: a failed
    call (a child process that does not start or exits non-zero, an
    output directory that cannot be created, a failure of the stock
    builder, the compiler or the linker) is the last entry of the log,
    and its error is the exception that leaves. A run
    that returns normally has no failed call; a run that raises either
    could not list [src] and did nothing at all, or ends with the failed
    call whose error it raises. *)
Theorem build_extension_stops_at_first_failure (st : State) :
  name ext = "clr" ->
  exists r st' delta,
    build_extension w h g self ext st = (r, st')
    /\ log st' = (log st ++ delta)%list
    /\ (forall pre e post x,
          delta = (pre ++ e :: post)%list -> event_error e = Some x ->
          post = [] /\ r = inl x)
    /\ (r = inr tt -> forall e, In e delta -> event_error e = None)
    /\ (forall x, r = inl x ->
          (delta = [] /\ fs_listdir (fs st) "src" = None /\ x = OSError "src")
          \/ exists pre e, delta = (pre ++ [e])%list /\ event_error e = Some x).
Proof.
  intros Hname.
  destruct (build_extension_run w h g self ext st Hname)
    as (r & st' & delta & E & Hl & Hrun & _).
  exists r, st', delta. split; [exact E|]. split; [exact Hl|]. split.
  { intros pre e post x Ed He. split.
    - exact (stops_at_failure_last _ _ _ _ _ (build_run_stops _ _ _ Hrun) Ed He).
    - eapply build_run_error; [exact Hrun| |exact He].
      rewrite Ed. apply in_app_iff. right. left. reflexivity. }
  split.
  { intros Er e Hin. destruct (event_error e) as [y|] eqn:Ey; [|reflexivity].
    assert (E' : r = inl y) by (eapply build_run_error; eassumption). congruence. }
  intros x Er. subst r. exact (build_run_last _ _ _ Hrun).
Qed.

End FailFast.

(** ** The stages of the build of [clr] *)

Section Stages.

Variable w : World.
Variable h : Host.
Variable g : Globals.
Variable self : build_ext_cmd.
Variable ext : Extension.

Local Abbreviation dest_dir := (dest_dir h self ext).
Local Abbreviation clean_cmd := (clean_cmd h g self ext).
Local Abbreviation build_cmd := (build_cmd h g self ext).
Local Abbreviation use_shell := (use_shell g).
Local Abbreviation building_announcement := (building_announcement h g self ext).
Local Abbreviation shim_trace := (shim_trace h g self ext).
Local Abbreviation solution_trace := (solution_trace h g self ext).
Local Abbreviation mkdir_events := (mkdir_events h self ext).
Local Abbreviation build_run := (build_run h g self ext).
Local Abbreviation is_build_tool_call := (is_build_tool_call h g self ext).
Local Abbreviation exec_origin := (exec_origin h g self ext).
Local Abbreviation restore_trace := (restore_trace h g).
Local Abbreviation restore_events := (restore_events h g).
Local Abbreviation restored := (restored h g).
Local Abbreviation restore_body :=
  (_install_packages_body w h g (fst (nuget_cmd h g)) (snd (nuget_cmd h g))).

(** The restore step of a run from [st]: its result, and the
    invocations it made. *)
Lemma install_packages_stage st :
  exists r st1,
    _install_packages w h g st = (r, st1)
    /\ fs st1 = fs st
    /\ ((r = inl (OSError "src") /\ st1 = st /\ fs_listdir (fs st) "src" = None)
        \/ exists runs rest,
             log st1 = (log st ++ restore_events runs)%list
             /\ filter (restored (fs st)) (listing (fs st) "src")
                = (map fst runs ++ rest)%list
             /\ (r = inr tt ->
                 rest = [] /\ forallb (fun dr => exit_ok (snd dr)) runs = true)).
Proof.
  rewrite install_packages_unfold. unfold listing.
  destruct (fs_listdir (fs st) "src") as [dirs|] eqn:Hls.
  - destruct (restore_loop_run w h g dirs st) as (r & st1 & delta & E & Hf & Hl & Ht).
    destruct (restore_trace_runs h g _ _ _ Ht) as (runs & rest & Hd & Hel & Hok & _).
    exists r, st1. split.
    { unfold bind, os_listdir. rewrite Hls. exact E. }
    split; [exact Hf|]. right. exists runs, rest.
    split; [rewrite Hl, Hd; reflexivity|]. split; assumption.
  - exists (inl (OSError "src")), st. split.
    { unfold bind, os_listdir. rewrite Hls. reflexivity. }
    split; [reflexivity|]. left. repeat split.
Qed.

(** What follows the restore step: the output directory, where the run
    ends if it cannot be created, then the announcement, the solution
    build and the shim build. *)
Lemma build_extension_stages st :
  name ext = "clr" ->
  match _install_packages w h g st with
  | (inl x, st1) => build_extension w h g self ext st = (inl x, st1)
  | (inr _, st1) =>
      (exists x st',
         build_extension w h g self ext st = (inl x, st')
         /\ path_exists (fs st1) dest_dir = false
         /\ fs st' = fs st1
         /\ log st' = (log st1 ++ [Makedirs dest_dir (Some x)])%list
         /\ (dest_dir = EmptyString -> x = OSError EmptyString))
      \/ exists r st' db rb ds,
        build_extension w h g self ext st = (r, st')
        /\ fs st'
           = (if path_exists (fs st1) dest_dir then fs st1
              else with_dirs (fs st1) (dest_dir :: parents h dest_dir))
        /\ (path_exists (fs st1) dest_dir = false -> dest_dir <> EmptyString)
        /\ log st'
           = (log st1 ++ mkdir_events st1
                ++ Announce building_announcement :: db ++ ds)%list
        /\ solution_trace db rb
        /\ match rb with
           | inl x => r = inl x /\ ds = []
           | inr _ =>
               if String.eqb (DEVTOOLS g) "Mono" then shim_trace ds r
               else r = inr tt /\ ds = []
           end
  end.
Proof.
  intros Hname.
  assert (Hn : String.eqb (name ext) "clr" = true) by (rewrite Hname; reflexivity).
  destruct (_install_packages w h g st) as [[x|[]] st1] eqn:Eip.
  { unfold build_extension. rewrite Hn. cbn [negb]. apply (bind_err _ _ _ _ _ Eip). }
  unfold build_extension. rewrite Hn. cbn [negb].
  fold dest_dir. fold clean_cmd. fold build_cmd. fold use_shell.
  fold building_announcement.
  rewrite (bind_ok _ _ _ _ _ Eip).
  rewrite (bind_ok _ _ st1 (path_exists (fs st1) dest_dir) st1) by reflexivity.
  destruct (makedirs_run w h self ext st1) as (rm & st2 & Em & _ & _ & Hcase).
  destruct Hcase as [(Er & Hl2 & Hf2 & Hne)|(x & Er & Hex & Hl2 & Hf2 & Hempty)]; subst rm.
  2:{ left. exists x, st2. split; [apply (bind_err _ _ _ _ _ Em)|].
      repeat split; assumption. }
  right. rewrite (bind_ok _ _ _ _ _ Em).
  set (st3 := mkState (fs st2) (log st2 ++ [Announce building_announcement])).
  rewrite (bind_ok _ _ st2 tt st3) by reflexivity.
  destruct (solution_run w h g self ext
              (when (String.eqb (DEVTOOLS g) "Mono") (_build_monoclr w h g self ext)) st3)
    as (rb & st4 & db & E4 & Hf4 & Hl4 & Ht4).
  rewrite E4.
  assert (Hlog4 : log st4
                  = (log st1 ++ mkdir_events st1
                       ++ Announce building_announcement :: db)%list).
  { rewrite Hl4. unfold st3. simpl. rewrite Hl2, <- !app_assoc. reflexivity. }
  assert (Hfs4 : fs st4 = (if path_exists (fs st1) dest_dir then fs st1
                           else with_dirs (fs st1) (dest_dir :: parents h dest_dir))).
  { rewrite Hf4. unfold st3. simpl. exact Hf2. }
  destruct rb as [x|[]].
  { exists (inl x), st4, db, (inl x), []. split; [reflexivity|].
    split; [exact Hfs4|]. split; [exact Hne|].
    split; [rewrite app_nil_r; exact Hlog4|].
    split; [exact Ht4|]. split; reflexivity. }
  destruct (String.eqb (DEVTOOLS g) "Mono") eqn:Hdev.
  - destruct (build_monoclr_run w h g self ext st4) as (r5 & st5 & ds & E5 & Hf5 & Hl5 & Ht5).
    exists r5, st5, db, (inr tt), ds. split; [exact E5|].
    split; [rewrite Hf5; exact Hfs4|]. split; [exact Hne|]. split.
    { rewrite Hl5, Hlog4, <- !app_assoc. reflexivity. }
    split; [exact Ht4|]. exact Ht5.
  - exists (inr tt), st4, db, (inr tt), []. split; [reflexivity|].
    split; [exact Hfs4|]. split; [exact Hne|].
    split; [rewrite app_nil_r; exact Hlog4|].
    split; [exact Ht4|]. split; reflexivity.
Qed.

Lemma after_prelude_events db rb ds r e :
  solution_trace db rb ->
  match rb with
  | inl x => r = inl x /\ ds = []
  | inr _ =>
      if String.eqb (DEVTOOLS g) "Mono" then shim_trace ds r
      else r = inr tt /\ ds = []
  end ->
  In e (db ++ ds) ->
  (is_build_tool_call e = true /\ is_shim_event e = false /\ In e db)
  \/ (is_shim_event e = true /\ is_build_tool_call e = false /\ In e ds
      /\ String.eqb (DEVTOOLS g) "Mono" = true).
Proof.
  intros Hs Hend Hin. apply in_app_iff in Hin. destruct Hin as [Hin|Hin].
  - left. edestruct solution_trace_events as (H1 & H2 & _); [exact Hs|exact Hin|].
    repeat split; assumption.
  - right. destruct rb as [x|u].
    + destruct Hend as [_ E]. subst ds. contradiction.
    + destruct (String.eqb (DEVTOOLS g) "Mono").
      * edestruct shim_trace_events as (H1 & H2 & _); [exact Hend|exact Hin|].
        repeat split; assumption.
      * destruct Hend as [_ E]. subst ds. contradiction.
Qed.

(** X9. When the restore step raises, the build of [clr] ends there with
    the same exception and the same state. When it returns, the restore
    invocations come first, one per eligible entry of [src] and all
    exited zero, and the output directory is next. If it is missing and
    [os.makedirs] raises, the failed call is the last thing the run does
    and its exception is the result: nothing is announced and the build
    tool is not started. Otherwise the run goes on in this order: the
    creation of the directory if it was missing; the announcement of the
    shared command line; and right after it the Clean invocation.
    Whatever follows Clean is the Build invocation or a call of the shim
    build: no restore, no directory creation and no announcement comes
    after it. *)
Theorem build_extension_prepares_then_cleans (st : State) :
  name ext = "clr" ->
  (forall x, fst (_install_packages w h g st) = inl x ->
   build_extension w h g self ext st = _install_packages w h g st)
  /\ (fst (_install_packages w h g st) = inr tt ->
      exists r st' runs,
        build_extension w h g self ext st = (r, st')
        /\ map fst runs = filter (restored (fs st)) (listing (fs st) "src")
        /\ forallb (fun dr => exit_ok (snd dr)) runs = true
        /\ ((exists x,
               path_exists (fs st) dest_dir = false
               /\ r = inl x
               /\ log st'
                  = (log st ++ restore_events runs
                       ++ [Makedirs dest_dir (Some x)])%list)
            \/ exists res post,
                 log st'
                 = (log st ++ restore_events runs ++ mkdir_events st
                      ++ Announce building_announcement
                         :: Exec clean_cmd use_shell false res :: post)%list
                 /\ (forall e, In e post ->
                       (exists res', e = Exec build_cmd use_shell false res')
                       \/ is_shim_event e = true))).
Proof.
  intros Hname. pose proof (build_extension_stages st Hname) as Hst.
  destruct (install_packages_stage st) as (r1 & st1 & E1 & Hf1 & Hruns).
  rewrite E1 in Hst |- *. simpl fst. split.
  { intros x Er. subst r1. exact Hst. }
  intros Er. subst r1.
  destruct Hruns as [(Hr & _)|(runs & rest & Hl1 & Hel & Hok)]; [discriminate|].
  destruct (Hok eq_refl) as [Hrest Hall]. subst rest. rewrite app_nil_r in Hel.
  destruct Hst as [(x & st' & E & Hex & _ & Hl & _)
                  |(r & st' & db & rb & ds & E & _ & _ & Hl & Hs & Hend)].
  { exists (inl x), st', runs. split; [exact E|].
    split; [symmetry; exact Hel|]. split; [exact Hall|]. left. exists x.
    split; [rewrite <- Hf1; exact Hex|]. split; [reflexivity|].
    rewrite Hl, Hl1, <- !app_assoc. reflexivity. }
  assert (Hmk : mkdir_events st1 = mkdir_events st)
    by (unfold mkdir_events; rewrite Hf1; reflexivity).
  assert (Hdb : exists res rest0,
             db = Exec clean_cmd use_shell false res :: rest0
             /\ forall e, In e rest0 -> exists res', e = Exec build_cmd use_shell false res').
  { destruct Hs; eexists; eexists; (split; [reflexivity|]);
      intros e Hin; simpl in Hin;
      repeat match goal with
             | H : _ \/ _ |- _ => destruct H as [H|H]
             | H : False |- _ => contradiction
             end; subst e; eexists; reflexivity. }
  destruct Hdb as (res & rest0 & Edb & Hrest0).
  exists r, st', runs. split; [exact E|].
  split; [symmetry; exact Hel|]. split; [exact Hall|].
  right. exists res, (rest0 ++ ds)%list. split.
  { rewrite Hl, Hl1, Hmk, Edb, <- !app_assoc. reflexivity. }
  intros e Hin. apply in_app_iff in Hin. destruct Hin as [Hin|Hin].
  - left. exact (Hrest0 e Hin).
  - right. destruct rb as [x|u].
    + destruct Hend as [_ Ed]. subst ds. contradiction.
    + destruct (String.eqb (DEVTOOLS g) "Mono").
      * edestruct shim_trace_events as (H1 & _); [exact Hend|exact Hin|]. exact H1.
      * destruct Hend as [_ Ed]. subst ds. contradiction.
Qed.

Lemma restore_events_no_makedirs runs p err :
  ~ In (Makedirs p err) (restore_events runs).
Proof.
  unfold restore_events. intros Hin. apply in_flat_map in Hin.
  destruct Hin as (dr & _ & [E|[E|[]]]); discriminate.
Qed.

Lemma path_isdir_with_dirs f p ps :
  p <> EmptyString -> path_isdir (with_dirs f (p :: ps)) p = true.
Proof.
  intros Hne. unfold path_isdir, with_dirs. destruct p as [|c p]; [congruence|].
  cbn [fs_kind existsb]. rewrite String.eqb_refl. reflexivity.
Qed.


(** X11. In a run for [clr] every child process goes through the shell
    under Mono, and none does under MsDev; a process whose output is piped
    back occurs under Mono only. *)
Theorem build_extension_shell_by_toolchain (st : State) :
  name ext = "clr" ->
  exists r st' delta,
    build_extension w h g self ext st = (r, st')
    /\ log st' = (log st ++ delta)%list
    /\ forall c s p res,
         In (Exec c s p res) delta ->
         s = String.eqb (DEVTOOLS g) "Mono"
         /\ (p = true -> DEVTOOLS g = "Mono").
Proof.
  intros Hname.
  destruct (build_extension_run w h g self ext st Hname)
    as (r & st' & delta & E & Hl & Hrun & _).
  exists r, st', delta. split; [exact E|]. split; [exact Hl|].
  intros c s p res Hin.
  assert (Ho : exec_origin (Exec c s p res))
    by (eapply build_run_origin; eassumption).
  assert (Hp : p = true -> String.eqb (DEVTOOLS g) "Mono" = true).
  { intros Ep. subst p.
    edestruct build_run_shim as (Hdev & _); [exact Hrun|exact Hin|reflexivity|].
    exact Hdev. }
  split.
  - simpl in Ho. destruct Ho as [(Ep & Es & _)|[(_ & Es & _)|(_ & Es & _)]].
    + rewrite (Hp Ep). exact Es.
    + rewrite Es. unfold use_shell.
      destruct (String.eqb (DEVTOOLS g) "Mono"); reflexivity.
    + rewrite Es. unfold nuget_cmd.
      destruct (String.eqb (DEVTOOLS g) "Mono"); reflexivity.
  - intros Ep. apply String.eqb_eq. exact (Hp Ep).
Qed.

End Stages.

(** ** Words of a flag string *)

Lemma split_nonempty sep s : Py.split sep s <> [].
Proof.
  destruct s as [|c s]; simpl; [discriminate|].
  destruct (Ascii.eqb c sep); [discriminate|].
  destruct (Py.split sep s); discriminate.
Qed.

(** Splitting a string with a separator in the middle: the pieces of the
    left part, then the pieces of the right part. *)
Lemma split_app sep a b :
  Py.split sep (a ++ String sep b) = (Py.split sep a ++ Py.split sep b)%list.
Proof.
  induction a as [|c a IH]; simpl.
  - rewrite Ascii.eqb_refl. reflexivity.
  - rewrite IH. destruct (Ascii.eqb c sep); [reflexivity|].
    destruct (Py.split sep a) as [|x xs] eqn:E; [|reflexivity].
    exfalso. exact (split_nonempty _ _ E).
Qed.

(** Joining the pieces gives the string back. *)
Lemma join_split sep s : Py.join (String sep EmptyString) (Py.split sep s) = s.
Proof.
  unfold Py.join. induction s as [|c s IH]; [reflexivity|].
  simpl Py.split. destruct (Ascii.eqb c sep) eqn:Ec.
  - apply Ascii.eqb_eq in Ec. subst c.
    destruct (Py.split sep s) as [|x xs] eqn:E; [exfalso; exact (split_nonempty _ _ E)|].
    change (String.concat (String sep EmptyString) (EmptyString :: x :: xs))
      with (String sep (String.concat (String sep EmptyString) (x :: xs))).
    rewrite IH. reflexivity.
  - destruct (Py.split sep s) as [|x xs] eqn:E; [exfalso; exact (split_nonempty _ _ E)|].
    rewrite <- IH. destruct xs; reflexivity.
Qed.

(** No piece holds the separator. *)
Lemma split_pieces sep s p :
  In p (Py.split sep s) -> Py.contains_char sep p = false.
Proof.
  revert p. induction s as [|c s IH]; intros p; simpl.
  - intros [E|[]]. subst p. reflexivity.
  - destruct (Ascii.eqb c sep) eqn:Ec.
    + intros [E|Hin]; [subst p; reflexivity|exact (IH p Hin)].
    + destruct (Py.split sep s) as [|x xs] eqn:E.
      * intros [Ep|[]]. subst p. simpl. rewrite Ec. reflexivity.
      * intros [Ep|Hin].
        -- subst p. simpl. rewrite Ec. apply IH. left. reflexivity.
        -- apply IH. right. exact Hin.
Qed.

Lemma fold_left_undef (undefs : list string) (init : list macro) :
  fold_left (fun macros undef => (macros ++ [Undef undef])%list) undefs init
  = (init ++ map Undef undefs)%list.
Proof.
  revert init. induction undefs as [|u undefs IH]; intros init; simpl.
  - rewrite app_nil_r. reflexivity.
  - rewrite IH, <- app_assoc. reflexivity.
Qed.

(** ** The shim build (lines 119 to 167) *)

Section Shim.

Variable w : World.
Variable h : Host.
Variable g : Globals.
Variable self : build_ext_cmd.
Variable ext : Extension.

Local Abbreviation dest_dir := (dest_dir h self ext).
Local Abbreviation shim_compile := (shim_compile self ext).
Local Abbreviation shim_link := (shim_link h g self ext).
Local Abbreviation shim_trace := (shim_trace h g self ext).

(** A shim build whose queries were all answered: the four queries, the
    stock builder, and what follows it. *)
Lemma shim_trace_shape delta r :
  shim_trace delta r ->
  (exists x, r = inl x /\ flags_trace delta (inl x))
  \/ exists o1 e1 o2 e2 o3 e3 o4 e4 serr rest,
       let cflags := Py.strip o2 ++ " " ++ Py.strip o4 in
       let libs := Py.strip o1 ++ " " ++ Py.strip o3 in
       delta = ([ query_ok "pkg-config --libs mono-2" o1 e1;
                  query_ok "pkg-config --cflags mono-2" o2 e2;
                  query_ok "pkg-config --libs glib-2.0" o3 e3;
                  query_ok "pkg-config --cflags glib-2.0" o4 e4 ]
                ++ StockBuildExtension (shim_module cflags libs) serr :: rest)%list
       /\ ((exists y, serr = Some y /\ rest = [] /\ r = inl y)
           \/ (exists y, serr = None
                         /\ rest = [Compile (shim_compile cflags) (inl y)]
                         /\ r = inl y)
           \/ (exists objects lerr,
                 serr = None
                 /\ rest = [Compile (shim_compile cflags) (inr objects);
                            LinkExecutable (shim_link objects libs) lerr]
                 /\ r = match lerr with Some y => inl y | None => inr tt end)).
Proof.
  intros [dq y Hq|dq cf lb y Hq|dq cf lb y Hq|dq cf lb objs err Hq].
  - left. exists y. split; [reflexivity|exact Hq].
  - right.
    destruct (flags_trace_found _ _ Hq (or_intror (ex_intro _ _ eq_refl)))
      as (o1 & e1 & o2 & e2 & o3 & e3 & o4 & e4 & Ed & Er).
    inversion Er; subst.
    exists o1, e1, o2, e2, o3, e3, o4, e4, (Some y), []. split; [reflexivity|].
    left. exists y. repeat split.
  - right.
    destruct (flags_trace_found _ _ Hq (or_intror (ex_intro _ _ eq_refl)))
      as (o1 & e1 & o2 & e2 & o3 & e3 & o4 & e4 & Ed & Er).
    inversion Er; subst.
    exists o1, e1, o2, e2, o3, e3, o4, e4, None. eexists. split; [reflexivity|].
    right. left. exists y. repeat split.
  - right.
    destruct (flags_trace_found _ _ Hq (or_intror (ex_intro _ _ eq_refl)))
      as (o1 & e1 & o2 & e2 & o3 & e3 & o4 & e4 & Ed & Er).
    inversion Er; subst.
    exists o1, e1, o2, e2, o3, e3, o4, e4, None. eexists. split; [reflexivity|].
    right. right. exists objs, err. repeat split.
Qed.

(** X12. A shim build that returns normally has made exactly seven
    calls, in this order: the four queries, each answered with exit code
    zero; the stock builder, for the module [clr] built from
    [pynetinit.c] and [clrmod.c]; the compiler, on [pynetinit.c] and
    [python.c]; and the linker, on the very object files the compiler
    returned. *)
Theorem build_monoclr_success (st : State) :
  fst (_build_monoclr w h g self ext st) = inr tt ->
  exists o1 e1 o2 e2 o3 e3 o4 e4 objects,
    let cflags := Py.strip o2 ++ " " ++ Py.strip o4 in
    let libs := Py.strip o1 ++ " " ++ Py.strip o3 in
    log (snd (_build_monoclr w h g self ext st))
    = (log st
       ++ [ Exec "pkg-config --libs mono-2" true true (Exited 0 o1 e1);
            Exec "pkg-config --cflags mono-2" true true (Exited 0 o2 e2);
            Exec "pkg-config --libs glib-2.0" true true (Exited 0 o3 e3);
            Exec "pkg-config --cflags glib-2.0" true true (Exited 0 o4 e4);
            StockBuildExtension (shim_module cflags libs) None;
            Compile (shim_compile cflags) (inr objects);
            LinkExecutable (shim_link objects libs) None ])%list
    /\ name (shim_module cflags libs) = "clr"
    /\ sources (shim_module cflags libs)
       = ["src/monoclr/pynetinit.c"; "src/monoclr/clrmod.c"]
    /\ c_sources (shim_compile cflags)
       = ["src/monoclr/pynetinit.c"; "src/monoclr/python.c"]
    /\ l_objects (shim_link objects libs) = objects
    /\ l_output_progname (shim_link objects libs) = _npython_exe g.
Proof.
  intros Hr.
  destruct (build_monoclr_run w h g self ext st) as (r & st' & delta & E & _ & Hl & Ht).
  rewrite E in Hr |- *. simpl in Hr |- *. subst r.
  destruct (shim_trace_shape _ _ Ht)
    as [(x & Ex & _)|(o1 & e1 & o2 & e2 & o3 & e3 & o4 & e4 & serr & rest & Ed & Hrest)];
    [discriminate|].
  destruct Hrest as [(y & _ & _ & Ey)|[(y & _ & _ & Ey)|(objs & lerr & Es & Erest & Er)]];
    try discriminate.
  destruct lerr as [y|]; [discriminate|]. subst serr rest.
  exists o1, e1, o2, e2, o3, e3, o4, e4, objs.
  split; [rewrite Hl, Ed; reflexivity|]. repeat split.
Qed.

(** X13. The arguments of the shim build. The flag strings are cut at
    every space, so the module [clr] is compiled with the words of the
    trimmed [mono-2] compile flags followed by those of the [glib-2.0]
    ones, and linked with the words of the two link-flag answers in the
    same order; joined by spaces, the words give the flag string back; no
    word holds a space, and a blank answer to a compile-flag query gives
    an empty word among the compile arguments.
    The module takes no macro, include directory or library directory
    from the extension. The compiler of the executable gets the same
    compile words, the define macros of the extension followed by its
    undefine macros, its include directories and dependencies, and the
    temporary build directory; the linker gets the object files the
    compiler returned, the link words of the module followed by the words
    of [BLDLIBRARY], and the libraries and library directories of the
    extension. *)
Theorem build_monoclr_arguments (st : State) :
  exists r st' delta,
    _build_monoclr w h g self ext st = (r, st')
    /\ log st' = (log st ++ delta)%list
    /\ forall x err,
         In (StockBuildExtension x err) delta ->
         exists o1 e1 o2 e2 o3 e3 o4 e4 rest,
           delta = ([ Exec "pkg-config --libs mono-2" true true (Exited 0 o1 e1);
                      Exec "pkg-config --cflags mono-2" true true (Exited 0 o2 e2);
                      Exec "pkg-config --libs glib-2.0" true true (Exited 0 o3 e3);
                      Exec "pkg-config --cflags glib-2.0" true true (Exited 0 o4 e4) ]
                    ++ StockBuildExtension x err :: rest)%list
           /\ x = mkExtension "clr"
                    ["src/monoclr/pynetinit.c"; "src/monoclr/clrmod.c"]
                    [] [] [] [] [] []
                    (Py.split " " (Py.strip o2) ++ Py.split " " (Py.strip o4))
                    (Py.split " " (Py.strip o1) ++ Py.split " " (Py.strip o3))
           /\ Py.join " " (extra_compile_args x) = Py.strip o2 ++ " " ++ Py.strip o4
           /\ Py.join " " (extra_link_args x) = Py.strip o1 ++ " " ++ Py.strip o3
           /\ (forall a, In a (extra_compile_args x ++ extra_link_args x) ->
               Py.contains_char " " a = false)
           /\ (Py.strip o2 = EmptyString \/ Py.strip o4 = EmptyString ->
               In EmptyString (extra_compile_args x))
           /\ (forall a res,
                 In (Compile a res) rest ->
                 a = mkCompile ["src/monoclr/pynetinit.c"; "src/monoclr/python.c"]
                       (build_temp self)
                       (map (fun d => Define (fst d) (snd d)) (define_macros ext)
                        ++ map Undef (undef_macros ext))
                       (include_dirs ext) (debug self)
                       (extra_compile_args x) (depends ext))
           /\ (forall a lerr,
                 In (LinkExecutable a lerr) rest ->
                 exists a0 objects,
                   In (Compile a0 (inr objects)) rest
                   /\ a = mkLink objects (_npython_exe g) dest_dir
                            (get_libraries self ext) (library_dirs ext)
                            (runtime_library_dirs ext)
                            (extra_link_args x
                             ++ Py.split " " (config_var_BLDLIBRARY h))
                            (debug self)).
Proof.
  destruct (build_monoclr_run w h g self ext st) as (r & st' & delta & E & _ & Hl & Ht).
  exists r, st', delta. split; [exact E|]. split; [exact Hl|].
  intros x err Hin.
  destruct (shim_trace_shape _ _ Ht)
    as [(y & _ & Hq)|(o1 & e1 & o2 & e2 & o3 & e3 & o4 & e4 & serr & rest & Ed & Hrest)].
  { destruct (flags_trace_events _ _ _ Hq Hin) as (c & res & _ & Ee). discriminate. }
  cbv zeta in Ed, Hrest.
  set (cflags := Py.strip o2 ++ " " ++ Py.strip o4) in *.
  set (libs := Py.strip o1 ++ " " ++ Py.strip o3) in *.
  assert (Hmod : shim_module cflags libs
                 = mkExtension "clr"
                     ["src/monoclr/pynetinit.c"; "src/monoclr/clrmod.c"]
                     [] [] [] [] [] []
                     (Py.split " " (Py.strip o2) ++ Py.split " " (Py.strip o4))
                     (Py.split " " (Py.strip o1) ++ Py.split " " (Py.strip o3))).
  { unfold shim_module, cflags, libs. cbn [append]. rewrite !split_app. reflexivity. }
  assert (Hcomp : shim_compile cflags
                  = mkCompile ["src/monoclr/pynetinit.c"; "src/monoclr/python.c"]
                      (build_temp self)
                      (map (fun d => Define (fst d) (snd d)) (define_macros ext)
                       ++ map Undef (undef_macros ext))
                      (include_dirs ext) (debug self)
                      (Py.split " " (Py.strip o2) ++ Py.split " " (Py.strip o4))
                      (depends ext)).
  { unfold shim_compile, cflags. cbn [append]. rewrite fold_left_undef, split_app.
    reflexivity. }
  assert (Hlink : forall objects,
            shim_link objects libs
            = mkLink objects (_npython_exe g) dest_dir
                (get_libraries self ext) (library_dirs ext)
                (runtime_library_dirs ext)
                ((Py.split " " (Py.strip o1) ++ Py.split " " (Py.strip o3))
                 ++ Py.split " " (config_var_BLDLIBRARY h))
                (debug self)).
  { intros objects. unfold shim_link, libs. cbn [append].
    rewrite !split_app. reflexivity. }
  assert (Hx : x = shim_module cflags libs /\ err = serr).
  { rewrite Ed in Hin. apply in_app_iff in Hin. destruct Hin as [Hin|[Hin|Hin]].
    - simpl in Hin. destruct Hin as [F|[F|[F|[F|[]]]]]; discriminate.
    - inversion Hin. split; reflexivity.
    - exfalso.
      destruct Hrest as [(y & _ & Er & _)|[(y & _ & Er & _)|(objs & lerr & _ & Er & _)]];
        subst rest; simpl in Hin;
        repeat match goal with
               | H : _ \/ _ |- _ => destruct H as [H|H]
               | H : False |- _ => contradiction
               end; discriminate. }
  destruct Hx as [Ex Eerr]. subst x err.
  exists o1, e1, o2, e2, o3, e3, o4, e4, rest.
  split; [exact Ed|]. split; [exact Hmod|]. rewrite Hmod. cbn [extra_compile_args extra_link_args].
  split.
  { rewrite <- (split_app " " (Py.strip o2) (Py.strip o4)). apply (join_split " "). }
  split.
  { rewrite <- (split_app " " (Py.strip o1) (Py.strip o3)). apply (join_split " "). }
  split.
  { intros a Ha. rewrite !in_app_iff in Ha.
    destruct Ha as [[Ha|Ha]|[Ha|Ha]]; exact (split_pieces _ _ _ Ha). }
  split.
  { intros [Eb|Eb]; rewrite Eb; apply in_app_iff; [left|right]; left; reflexivity. }
  split.
  - intros a res Ha.
    destruct Hrest as [(y & _ & Er & _)|[(y & _ & Er & _)|(objs & lerr & _ & Er & _)]];
      subst rest; simpl in Ha;
      repeat match goal with
             | H : _ \/ _ |- _ => destruct H as [H|H]
             | H : False |- _ => contradiction
             end; inversion Ha; subst; exact Hcomp.
  - intros a lerr' Ha.
    destruct Hrest as [(y & _ & Er & _)|[(y & _ & Er & _)|(objs & lerr & _ & Er & _)]];
      subst rest; simpl in Ha;
      repeat match goal with
             | H : _ \/ _ |- _ => destruct H as [H|H]
             | H : False |- _ => contradiction
             end; inversion Ha; subst.
    exists (shim_compile cflags), objs. split; [left; reflexivity|]. apply Hlink.
Qed.

End Shim.

(** ** Patterns as prefixes *)

Lemma fnmatch_star n : fnmatchcase_pat "*" n = true.
Proof. induction n as [|c n IH]; [reflexivity|]. simpl in *. exact IH. Qed.

(** A pattern made of a literal part and a final [*] matches the names
    that begin with the literal part. *)
Lemma fnmatch_literal_star lit n :
  Py.contains_char "*" lit = false ->
  Py.contains_char "?" lit = false ->
  fnmatchcase_pat (lit ++ "*") n = String.prefix lit n.
Proof.
  revert n. induction lit as [|c lit IH]; intros n Hs Hq.
  - rewrite fnmatch_star. destruct n; reflexivity.
  - simpl in Hs, Hq. apply orb_false_iff in Hs. apply orb_false_iff in Hq.
    destruct Hs as [Hs1 Hs2]. destruct Hq as [Hq1 Hq2].
    change (fnmatchcase_pat (String c lit ++ "*") n)
      with ((if Ascii.eqb c "*" then
               fix star (n : string) : bool :=
                 (fnmatchcase_pat (lit ++ "*") n ||
                  match n with
                  | EmptyString => false
                  | String _ n' => star n'
                  end)%bool
             else if Ascii.eqb c "?" then
               fun n => match n with
                        | EmptyString => false
                        | String _ n' => fnmatchcase_pat (lit ++ "*") n'
                        end
             else
               fun n => match n with
                        | EmptyString => false
                        | String d n' => (Ascii.eqb c d && fnmatchcase_pat (lit ++ "*") n')%bool
                        end) n).
    rewrite Hs1, Hq1. destruct n as [|d n]; [reflexivity|].
    rewrite (IH n Hs2 Hq2). simpl.
    destruct (Ascii.ascii_dec c d) as [E|E].
    + subst d. rewrite Ascii.eqb_refl. reflexivity.
    + apply Ascii.eqb_neq in E. rewrite E. reflexivity.
Qed.

Section Prefixes.

Variable h : Host.

Local Abbreviation pattern_matches := (pattern_matches h).
Local Abbreviation installable := (installable h).

Lemma pattern_clr_prefix n :
  pattern_matches "clr.*" n
  = String.prefix (os_path_normcase h "clr.") (os_path_normcase h n).
Proof.
  unfold pattern_matches, fnmatchcase, os_path_normcase. destruct (on_windows h).
  - set (m := Py.map_chars _ n).
    change (Py.map_chars _ "clr.*") with "clr.*".
    apply (fnmatch_literal_star "clr."); reflexivity.
  - apply (fnmatch_literal_star "clr."); reflexivity.
Qed.

Lemma pattern_runtime_prefix n :
  pattern_matches "Python.Runtime.*" n
  = String.prefix (os_path_normcase h "Python.Runtime.") (os_path_normcase h n).
Proof.
  unfold pattern_matches, fnmatchcase, os_path_normcase. destruct (on_windows h).
  - set (m := Py.map_chars _ n).
    change (Py.map_chars _ "Python.Runtime.*") with "python.runtime.*".
    apply (fnmatch_literal_star "python.runtime."); reflexivity.
  - apply (fnmatch_literal_star "Python.Runtime."); reflexivity.
Qed.

(** No name matches both patterns. *)
Lemma artifact_patterns_disjoint n :
  pattern_matches "clr.*" n = true -> pattern_matches "Python.Runtime.*" n = false.
Proof.
  rewrite pattern_clr_prefix, pattern_runtime_prefix. unfold os_path_normcase.
  assert (Hdisj : forall a b m,
            (a = "P"%char \/ a = "p"%char) ->
            String.prefix "clr." m = true -> String.prefix (String a b) m = false).
  { intros a b m Ha. destruct m as [|x m]; cbn [String.prefix]; [discriminate|].
    destruct (Ascii.ascii_dec "c" x) as [E|E]; [|discriminate]. subst x. intros _.
    destruct (Ascii.ascii_dec a "c") as [E|E]; [|reflexivity].
    destruct Ha; subst a; discriminate. }
  destruct (on_windows h).
  - apply Hdisj. right. reflexivity.
  - apply Hdisj. left. reflexivity.
Qed.

(** X14. The two patterns of the installer are prefix tests: a name is
    installed exactly when it begins with [clr.] or with
    [Python.Runtime.], compared as the platform compares file names
    (letter case ignored on Windows, exact elsewhere). So [clr] without a
    dot, or a name with a leading dot, is never installed, and no name
    matches both patterns. *)
Theorem installable_by_prefix (n : string) :
  installable n
  = (String.prefix (os_path_normcase h "clr.") (os_path_normcase h n)
     || String.prefix (os_path_normcase h "Python.Runtime.") (os_path_normcase h n))%bool
  /\ (on_windows h = false ->
      installable n
      = (String.prefix "clr." n || String.prefix "Python.Runtime." n)%bool)
  /\ (pattern_matches "clr.*" n = true ->
      pattern_matches "Python.Runtime.*" n = false)
  /\ installable "clr" = false
  /\ (Py.starts_with_char "." n = true -> installable n = false).
Proof.
  assert (Hmain :
    installable n
    = (String.prefix (os_path_normcase h "clr.") (os_path_normcase h n)
       || String.prefix (os_path_normcase h "Python.Runtime.") (os_path_normcase h n))%bool).
  { unfold installable. rewrite pattern_clr_prefix, pattern_runtime_prefix. reflexivity. }
  split; [exact Hmain|]. split.
  { intros Hw. rewrite Hmain. unfold os_path_normcase. rewrite Hw. reflexivity. }
  split; [exact (artifact_patterns_disjoint n)|]. split.
  { unfold installable, pattern_matches, fnmatchcase, os_path_normcase.
    destruct (on_windows h); reflexivity. }
  intros Hdot. rewrite Hmain. unfold os_path_normcase.
  destruct n as [|x n']; [discriminate|]. simpl in Hdot. apply Ascii.eqb_eq in Hdot.
  subst x. destruct (on_windows h); reflexivity.
Qed.

End Prefixes.

(** ** The installer, the whole log *)

Section InstallerMore.

Variable w : World.
Variable h : Host.

Local Abbreviation pattern_matches := (pattern_matches h).
Local Abbreviation installable := (installable h).
Local Abbreviation glob_dirs := (glob_dirs w h).
Local Abbreviation pattern_copies := (pattern_copies h).
Local Abbreviation pattern_sources := (pattern_sources h).
Local Abbreviation copy_trace := (copy_trace h).

Lemma execs_copy_trace (il : install_lib_cmd) srcs delta r :
  copy_trace il srcs delta r -> execs delta = [].
Proof. induction 1; [reflexivity|assumption|reflexivity]. Qed.

Lemma mkpath_events_ok (il : install_lib_cmd) st e :
  In e (mkpath_events il st) ->
  e = Mkpath (install_dir il) None /\ path_exists (fs st) (install_dir il) = false.
Proof.
  unfold mkpath_events. destruct (path_exists (fs st) (install_dir il)); [intros []|].
  intros [E|[]]. split; [symmetry; exact E|reflexivity].
Qed.

(** X15. The installer never starts a process. When the build directory
    is not a directory (missing, or a regular file), it returns, the log
    gains the one warning that names it, and the tree is unchanged.
    Otherwise the log gains the creation of the install directory,
    exactly when that path does not exist, and after it nothing but
    copies: the directory is asked for before the first file is copied,
    and no file is copied when it could not be made. The installer does
    not handle errors: the first call that raises is the last one it
    makes, and the error of that call is the result; a run that returns
    has no failed call. *)
Theorem install_stops_at_first_failure (il : install_lib_cmd) (st : State) :
  exists r st' delta,
    install w h il st = (r, st')
    /\ log st' = (log st ++ delta)%list
    /\ execs delta = []
    /\ (path_isdir (fs st) (build_dir il) = false ->
        r = inr tt
        /\ delta = [Warn ("'" ++ build_dir il
                          ++ "' does not exist -- no Python modules to install")]
        /\ fs st' = fs st)
    /\ (path_isdir (fs st) (build_dir il) = true ->
        (path_exists (fs st) (install_dir il) = true ->
         forall e, In e delta -> exists s d err, e = CopyFile s d err)
        /\ (path_exists (fs st) (install_dir il) = false ->
            exists err rest,
              delta = Mkpath (install_dir il) err :: rest
              /\ (forall e, In e rest -> exists s d err', e = CopyFile s d err')
              /\ (forall x, err = Some x -> rest = [] /\ r = inl x)))
    /\ (forall x, r = inl x ->
        exists pre e,
          delta = (pre ++ [e])%list /\ event_error e = Some x
          /\ forall e', In e' pre -> event_error e' = None)
    /\ (r = inr tt -> forall e, In e delta -> event_error e = None).
Proof.
  destruct (path_isdir (fs st) (build_dir il)) eqn:Hdir.
  - destruct (install_run w h il st Hdir)
      as (r & st' & dirs1 & dirs2 & delta & E & Hl & _ & _ & Hshape).
    exists r, st', delta. split; [exact E|]. split; [exact Hl|].
    destruct Hshape as [(x & Hex & Ed & Er)|(cp & Ed & Ht)]; subst delta.
    + (* the install directory could not be made *)
      subst r. split; [reflexivity|]. split; [discriminate|]. split.
      { intros _. split; [rewrite Hex; discriminate|]. intros _.
        exists (Some x), []. split; [reflexivity|]. split; [intros e []|].
        intros y Ey. inversion Ey. split; reflexivity. }
      split; [|discriminate].
      intros y Ey. inversion Ey. subst y. exists [], (Mkpath (install_dir il) (Some x)).
      split; [reflexivity|]. split; [reflexivity|]. intros e' [].
    + (* the copies *)
      assert (Hcp : forall e, In e cp -> exists s d err, e = CopyFile s d err).
      { intros e Hin. exact (proj1 (copy_trace_events h _ _ _ _ _ Ht Hin)). }
      split.
      { rewrite execs_app, (execs_copy_trace _ _ _ _ Ht), app_nil_r.
        unfold mkpath_events. destruct (path_exists (fs st) (install_dir il)); reflexivity. }
      split; [discriminate|]. split.
      { intros _. unfold mkpath_events. split.
        - intros Hex. rewrite Hex. exact Hcp.
        - intros Hex. rewrite Hex. exists None, cp. split; [reflexivity|].
          split; [exact Hcp|discriminate]. }
      split.
      * intros x Er. subst r.
        destruct (copy_trace_last h _ _ _ _ Ht) as (pre & s & d & Ecp & Hok).
        exists (mkpath_events il st ++ pre)%list, (CopyFile s d (Some x)).
        split; [rewrite Ecp, app_assoc; reflexivity|]. split; [reflexivity|].
        intros e' Hin. apply in_app_iff in Hin. destruct Hin as [Hin|Hin].
        -- destruct (mkpath_events_ok _ _ _ Hin) as [Ee _]. subst e'. reflexivity.
        -- exact (Hok e' Hin).
      * intros Er. subst r. intros e Hin. apply in_app_iff in Hin.
        destruct Hin as [Hin|Hin].
        -- destruct (mkpath_events_ok _ _ _ Hin) as [Ee _]. subst e. reflexivity.
        -- exact (copy_trace_returns h _ _ _ Ht e Hin).
  - eexists. eexists. eexists. split.
    { unfold install, bind, os_path_isdir. rewrite Hdir. simpl. reflexivity. }
    simpl. split; [reflexivity|]. split; [reflexivity|].
    split; [intros _; repeat split; reflexivity|]. split; [discriminate|].
    split; [discriminate|]. intros _ e [Ee|[]]. subst e. reflexivity.
Qed.

Lemma filter_length_disjoint {A} (p q : A -> bool) l :
  (forall x, p x = true -> q x = false) ->
  (length (filter p l) + length (filter q l))%nat
  = length (filter (fun x => (p x || q x)%bool) l).
Proof.
  intros Hd. induction l as [|x l IH]; [reflexivity|].
  simpl. destruct (p x) eqn:Ep; simpl.
  - rewrite (Hd x Ep). simpl. rewrite IH. reflexivity.
  - destruct (q x); simpl; rewrite <- IH; lia.
Qed.


End InstallerMore.

(** ** Script relocation and the shim build *)

Section RelocationMore.

Variable w : World.
Variable h : Host.
Variable g : Globals.
Variable self : build_ext_cmd.
Variable ext : Extension.

(** X17. On a host that is not win32, where [os.path] is [posixpath]: a
    script given by an absolute path is never relocated, and no script
    is when the extension module has no directory part: the scripts of
    the command are then the configured ones, unchanged. *)
Theorem finalize_options_keeps_absolute_scripts (bs : build_scripts_cmd)
    (st : State) (l : list string) :
  on_windows h = false ->
  distribution_scripts bs = Some l ->
  os_path_dirname h (get_ext_fullpath (build_ext_command bs) "clr") = EmptyString
  \/ (forall s, In s l -> Py.starts_with_char (os_sep h) s = true) ->
  exists bs',
    finalize_options h bs st = (inr bs', st)
    /\ scripts bs' = Some l.
Proof.
  intros _ Hd Habs.
  set (output_dir := os_path_dirname h (get_ext_fullpath (build_ext_command bs) "clr"))
    in *.
  assert (Hsame : map (relocated h (fs st) output_dir) l = l).
  { rewrite <- (map_id l) at 2. apply map_ext_in. intros s Hs.
    unfold relocated.
    assert (Hj : os_path_join h output_dir s = s).
    { unfold os_path_join. destruct Habs as [Ho|Ha].
      - rewrite Ho. destruct (Py.starts_with_char (os_sep h) s); reflexivity.
      - rewrite (Ha s Hs). reflexivity. }
    rewrite Hj. destruct (path_exists (fs st) s); reflexivity. }
  unfold finalize_options. simpl. rewrite Hd.
  destruct l as [|s l].
  - eexists. split; [reflexivity|]. simpl. exact Hd.
  - fold output_dir. unfold bind. rewrite relocate_scripts_run. cbn [app].
    eexists. split; [reflexivity|]. cbn [scripts]. rewrite Hsame. reflexivity.
Qed.

(** X18. The script relocator looks for the companion executable where
    the shim build links it. For the extension and the script that
    [setup] registers, and with the [build_ext] command of the build:
    whenever a run calls the linker, the path the relocator tests, and
    takes when it exists, is the output directory of that call joined
    with the program name of that call. *)
Theorem relocation_finds_linked_executable (st st2 : State)
    (bs : build_scripts_cmd) :
  In ext setup_ext_modules ->
  build_ext_command bs = self ->
  distribution_scripts bs = Some (setup_scripts g) ->
  exists r st' delta,
    build_extension w h g self ext st = (r, st')
    /\ log st' = (log st ++ delta)%list
    /\ forall a err,
         In (LinkExecutable a err) delta ->
         let exe := os_path_join h (l_output_dir a) (l_output_progname a) in
         exists bs',
           finalize_options h bs st2 = (inr bs', st2)
           /\ scripts bs'
              = Some [if path_exists (fs st2) exe then exe else l_output_progname a].
Proof.
  intros Hext Hcmd Hd.
  assert (Hname : name ext = "clr")
    by (destruct Hext as [E|[]]; rewrite <- E; reflexivity).
  destruct (build_extension_run w h g self ext st Hname)
    as (r & st' & delta & E & Hl & Hrun & _).
  exists r, st', delta. split; [exact E|]. split; [exact Hl|].
  intros a err Hin exe.
  assert (Ha : l_output_dir a = dest_dir h self ext
               /\ l_output_progname a = _npython_exe g).
  { edestruct build_run_shim as (_ & d1 & o1 & e1 & o2 & e2 & ds & _ & Hds & _ & Hst);
      [exact Hrun|exact Hin|reflexivity|].
    edestruct shim_trace_events as (_ & _ & _ & Hlink & _); [exact Hst|exact Hds|].
    exact (Hlink a err eq_refl). }
  destruct Ha as [Ho Hp].
  unfold finalize_options. simpl. rewrite Hd, Hcmd. unfold setup_scripts.
  unfold bind. rewrite relocate_scripts_run. cbn [app map].
  eexists. split; [reflexivity|]. cbn [scripts]. unfold relocated, exe.
  rewrite Ho, Hp. unfold dest_dir. rewrite Hname. reflexivity.
Qed.

End RelocationMore.

(** ** Where the script does not do what the specification says *)

(** C1, as stated, fails: on the Linux sample with a Clean that exits 1
    after writing to both of its streams, Build is indeed not attempted,
    but the exception that leaves has no output: its [output] is [None],
    not what the tool wrote. *)
Lemma clean_failure_error_carries_no_output :
  In (Exec Runs.clean_linux true false (Exited 1 "tool stdout" "tool stderr"))
     (log (snd (Runs.run_linux Runs.clean_linux)))
  /\ fst (Runs.run_linux Runs.clean_linux)
     = inl (CalledProcessError 1 Runs.clean_linux None)
  /\ exn_output (CalledProcessError 1 Runs.clean_linux None) <> Some "tool stdout"
  /\ exn_output (CalledProcessError 1 Runs.clean_linux None) <> Some "tool stderr"
  /\ execs (filter (fun e => match e with
                             | Exec c _ _ _ => String.eqb c Runs.build_linux
                             | _ => false
                             end)
              (log (snd (Runs.run_linux Runs.clean_linux)))) = [].
Proof.
  split; [vm_compute; tauto|]. split; [vm_compute; reflexivity|].
  split; [discriminate|]. split; [discriminate|]. vm_compute. reflexivity.
Qed.


(** C6, as stated, fails: on the Linux sample with a restore invocation
    that exits 1 after writing to both of its streams, the exception that
    leaves carries the return code but no output; a failing query, by
    contrast, leaves with its standard output (and without its standard
    error). *)
Lemma restore_failure_error_carries_no_output :
  In (Exec Runs.restore_monoclr_linux true false (Exited 1 "tool stdout" "tool stderr"))
     (log (snd (Runs.run_linux Runs.restore_monoclr_linux)))
  /\ fst (Runs.run_linux Runs.restore_monoclr_linux)
     = inl (CalledProcessError 1 Runs.restore_monoclr_linux None)
  /\ exn_returncode (CalledProcessError 1 Runs.restore_monoclr_linux None) = Some 1
  /\ exn_output (CalledProcessError 1 Runs.restore_monoclr_linux None) = None
  /\ fst (Runs.run_linux "pkg-config --cflags mono-2")
     = inl (CalledProcessError 1 "pkg-config --cflags mono-2" (Some "tool stdout")).
Proof.
  split; [vm_compute; tauto|]. split; [vm_compute; reflexivity|].
  split; [reflexivity|]. split; [reflexivity|]. vm_compute. reflexivity.
Qed.

(** ** The model at work *)

Module Examples.

Import Sample.

Example strip_trims_both_ends :
  Py.strip "  -lmono-2.0 -lm
" = "-lmono-2.0 -lm".
Proof. reflexivity. Qed.

Example split_keeps_empty_pieces :
  Py.split " " "-I/a  -I/b" = ["-I/a"; EmptyString; "-I/b"].
Proof. reflexivity. Qed.

Example str_of_int_decimal : Py.str_of_int 27 = "27" /\ Py.str_of_int 0 = "0".
Proof. split; reflexivity. Qed.

Example split_after_join :
  os_path_split host_linux "build/lib//clr.*" = ("build/lib", "clr.*")
  /\ os_path_split host_linux "/clr.*" = ("/", "clr.*")
  /\ os_path_split host_linux "clr" = (EmptyString, "clr")
  /\ os_path_join host_linux "build/lib/" "clr.*" = "build/lib/clr.*"
  /\ os_path_join host_windows "src" "clrmodule" = "src\clrmodule".
Proof. repeat split; reflexivity. Qed.

Example patterns_on_names :
  pattern_matches host_linux "clr.*" "clr.so" = true
  /\ pattern_matches host_linux "clr.*" "clr" = false
  /\ pattern_matches host_linux "clr.*" "CLR.pyd" = false
  /\ pattern_matches host_windows "clr.*" "CLR.pyd" = true
  /\ pattern_matches host_linux "Python.Runtime.*" "Python.Runtime.dll.mdb" = true
  /\ pattern_matches host_linux "Python.Runtime.*" "unrelated.tmp" = false.
Proof. repeat split; reflexivity. Qed.

Example globals_on_linux : module_globals host_linux = inr globals_linux.
Proof. reflexivity. Qed.

Example globals_on_windows : module_globals host_windows = inr globals_windows.
Proof. reflexivity. Qed.

Example globals_without_msbuild :
  module_globals
    (mkHost "win32" "32bit" (2, 7) 65535 (fun p => p) "python27.lib"
       (fun _ => false) (fun _ _ => inl (OSError "no such key")))
  = inl (RuntimeError "msbuild.exe could not be found").
Proof. reflexivity. Qed.

(** A whole run under Mono in which every tool succeeds: one restore
    (for [monoclr]; [clrmodule] is skipped, [runtime] has no manifest),
    Clean, Build, then the four queries. *)
Example processes_of_a_run_under_mono :
  fst Runs.run_linux_ok = inr tt
  /\ execs (log (snd Runs.run_linux_ok))
     = [ (Runs.restore_monoclr_linux, true);
         (Runs.clean_linux, true);
         (Runs.build_linux, true);
         ("pkg-config --libs mono-2", true);
         ("pkg-config --cflags mono-2", true);
         ("pkg-config --libs glib-2.0", true);
         ("pkg-config --cflags glib-2.0", true) ].
Proof. split; vm_compute; reflexivity. Qed.

(** The same under MsDev: one restore (for [clrmodule]), Clean, Build,
    and no shim build. *)
Example processes_of_a_run_under_msdev :
  execs (log (snd (build_extension world_ok host_windows globals_windows
                     build_ext_windows clr_extension st_windows)))
  = [ (restore_cmd host_windows globals_windows "clrmodule", false);
      (clean_cmd host_windows globals_windows build_ext_windows clr_extension, false);
      (build_cmd host_windows globals_windows build_ext_windows clr_extension, false) ].
Proof. vm_compute. reflexivity. Qed.

(** [npython] is in the build output directory, [other] is not. *)
Example scripts_of_a_relocation :
  option_map scripts
    (match finalize_options host_linux
             (mkBuildScripts None (Some ["npython"; "other"])
                (mkBuildExt (fun n => "build/lib/" ++ n ++ ".so") "build/temp" false
                   (fun _ => [])))
             st_out with
     | (inr c, _) => Some c
     | (inl _, _) => None
     end)
  = Some (Some ["build/lib/npython"; "other"]).
Proof. reflexivity. Qed.

End Examples.

(** ** The theorems at work on the samples *)

Module Witnesses.

Import Sample.

(** A run in which every tool succeeds makes both invocations. *)
Lemma build_invokes_clean_then_build_witness :
  name clr_extension = "clr"
  /\ exists o1 e1 o2 e2,
       filter (is_build_tool_call host_linux globals_linux build_ext_linux clr_extension)
         (log (snd Runs.run_linux_ok))
       = [Exec Runs.clean_linux true false (Exited 0 o1 e1);
          Exec Runs.build_linux true false (Exited 0 o2 e2)].
Proof.
  split; [reflexivity|].
  destruct (build_invokes_clean_then_build world_ok host_linux globals_linux
              build_ext_linux clr_extension st_linux eq_refl)
    as (r & st' & delta & E & Hl & _ & _ & _ & _ & _ & _ & _ & Hret & _).
  assert (Hr : fst Runs.run_linux_ok = inr tt) by (vm_compute; reflexivity).
  unfold Runs.run_linux_ok in *. rewrite E in Hr |- *.
  simpl in Hr |- *. rewrite Hl. simpl.
  destruct (Hret Hr) as (o1 & e1 & o2 & e2 & Hf).
  exists o1, e1, o2, e2. exact Hf.
Defined.

(** With a manifest in both reserved subdirectories and MsDev active, the
    one restore invocation is the one for [clrmodule]. *)
Lemma install_packages_restores_eligible_witness :
  fs_listdir (fs st_windows) "src" = Some ["clrmodule"; "monoclr"]
  /\ execs (log (snd (_install_packages world_ok host_windows globals_windows st_windows)))
     = [restore_call host_windows globals_windows "clrmodule"].
Proof.
  split; [reflexivity|].
  destruct (install_packages_restores_eligible world_ok host_windows globals_windows
              st_windows ["clrmodule"; "monoclr"] eq_refl)
    as (r & st' & delta & E & _ & Hl & _ & _ & _ & Hex).
  rewrite E. simpl. rewrite Hl. simpl.
  apply Hex; reflexivity.
Defined.


(** Installing from a directory that is not there: one warning. *)
Lemma install_missing_output_warns_witness :
  path_exists (fs st_out) "build/nowhere" = false
  /\ fst (install world_ok host_linux (mkInstallLib "build/nowhere" "inst") st_out)
     = inr tt
  /\ exists msg,
       log (snd (install world_ok host_linux (mkInstallLib "build/nowhere" "inst") st_out))
       = [Warn msg].
Proof.
  split; [reflexivity|].
  destruct (install_missing_output_warns world_ok host_linux
              (mkInstallLib "build/nowhere" "inst") st_out eq_refl)
    as (st' & msg & E & _ & Hl & _).
  rewrite E. split; [reflexivity|]. exists msg. simpl. rewrite Hl. reflexivity.
Defined.


(** A failing query raises with its standard output attached. *)
Lemma process_failure_error_witness :
  name clr_extension = "clr"
  /\ fst (Runs.run_linux "pkg-config --libs glib-2.0")
     = inl (CalledProcessError 1 "pkg-config --libs glib-2.0" (Some "tool stdout")).
Proof.
  split; [reflexivity|].
  destruct (process_failure_error
              (world_failing (String.eqb "pkg-config --libs glib-2.0")) host_linux
              globals_linux build_ext_linux clr_extension st_linux eq_refl)
    as (r & st' & delta & E & Hl & Herr).
  assert (Hin : In (Exec "pkg-config --libs glib-2.0" true true
                      (Exited 1 "tool stdout" "tool stderr"))
                   (log (snd (Runs.run_linux "pkg-config --libs glib-2.0"))))
    by (vm_compute; tauto).
  unfold Runs.run_linux in *. rewrite E in Hin |- *.
  simpl in Hin |- *. rewrite Hl in Hin. simpl in Hin.
  assert (Hrc : (1 <> 0)%Z) by discriminate.
  destruct (Herr _ _ _ _ _ _ Hin Hrc) as [Hr _]. exact Hr.
Defined.


(** An extension with another name goes to the stock builder. *)
Lemma build_extension_other_delegates_witness :
  name (mkExtension "other" ["other.c"] [] [] [] [] [] [] [] []) <> "clr"
  /\ build_extension world_ok host_linux globals_linux build_ext_linux
       (mkExtension "other" ["other.c"] [] [] [] [] [] [] [] []) st_linux
     = build_ext_build_extension world_ok
         (mkExtension "other" ["other.c"] [] [] [] [] [] [] [] []) st_linux.
Proof.
  assert (Hn : name (mkExtension "other" ["other.c"] [] [] [] [] [] [] [] []) <> "clr")
    by discriminate.
  split; [exact Hn|].
  exact (proj1 (build_extension_other_delegates world_ok host_linux globals_linux
                  build_ext_linux _ st_linux Hn)).
Defined.

End Witnesses.

(** ** The further properties at work on the samples *)

Module MoreWitnesses.

Import Sample.
Import Cases.

(** With 4.0 and 2.0 in the registry, 4.0 wins. *)
Lemma find_msbuild_path_first_open_key_witness :
  reg_key_exists host_two_msbuilds "SOFTWARE\Microsoft\MSBuild\ToolsVersions\2.0" = true
  /\ _find_msbuild_path host_two_msbuilds = inr "C:\v4.0\msbuild.exe".
Proof.
  split; [reflexivity|].
  rewrite (find_msbuild_path_first_open_key host_two_msbuilds
             ["SOFTWARE\Microsoft\MSBuild\ToolsVersions\12.0"]
             ["SOFTWARE\Microsoft\MSBuild\ToolsVersions\3.5";
              "SOFTWARE\Microsoft\MSBuild\ToolsVersions\2.0"]
             "SOFTWARE\Microsoft\MSBuild\ToolsVersions\4.0" eq_refl).
  - reflexivity.
  - intros k [E|[]]. rewrite <- E. reflexivity.
  - reflexivity.
Defined.

(** Without [src] the build of [clr] does nothing. *)
Lemma build_extension_unlistable_src_witness :
  name clr_extension = "clr"
  /\ fs_listdir (fs st_bare) "src" = None
  /\ build_extension world_ok host_linux globals_linux build_ext_linux clr_extension
       st_bare
     = (inl (OSError "src"), st_bare).
Proof.
  split; [reflexivity|]. split; [reflexivity|].
  exact (proj2 (build_extension_unlistable_src world_ok host_linux globals_linux
                  build_ext_linux clr_extension st_bare eq_refl eq_refl)).
Defined.

(** On the Linux sample the restore step announces and runs the one
    invocation for [monoclr]. *)
Lemma install_packages_announces_each_invocation_witness :
  fs_listdir (fs st_linux) "src" = Some ["clrmodule"; "monoclr"; "runtime"]
  /\ exists runs,
       log (snd (_install_packages world_ok host_linux globals_linux st_linux))
       = restore_events host_linux globals_linux runs
       /\ map fst runs = ["monoclr"].
Proof.
  split; [reflexivity|].
  destruct (install_packages_announces_each_invocation world_ok host_linux globals_linux
              st_linux ["clrmodule"; "monoclr"; "runtime"] eq_refl)
    as (r & st' & runs & rest & E & _ & Hl & Hel & Hok & _).
  assert (Hr : fst (_install_packages world_ok host_linux globals_linux st_linux)
               = inr tt) by (vm_compute; reflexivity).
  rewrite E in Hr |- *. simpl in Hr |- *.
  destruct (Hok Hr) as [Hrest _]. subst rest. rewrite app_nil_r in Hel.
  exists runs. split; [exact Hl|]. rewrite <- Hel. reflexivity.
Defined.

(** The restore command line for [monoclr] under Mono on Linux. *)
Lemma restore_cmd_format_witness :
  Py.contains_char (os_sep host_linux) "monoclr" = false
  /\ restore_cmd host_linux globals_linux "monoclr"
     = "mono tools/nuget/nuget.exe install src/monoclr/packages.config -o packages".
Proof.
  split; [reflexivity|].
  assert (Hne : "monoclr" <> EmptyString) by discriminate.
  exact (proj1 (proj2 (restore_cmd_format host_linux globals_linux "monoclr"
                         Hne eq_refl))).
Defined.

(** A Build that exits 1 is the last entry of the log. *)
Lemma build_extension_stops_at_first_failure_witness :
  name clr_extension = "clr"
  /\ exists pre e,
       log (snd (Runs.run_linux Runs.build_linux)) = (pre ++ [e])%list
       /\ event_error e = Some (CalledProcessError 1 Runs.build_linux None).
Proof.
  split; [reflexivity|].
  destruct (build_extension_stops_at_first_failure
              (world_failing (String.eqb Runs.build_linux)) host_linux globals_linux
              build_ext_linux clr_extension st_linux eq_refl)
    as (r & st' & delta & E & Hl & _ & _ & Hlast).
  assert (Hr : fst (Runs.run_linux Runs.build_linux)
               = inl (CalledProcessError 1 Runs.build_linux None))
    by (vm_compute; reflexivity).
  unfold Runs.run_linux in *. rewrite E in Hr |- *. simpl in Hr |- *.
  destruct (Hlast _ Hr) as [(_ & Hls & _)|(pre & e & Hd & He)].
  - discriminate Hls.
  - exists pre, e. split; [rewrite Hl, Hd; reflexivity|exact He].
Defined.

(** A run in which every tool succeeds: the restore for [monoclr], the
    output directory, the announcement, Clean. *)
Lemma build_extension_prepares_then_cleans_witness :
  name clr_extension = "clr"
  /\ exists runs res post,
       log (snd Runs.run_linux_ok)
       = (restore_events host_linux globals_linux runs
          ++ [Makedirs "build/lib.linux-x86_64-2.7" None]
          ++ Announce (building_announcement host_linux globals_linux build_ext_linux
                         clr_extension)
             :: Exec Runs.clean_linux true false res :: post)%list
       /\ map fst runs = ["monoclr"].
Proof.
  split; [reflexivity|].
  destruct (build_extension_prepares_then_cleans world_ok host_linux globals_linux
              build_ext_linux clr_extension st_linux eq_refl) as [_ Hok].
  assert (Hr : fst (_install_packages world_ok host_linux globals_linux st_linux)
               = inr tt) by (vm_compute; reflexivity).
  destruct (Hok Hr) as (r & st' & runs & E & Hruns & _ & Hcase).
  assert (Hret : fst Runs.run_linux_ok = inr tt) by (vm_compute; reflexivity).
  unfold Runs.run_linux_ok in *. rewrite E in Hret |- *. simpl in Hret |- *.
  destruct Hcase as [(x & _ & Hx & _)|(res & post & Hl & _)].
  - rewrite Hx in Hret. discriminate Hret.
  - exists runs, res, post. split; [exact Hl|exact Hruns].
Defined.


(** Under MsDev no process goes through the shell. *)
Lemma build_extension_shell_by_toolchain_witness :
  name clr_extension = "clr"
  /\ forall c s p res,
       In (Exec c s p res)
          (log (snd (build_extension world_ok host_windows globals_windows
                       build_ext_windows clr_extension st_windows))) ->
       s = false.
Proof.
  split; [reflexivity|].
  destruct (build_extension_shell_by_toolchain world_ok host_windows globals_windows
              build_ext_windows clr_extension st_windows eq_refl)
    as (r & st' & delta & E & Hl & Hs).
  rewrite E. simpl. rewrite Hl. simpl.
  intros c s p res Hin. exact (proj1 (Hs c s p res Hin)).
Defined.

(** The seven calls of a shim build in which every tool succeeds. *)
Lemma build_monoclr_success_witness :
  fst shim_linux = inr tt /\ length (log (snd shim_linux)) = 7%nat.
Proof.
  assert (Hr : fst shim_linux = inr tt) by (vm_compute; reflexivity).
  split; [exact Hr|].
  destruct (build_monoclr_success world_ok host_linux globals_linux build_ext_linux
              clr_extension st_linux Hr)
    as (o1 & e1 & o2 & e2 & o3 & e3 & o4 & e4 & objects & Hl & _).
  unfold shim_linux. rewrite Hl. reflexivity.
Defined.


(** A script with an absolute path stays as it is. *)
Lemma finalize_options_keeps_absolute_scripts_witness :
  on_windows host_linux = false
  /\ distribution_scripts build_scripts_absolute = Some ["/opt/tools/run"]
  /\ exists bs',
       finalize_options host_linux build_scripts_absolute st_linked
       = (inr bs', st_linked)
       /\ scripts bs' = Some ["/opt/tools/run"].
Proof.
  split; [reflexivity|]. split; [reflexivity|].
  apply (finalize_options_keeps_absolute_scripts host_linux build_scripts_absolute
           st_linked ["/opt/tools/run"] eq_refl eq_refl).
  right. intros s [E|[]]. rewrite <- E. reflexivity.
Defined.

(** After a run on the Linux sample, the script [npython] is taken from
    the output directory the linker was given. *)
Lemma relocation_finds_linked_executable_witness :
  In clr_extension setup_ext_modules
  /\ In (LinkExecutable link_linux None) (log (snd Runs.run_linux_ok))
  /\ exists bs',
       finalize_options host_linux build_scripts_linux st_linked = (inr bs', st_linked)
       /\ scripts bs' = Some ["build/lib.linux-x86_64-2.7/npython"].
Proof.
  assert (Hext : In clr_extension setup_ext_modules) by (left; reflexivity).
  assert (Hin : In (LinkExecutable link_linux None) (log (snd Runs.run_linux_ok)))
    by (vm_compute; tauto).
  split; [exact Hext|]. split; [exact Hin|].
  destruct (relocation_finds_linked_executable world_ok host_linux globals_linux
              build_ext_linux clr_extension st_linux st_linked build_scripts_linux
              Hext eq_refl eq_refl)
    as (r & st' & delta & E & Hl & Hreloc).
  unfold Runs.run_linux_ok in Hin. rewrite E in Hin. simpl in Hin.
  rewrite Hl in Hin. simpl in Hin.
  exact (Hreloc link_linux None Hin).
Defined.

End MoreWitnesses.
